(** * Agent pipeline: state machine, intent schema, store protocol, handlers

    A shallow embedding of the TypeScript sources

      - [shared/types.ts], [shared/state-machine.ts], [shared/schema.ts],
        [shared/firestore.ts], [shared/pubsub.ts], [shared/logger.ts]
      - [functions/api.ts], [functions/reasoner.ts], [functions/executor.ts]

    Conventions.

    - JavaScript values of static type [unknown] / [any] are the inductive
      [value]; numbers are exact rationals extended with NaN and the two
      infinities (every finite double is a rational, and the code only
      compares numbers with 0 and 1 and tests them for truthiness).
    - The document store is a record of finite maps, one per collection.
      [collection.doc(id)] is [docRef]: it throws unless [id] is a
      document id ([validDocumentId]: non-empty, without slash, not [.]
      or [..], not starting with two underscores, at most 1500 bytes),
      and such an id is an opaque key.  The client resolves some ids with
      slashes to other paths; the model refuses every id with a slash,
      so what is proved about an operation that returns assumes
      ids that satisfy [validDocumentId].  Optional document fields are
      [option]s: the client is created with [ignoreUndefinedProperties],
      so an [undefined] field is simply not stored.  The store's checks
      on field values (nesting, field names, sizes) are not modelled:
      where a handler stores a value taken from a delivery, what is proved
      about its success assumes a string or another scalar.
    - Strings are strings of bytes, read as UTF-8: [s.length] counts the
      UTF-16 code units of the text the bytes encode.
    - An ISO-8601 timestamp produced by [toISOString] is stored as the
      millisecond count it denotes ([new Date(s).getTime()] reads it back).
    - [async] functions are computations in the monad [M]: a state
      transformer over [World] that either returns or throws.  A store
      transaction runs as one atomic step; its buffered writes are applied
      only when its body does not throw.
    - [Date.now()], [new Date()], [uuidv4()] and the bus-assigned message id
      are read from oracles, one fresh index per call.
    - The libraries the code calls (the schema library, the store and bus
      clients, the HTTP framework) are rendered by the behaviour the code
      relies on; what the sources leave open (the UUID pattern of the schema
      library, the printing of numbers, the decoding of the wire format,
      the environment variables) is a parameter. *)

From Stdlib Require Import ZArith QArith String Ascii List Bool Lia.
From stdpp Require Import base option gmap strings list fin_maps.

Import ListNotations.
Set Warnings "-register-all".
Local Open Scope string_scope.
Local Open Scope Z_scope.

(** ** shared/types.ts *)

Inductive ConversationState :=
  | RECEIVED
  | REASONING_REQUESTED
  | INTENT_VALIDATED
  | ACTION_REQUESTED
  | ACTION_COMPLETED
  | FAILED_VALIDATION
  | FAILED_EXECUTION.

#[global] Instance ConversationState_eq_dec : EqDecision ConversationState.
Proof. solve_decision. Defined.

Definition stateName (s : ConversationState) : string :=
  match s with
  | RECEIVED => "RECEIVED"
  | REASONING_REQUESTED => "REASONING_REQUESTED"
  | INTENT_VALIDATED => "INTENT_VALIDATED"
  | ACTION_REQUESTED => "ACTION_REQUESTED"
  | ACTION_COMPLETED => "ACTION_COMPLETED"
  | FAILED_VALIDATION => "FAILED_VALIDATION"
  | FAILED_EXECUTION => "FAILED_EXECUTION"
  end.

Definition allStates : list ConversationState :=
  [RECEIVED; REASONING_REQUESTED; INTENT_VALIDATED; ACTION_REQUESTED;
   ACTION_COMPLETED; FAILED_VALIDATION; FAILED_EXECUTION].

(** Millisecond timestamps. *)
Definition timestamp := Z.

(** JavaScript numbers. *)
Inductive number :=
  | NaN
  | PosInfinity
  | NegInfinity
  | Finite (q : Q).

(** JavaScript values, as far as JSON and object literals build them. *)
Inductive value :=
  | VUndefined
  | VNull
  | VBool (b : bool)
  | VNum (n : number)
  | VStr (s : string)
  | VArr (items : list value)
  | VObj (fields : list (string * value)).

Definition object := list (string * value).

(** [o[k]]: the first binding of [k], [undefined] when there is none. *)
Fixpoint getField (o : object) (k : string) : value :=
  match o with
  | [] => VUndefined
  | (k', v) :: rest => if String.eqb k' k then v else getField rest k
  end.

(** Whether [o] has an own property [k]. *)
Fixpoint hasField (o : object) (k : string) : bool :=
  match o with
  | [] => false
  | (k', _) :: rest => String.eqb k' k || hasField rest k
  end.

(** ToBoolean. *)
Definition truthy (v : value) : bool :=
  match v with
  | VUndefined | VNull => false
  | VBool b => b
  | VNum NaN => false
  | VNum (Finite q) => negb (Qeq_bool q 0)
  | VNum _ => true
  | VStr s => negb (String.eqb s EmptyString)
  | VArr _ | VObj _ => true
  end.

(** [a || b] on values. *)
Definition orElse (a b : value) : value := if truthy a then a else b.

Record Conversation := {
  conv_conversationId : string;
  conv_state : ConversationState;
  conv_createdAt : timestamp;
  conv_updatedAt : timestamp;
}.

Record UserMessage := {
  msg_messageId : string;
  msg_conversationId : string;
  msg_content : string;
  msg_createdAt : timestamp;
  msg_idempotencyKey : option string;
}.

Record AgentEvent := {
  ev_eventId : string;
  ev_eventType : string;
  ev_conversationId : string;
  ev_messageId : string;
  ev_timestamp : timestamp;
  ev_producer : string;
  ev_payload : object;
}.

(** ** shared/state-machine.ts *)

Definition VALID_TRANSITIONS (current : ConversationState)
  : list ConversationState :=
  match current with
  | RECEIVED => [REASONING_REQUESTED]
  | REASONING_REQUESTED => [INTENT_VALIDATED; FAILED_VALIDATION]
  | INTENT_VALIDATED => [ACTION_REQUESTED]
  | ACTION_REQUESTED => [ACTION_COMPLETED; FAILED_EXECUTION]
  | ACTION_COMPLETED => []
  | FAILED_VALIDATION => []
  | FAILED_EXECUTION => []
  end.

(** [Array.prototype.includes]. *)
Definition includesState (l : list ConversationState) (s : ConversationState)
  : bool :=
  existsb (fun x => bool_decide (x = s)) l.

Definition validateTransition (current next : ConversationState) : bool :=
  includesState (VALID_TRANSITIONS current) next.

(** [Array.prototype.join]. *)
Fixpoint join (sep : string) (l : list string) : string :=
  match l with
  | [] => EmptyString
  | [x] => x
  | x :: rest => x ++ sep ++ join sep rest
  end.

(** Thrown JavaScript errors: constructor and message. *)
Inductive error :=
  | Error (message : string)
  | TypeError (message : string).

Definition errorMessage (e : error) : string :=
  match e with Error m | TypeError m => m end.

Definition invalidTransitionMessage (current next : ConversationState)
  : string :=
  "Invalid state transition: " ++ stateName current ++ " → "
    ++ stateName next ++ ". " ++ "Allowed from " ++ stateName current
    ++ ": [" ++ join ", " (map stateName (VALID_TRANSITIONS current)) ++ "]".

(** [assertTransition]: [inr tt] when it returns, [inl e] when it throws. *)
Definition assertTransition (current next : ConversationState)
  : error + unit :=
  if negb (validateTransition current next)
  then inl (Error (invalidTransitionMessage current next))
  else inr tt.

(** [String.prototype.startsWith]. *)
Fixpoint startsWith (s p : string) {struct p} : bool :=
  match p with
  | EmptyString => true
  | String a p' =>
      match s with
      | EmptyString => false
      | String b s' => Ascii.eqb a b && startsWith s' p'
      end
  end.

(** The error raised by [assertTransition] is the only one whose message
    starts this way; the sources have no error class of their own. *)
Definition isInvalidTransition (e : error) : bool :=
  match e with
  | Error m => startsWith m "Invalid state transition: "
  | TypeError _ => false
  end.

(** ** shared/schema.ts

    [validateIntent] is [IntentSchema.safeParse] followed by a formatting of
    the issues.  The Zod combinators it is built from are rendered here by
    what they check and by the message of the issue they report; the
    regular expression behind [z.string().uuid()] is a parameter. *)

Record ZodIssue := {
  issue_path : list string;
  issue_message : string;
}.

(** Zod's classification of an input, as its messages print it. *)
Definition parsedType (v : value) : string :=
  match v with
  | VUndefined => "undefined"
  | VNull => "null"
  | VBool _ => "boolean"
  | VNum NaN => "nan"
  | VNum _ => "number"
  | VStr _ => "string"
  | VArr _ => "array"
  | VObj _ => "object"
  end.

Definition invalidType (expected : string) (v : value) : string :=
  match v with
  | VUndefined => "Required"
  | _ => "Expected " ++ expected ++ ", received " ++ parsedType v
  end.

Definition intentActions : list string :=
  ["search"; "calculate"; "summarize"; "translate"].

Definition includesString (l : list string) (s : string) : bool :=
  existsb (fun x => String.eqb x s) l.

Definition quoted (s : string) : string := "'" ++ s ++ "'".

Definition Qleb (a b : Q) : bool := Qle_bool a b.

(** [n >= 0] and [n <= 1] on JavaScript numbers. *)
Definition geZero (n : number) : bool :=
  match n with
  | Finite q => Qleb 0 q
  | PosInfinity => true
  | NegInfinity | NaN => false
  end.

Definition leOne (n : number) : bool :=
  match n with
  | Finite q => Qleb q 1
  | NegInfinity => true
  | PosInfinity | NaN => false
  end.

Record ValidatedIntent := {
  vi_intentId : string;
  vi_conversationId : string;
  vi_messageId : string;
  vi_action : string;
  vi_parameters : object;
  vi_confidence : number;
}.

Record ValidationResult := {
  valid : bool;
  data : option ValidatedIntent;
  error_ : option string;
}.

Section Schema.

(** The test made by [z.string().uuid()]. *)
Variable isUuid : string -> bool.

(** Messages of the issues each field schema reports, in order. *)

(** [z.string().uuid()] *)
Definition checkUuidString (v : value) : list string :=
  match v with
  | VStr s => if isUuid s then [] else ["Invalid uuid"]
  | _ => [invalidType "string" v]
  end.

(** [z.string().min(1)] *)
Definition checkNonEmptyString (v : value) : list string :=
  match v with
  | VStr s =>
      if (String.length s <? 1)%nat
      then ["String must contain at least 1 character(s)"]
      else []
  | _ => [invalidType "string" v]
  end.

(** [z.enum(['search', 'calculate', 'summarize', 'translate'])] *)
Definition checkAction (v : value) : list string :=
  let expected := join " | " (map quoted intentActions) in
  match v with
  | VStr s =>
      if includesString intentActions s then []
      else ["Invalid enum value. Expected " ++ expected
              ++ ", received " ++ quoted s]
  | _ => [invalidType expected v]
  end.

(** [z.record(z.unknown())] *)
Definition checkRecord (v : value) : list string :=
  match v with
  | VObj _ => []
  | _ => [invalidType "object" v]
  end.

(** [z.number().min(0).max(1)] *)
Definition checkUnitNumber (v : value) : list string :=
  match v with
  | VNum NaN => [invalidType "number" v]
  | VNum n =>
      (if geZero n then []
       else ["Number must be greater than or equal to 0"])
      ++ (if leOne n then []
          else ["Number must be less than or equal to 1"])
  | _ => [invalidType "number" v]
  end.

Definition at_path (k : string) (msgs : list string) : list ZodIssue :=
  map (fun m => {| issue_path := [k]; issue_message := m |}) msgs.

(** The shape of [IntentSchema], keys in declaration order. *)
Definition IntentSchema_shape : list (string * (value -> list string)) :=
  [ ("intentId", checkUuidString);
    ("conversationId", checkNonEmptyString);
    ("messageId", checkNonEmptyString);
    ("action", checkAction);
    ("parameters", checkRecord);
    ("confidence", checkUnitNumber) ].

Definition objectIssues (o : object) : list ZodIssue :=
  flat_map (fun '(k, check) => at_path k (check (getField o k)))
           IntentSchema_shape.

(** The parsed output: the six declared keys, unknown keys stripped. *)
Definition parsedIntent (o : object) : option ValidatedIntent :=
  match getField o "intentId", getField o "conversationId",
        getField o "messageId", getField o "action",
        getField o "parameters", getField o "confidence" with
  | VStr i, VStr c, VStr m, VStr a, VObj p, VNum n =>
      Some {| vi_intentId := i; vi_conversationId := c; vi_messageId := m;
              vi_action := a; vi_parameters := p; vi_confidence := n |}
  | _, _, _, _, _, _ => None
  end.

(** [IntentSchema.safeParse]: the issues, or the parsed data. *)
Definition safeParse (raw : value) : list ZodIssue + ValidatedIntent :=
  match raw with
  | VObj o =>
      match objectIssues o, parsedIntent o with
      | [], Some d => inr d
      | issues, _ => inl issues
      end
  | _ => inl [{| issue_path := []; issue_message := invalidType "object" raw |}]
  end.

Definition formatIssue (i : ZodIssue) : string :=
  join "." (issue_path i) ++ ": " ++ issue_message i.

Definition validateIntent (raw : value) : ValidationResult :=
  match safeParse raw with
  | inr d => {| valid := true; data := Some d; error_ := None |}
  | inl issues =>
      {| valid := false; data := None;
         error_ := Some (join "; " (map formatIssue issues)) |}
  end.

End Schema.

(** ** Documents kept in the store *)

(** Fields filled through an unchecked cast ([e as string], [e as number])
    hold whatever value the expression has at run time. *)
Record ReasoningIntent := {
  ri_intentId : value;
  ri_conversationId : string;
  ri_messageId : string;
  ri_action : value;
  ri_parameters : value;
  ri_confidence : value;
  ri_createdAt : timestamp;
  ri_valid : bool;
  ri_validationError : option string;
}.

Record ActionResult := {
  ar_actionId : string;
  ar_conversationId : string;
  ar_intentId : value;
  ar_messageId : string;
  ar_result : object;
  ar_executedAt : timestamp;
  ar_success : bool;
  ar_error : option string;
}.

Record EventLogEntry := {
  el_eventId : string;
  el_eventType : string;
  el_timestamp : timestamp;
  el_payload : object;
}.

(** A receipt document; any field may be missing, since [completeReceipt]
    can create the document with two fields only. *)
Record Receipt := {
  rc_eventId : option string;
  rc_handler : option string;
  rc_conversationId : option string;
  rc_messageId : option string;
  rc_status : option string;
  rc_claimedAt : option timestamp;
  rc_completedAt : option timestamp;
  rc_retriedAt : option timestamp;
}.

Record IdempotencyKeyDoc := {
  ik_messageId : string;
  ik_createdAt : timestamp;
}.

(** The collections: [conversations/{id}] with its sub-collections
    [messages], [intents], [actions], [events] (keyed by conversation id
    and document id), and the root collections [receipts] and
    [idempotencyKeys]. *)
Record Store := {
  conversations : gmap string Conversation;
  messages : gmap (string * string) UserMessage;
  intents : gmap (string * string) ReasoningIntent;
  actions : gmap (string * string) ActionResult;
  events : gmap (string * string) EventLogEntry;
  receipts : gmap string Receipt;
  idempotencyKeys : gmap string IdempotencyKeyDoc;
}.

(** A message handed to the bus by [publishMessage]. *)
Record PublishedMessage := {
  pm_topic : string;
  pm_data : AgentEvent;
  pm_attributes : list (string * string);
}.

Inductive Severity := DEBUG | INFO | WARNING | ERROR.

(** A line written by the logger (the context fields are left out). *)
Record LogEntry := {
  le_severity : Severity;
  le_message : string;
  le_timestamp : timestamp;
}.

Record World := {
  store : Store;
  published : list PublishedMessage;
  logged : list LogEntry;
  clockReads : nat;
  uuidReads : nat;
  publishAttempts : nat;
}.

Definition emptyStore : Store :=
  {| conversations := ∅; messages := ∅; intents := ∅; actions := ∅;
     events := ∅; receipts := ∅; idempotencyKeys := ∅ |}.

Definition initialWorld : World :=
  {| store := emptyStore; published := []; logged := [];
     clockReads := 0; uuidReads := 0; publishAttempts := 0 |}.

(** One more reading of the clock, one more UUID drawn, one more line
    logged. *)
Definition tick (w : World) : World :=
  {| store := store w; published := published w; logged := logged w;
     clockReads := S (clockReads w); uuidReads := uuidReads w;
     publishAttempts := publishAttempts w |}.

Definition mint (w : World) : World :=
  {| store := store w; published := published w; logged := logged w;
     clockReads := clockReads w; uuidReads := S (uuidReads w);
     publishAttempts := publishAttempts w |}.

Definition logLine (entry : LogEntry) (w : World) : World :=
  {| store := store w; published := published w;
     logged := logged w ++ [entry];
     clockReads := clockReads w; uuidReads := uuidReads w;
     publishAttempts := publishAttempts w |}.

Definition withStore (s : Store) (w : World) : World :=
  {| store := s; published := published w; logged := logged w;
     clockReads := clockReads w; uuidReads := uuidReads w;
     publishAttempts := publishAttempts w |}.

Definition setConversations (m : gmap string Conversation) (s : Store) :=
  {| conversations := m; messages := messages s; intents := intents s;
     actions := actions s; events := events s; receipts := receipts s;
     idempotencyKeys := idempotencyKeys s |}.

Definition setMessages (m : gmap (string * string) UserMessage) (s : Store) :=
  {| conversations := conversations s; messages := m; intents := intents s;
     actions := actions s; events := events s; receipts := receipts s;
     idempotencyKeys := idempotencyKeys s |}.

Definition setIntents (m : gmap (string * string) ReasoningIntent)
  (s : Store) :=
  {| conversations := conversations s; messages := messages s; intents := m;
     actions := actions s; events := events s; receipts := receipts s;
     idempotencyKeys := idempotencyKeys s |}.

Definition setActions (m : gmap (string * string) ActionResult) (s : Store) :=
  {| conversations := conversations s; messages := messages s;
     intents := intents s; actions := m; events := events s;
     receipts := receipts s; idempotencyKeys := idempotencyKeys s |}.

Definition setEvents (m : gmap (string * string) EventLogEntry) (s : Store) :=
  {| conversations := conversations s; messages := messages s;
     intents := intents s; actions := actions s; events := m;
     receipts := receipts s; idempotencyKeys := idempotencyKeys s |}.

Definition setReceipts (m : gmap string Receipt) (s : Store) :=
  {| conversations := conversations s; messages := messages s;
     intents := intents s; actions := actions s; events := events s;
     receipts := m; idempotencyKeys := idempotencyKeys s |}.

Definition setIdempotencyKeys (m : gmap string IdempotencyKeyDoc)
  (s : Store) :=
  {| conversations := conversations s; messages := messages s;
     intents := intents s; actions := actions s; events := events s;
     receipts := receipts s; idempotencyKeys := m |}.

(** ** The monad of handlers *)

Inductive outcome (A : Type) :=
  | Return (a : A)
  | Throw (e : error).
Arguments Return {A} a.
Arguments Throw {A} e.

Definition M (A : Type) : Type := World -> outcome A * World.

Definition ret {A} (a : A) : M A := fun w => (Return a, w).

Definition throw {A} (e : error) : M A := fun w => (Throw e, w).

Definition bind {A B} (c : M A) (k : A -> M B) : M B :=
  fun w =>
    match c w with
    | (Return a, w') => k a w'
    | (Throw e, w') => (Throw e, w')
    end.

(** [try { c } catch (err) { h err }] *)
Definition tryCatch {A} (c : M A) (h : error -> M A) : M A :=
  fun w =>
    match c w with
    | (Return a, w') => (Return a, w')
    | (Throw e, w') => h e w'
    end.

Notation "'let*' x ':=' c 'in' k" := (bind c (fun x => k))
  (at level 10, x name, c at level 100, k at level 200).

Definition getWorld : M World := fun w => (Return w, w).

Definition modifyStore (f : Store -> Store) : M unit :=
  fun w => (Return tt, withStore (f (store w)) w).

(** [runTransaction]: the writes the body buffered are committed when it
    returns and dropped when it throws; the body runs in isolation. *)
Definition runTransaction {A} (body : M A) : M A :=
  fun w =>
    match body w with
    | (Return a, w') => (Return a, w')
    | (Throw e, w') => (Throw e, withStore (store w) w')
    end.

(** What an invocation of a bus-triggered function reports to the bus. *)
Inductive Delivery := Ack | Nack (e : error).

Definition deliveryOf (r : outcome unit) : Delivery :=
  match r with Return _ => Ack | Throw e => Nack e end.

(** Values as the store keeps them: with [ignoreUndefinedProperties] an
    [undefined] entry of a map or of an array is skipped, at any depth. *)
Fixpoint ignoreUndefined (v : value) : value :=
  match v with
  | VArr items =>
      VArr ((fix go (l : list value) : list value :=
               match l with
               | [] => []
               | VUndefined :: rest => go rest
               | x :: rest => ignoreUndefined x :: go rest
               end) items)
  | VObj fields =>
      VObj ((fix go (l : list (string * value)) : list (string * value) :=
               match l with
               | [] => []
               | (_, VUndefined) :: rest => go rest
               | (k, x) :: rest => (k, ignoreUndefined x) :: go rest
               end) fields)
  | _ => v
  end.

Definition storedFields (o : object) : object :=
  match ignoreUndefined (VObj o) with
  | VObj o' => o'
  | _ => []
  end.

Definition numberEqb (a b : number) : bool :=
  match a, b with
  | NaN, NaN => true
  | PosInfinity, PosInfinity => true
  | NegInfinity, NegInfinity => true
  | Finite x, Finite y => Qeq_bool x y
  | _, _ => false
  end.

(** Equality of stored values, as an equality filter of a query tests it. *)
Fixpoint valueEqb (a b : value) : bool :=
  match a, b with
  | VUndefined, VUndefined => true
  | VNull, VNull => true
  | VBool x, VBool y => Bool.eqb x y
  | VNum x, VNum y => numberEqb x y
  | VStr x, VStr y => String.eqb x y
  | VArr xs, VArr ys =>
      (fix go (l : list value) (r : list value) : bool :=
         match l, r with
         | [], [] => true
         | x :: l', y :: r' => valueEqb x y && go l' r'
         | _, _ => false
         end) xs ys
  | VObj xs, VObj ys =>
      (fix go (l : list (string * value)) (r : list (string * value)) : bool :=
         match l, r with
         | [], [] => true
         | (k, x) :: l', (k', y) :: r' =>
             String.eqb k k' && valueEqb x y && go l' r'
         | _, _ => false
         end) xs ys
  | _, _ => false
  end.

(** The error [doc(id)] raises for an [id] that is not a non-empty
    string. *)
Definition dquote : string := String "034"%char EmptyString.

Definition invalidDocumentPath : error :=
  Error ("Value for argument " ++ dquote ++ "documentPath" ++ dquote
         ++ " is not a valid resource path. Path must be a non-empty string.").

(** The ids that name a document of a collection, for the client and for
    the store: non-empty, without slash, not [.] or [..], not starting
    with two underscores, at most 1500 bytes. *)
Fixpoint hasSlash (s : string) : bool :=
  match s with
  | EmptyString => false
  | String c rest => Ascii.eqb c "/"%char || hasSlash rest
  end.

Definition validDocumentId (id : string) : bool :=
  negb (String.eqb id EmptyString)
  && negb (hasSlash id)
  && negb (String.eqb id ".")
  && negb (String.eqb id "..")
  && negb (startsWith id "__")
  && (String.length id <=? 1500)%nat.

Arguments validDocumentId : simpl never.

(** The error an id that is not a document id is refused with. *)
Definition documentPathError (id : string) : error :=
  if String.eqb id EmptyString then invalidDocumentPath
  else
    Error ("Value for argument " ++ dquote ++ "documentPath" ++ dquote
           ++ " must point to a document, but was " ++ dquote ++ id ++ dquote
           ++ ". Your path does not contain an even number of components.").

(** The error [where(field, '==', undefined)] raises. *)
Definition undefinedQueryValue : error :=
  Error ("Value for argument " ++ dquote ++ "value" ++ dquote
         ++ " is not a valid query constraint. " ++ dquote ++ "undefined"
         ++ dquote ++ " values are only ignored inside of objects.").

Record ReceiptMeta := {
  meta_handler : string;
  meta_conversationId : string;
  meta_messageId : string;
}.

(** The result of [claimIdempotencyKey]:
    [{ isNew: true } | { isNew: false; existingMessageId }]. *)
Inductive IdempotencyClaim :=
  | IsNew
  | Existing (existingMessageId : string).

(** [MessagePublishedData], reduced to the field the decoder reads. *)
Record PubsubMessage := { pmsg_data : option string }.
Record MessagePublishedData := { mpd_message : option PubsubMessage }.

Definition RECEIPT_STALE_THRESHOLD_MS : Z := 2 * 60 * 1000.

Definition statusIs (data : Receipt) (s : string) : bool :=
  match rc_status data with
  | Some s' => String.eqb s' s
  | None => false
  end.

(** [String.prototype.toLowerCase] and [String.prototype.includes], on
    strings of bytes: the letters A-Z are folded, other bytes are kept.
    The full mapping also changes letters outside ASCII, into text that is
    again outside ASCII except for the Kelvin sign (which becomes [k]) and
    the dotted capital I (which becomes [i] and a combining dot).  The
    keywords [mockReasoning] looks for are ASCII words without [k] in
    which [i] is never the last letter, so [includes] finds the same
    keywords after either lower-casing. *)
Definition lowerAscii (c : ascii) : ascii :=
  let n := nat_of_ascii c in
  if ((65 <=? n) && (n <=? 90))%nat then ascii_of_nat (n + 32) else c.

Fixpoint toLowerCase (s : string) : string :=
  match s with
  | EmptyString => EmptyString
  | String c rest => String (lowerAscii c) (toLowerCase rest)
  end.

Fixpoint includes (s needle : string) : bool :=
  startsWith s needle
  || match s with
     | EmptyString => false
     | String _ rest => includes rest needle
     end.

(** The message of the 400 response. *)
Definition missingContent : string :=
  "Missing or invalid " ++ dquote ++ "content" ++ dquote ++ " field".

(** The output of [executeTool]. *)
Record ToolOutput := {
  success : bool;
  result : object;
  tool_error : option string;
}.

(** Code that is not [async] and may throw: a result or the error. *)
Definition andThen {A B} (r : error + A) (k : A -> error + B) : error + B :=
  match r with
  | inl e => inl e
  | inr a => k a
  end.

Notation "'let?' x ':=' r 'in' k" := (andThen r (fun x => k))
  (at level 10, x name, r at level 100, k at level 200).

Definition orThrow {A} (r : error + A) : M A :=
  match r with
  | inl e => throw e
  | inr a => ret a
  end.

(** The [TypeError] of a conversion to string that finds no method. *)
Definition cannotConvertToPrimitive : error :=
  TypeError "Cannot convert object to primitive value".

(** [v.k], for the property names the tools read ([query], [expression],
    [text], [targetLang]): an own data property of a plain object;
    [undefined] on an array, a string, a number or a boolean, none of which
    has a property of these names; a [TypeError] on [null] and
    [undefined]. *)
Definition getProp (v : value) (k : string) : error + value :=
  match v with
  | VObj o => inr (getField o k)
  | VNull =>
      inl (TypeError ("Cannot read properties of null (reading '" ++ k
                      ++ "')"))
  | VUndefined =>
      inl (TypeError ("Cannot read properties of undefined (reading '" ++ k
                      ++ "')"))
  | _ => inr VUndefined
  end.

(** An HTTP request as the [POST /messages] handler reads it, and the
    response it sends.  The body parsers in front of the handler always
    leave a value with properties in [req.body] (an empty object when
    nothing was parsed); it is kept as the map of its own properties.
    [req_idempotencyKey] is the [x-idempotency-key] header. *)
Record Request := {
  req_body : object;
  req_idempotencyKey : option string;
}.

Record Response := {
  res_status : Z;
  res_body : object;
}.

Section Pipeline.

(** The environment: the UUID test of the schema library, the printing of
    numbers, the clock, the UUID generator, what the bus answers to the
    n-th publish, and the decoding of a base64-wrapped JSON envelope. *)
Variable isUuid : string -> bool.
Variable numberToString : number -> string.
Variable clock : nat -> timestamp.
Variable uuidv4_at : nat -> string.
Variable publishMessage_at : nat -> error + string.
Variable parseEnvelope : string -> error + AgentEvent.
Variable env_TOPIC_REASONING : option string.
Variable env_TOPIC_ACTION : option string.

(** [new Date()] / [Date.now()] *)
Definition newDate : M timestamp :=
  fun w => (Return (clock (clockReads w)), tick w).

Definition uuidv4 : M string :=
  fun w => (Return (uuidv4_at (uuidReads w)), mint w).

(** *** shared/logger.ts *)

Definition write (severity : Severity) (message : string) : M unit :=
  let* now := newDate in
  fun w =>
    (Return tt,
     logLine {| le_severity := severity; le_message := message;
                le_timestamp := now |} w).

Definition log_info := write INFO.
Definition log_warn := write WARNING.
Definition log_error := write ERROR.

(** *** shared/firestore.ts *)

(** [collection.doc(id)]: throws, before anything is read or written,
    unless [id] is a document id. *)
Definition docRef (id : string) : M unit :=
  if validDocumentId id then ret tt else throw (documentPathError id).

Definition createConversation (conversationId : string) : M Conversation :=
  let* now := newDate in
  let conversation :=
    {| conv_conversationId := conversationId; conv_state := RECEIVED;
       conv_createdAt := now; conv_updatedAt := now |} in
  let* _ := docRef conversationId in
  let* _ := modifyStore (fun s =>
    setConversations (<[conversationId := conversation]> (conversations s)) s) in
  ret conversation.

Definition getConversation (conversationId : string)
  : M (option Conversation) :=
  let* _ := docRef conversationId in
  let* w := getWorld in
  ret (conversations (store w) !! conversationId).

Definition transitionState (conversationId : string)
  (nextState : ConversationState) : M unit :=
  let* _ := docRef conversationId in
  runTransaction (
    let* w := getWorld in
    match conversations (store w) !! conversationId with
    | None =>
        throw (Error ("Conversation " ++ conversationId ++ " not found"))
    | Some current =>
        match assertTransition (conv_state current) nextState with
        | inl e => throw e
        | inr _ =>
            let* now := newDate in
            modifyStore (fun s =>
              setConversations
                (<[conversationId :=
                     {| conv_conversationId := conv_conversationId current;
                        conv_state := nextState;
                        conv_createdAt := conv_createdAt current;
                        conv_updatedAt := now |}]> (conversations s)) s)
        end
    end).

Definition saveMessage (msg : UserMessage) : M unit :=
  let* _ := docRef (msg_conversationId msg) in
  let* _ := docRef (msg_messageId msg) in
  modifyStore (fun s =>
    setMessages
      (<[(msg_conversationId msg, msg_messageId msg) := msg]> (messages s)) s).

Definition claimReceipt (eventId : string) (meta : ReceiptMeta) : M bool :=
  let* _ := docRef eventId in
  runTransaction (
    let* w := getWorld in
    match receipts (store w) !! eventId with
    | Some data =>
        if statusIs data "completed" then ret false
        else if statusIs data "processing" then
          match rc_claimedAt data with
          | Some claimedAt =>
              let* now := newDate in
              let age := now - claimedAt in
              if age <? RECEIPT_STALE_THRESHOLD_MS then ret false
              else
                let* claimed := newDate in
                let* retried := newDate in
                let* _ := modifyStore (fun s =>
                  setReceipts
                    (<[eventId :=
                         {| rc_eventId := rc_eventId data;
                            rc_handler := rc_handler data;
                            rc_conversationId := rc_conversationId data;
                            rc_messageId := rc_messageId data;
                            rc_status := Some "processing";
                            rc_claimedAt := Some claimed;
                            rc_completedAt := rc_completedAt data;
                            rc_retriedAt := Some retried |}]> (receipts s)) s) in
                ret true
          | None => ret false
          end
        else ret false
    | None =>
        let* now := newDate in
        let* _ := modifyStore (fun s =>
          setReceipts
            (<[eventId :=
                 {| rc_eventId := Some eventId;
                    rc_handler := Some (meta_handler meta);
                    rc_conversationId := Some (meta_conversationId meta);
                    rc_messageId := Some (meta_messageId meta);
                    rc_status := Some "processing";
                    rc_claimedAt := Some now;
                    rc_completedAt := None;
                    rc_retriedAt := None |}]> (receipts s)) s) in
        ret true
    end).

(** [set(..., { merge: true })] of [status] and [completedAt]. *)
Definition mergeCompleted (now : timestamp) (old : option Receipt)
  : Receipt :=
  match old with
  | Some data =>
      {| rc_eventId := rc_eventId data; rc_handler := rc_handler data;
         rc_conversationId := rc_conversationId data;
         rc_messageId := rc_messageId data;
         rc_status := Some "completed";
         rc_claimedAt := rc_claimedAt data;
         rc_completedAt := Some now;
         rc_retriedAt := rc_retriedAt data |}
  | None =>
      {| rc_eventId := None; rc_handler := None;
         rc_conversationId := None; rc_messageId := None;
         rc_status := Some "completed";
         rc_claimedAt := None;
         rc_completedAt := Some now;
         rc_retriedAt := None |}
  end.

Definition completeReceipt (eventId : string) : M unit :=
  let* _ := docRef eventId in
  let* now := newDate in
  modifyStore (fun s =>
    setReceipts
      (<[eventId := mergeCompleted now (receipts s !! eventId)]> (receipts s))
      s).

Definition claimIdempotencyKey (key messageId : string)
  : M IdempotencyClaim :=
  let* _ := docRef key in
  runTransaction (
    let* w := getWorld in
    match idempotencyKeys (store w) !! key with
    | Some data => ret (Existing (ik_messageId data))
    | None =>
        let* now := newDate in
        let* _ := modifyStore (fun s =>
          setIdempotencyKeys
            (<[key := {| ik_messageId := messageId; ik_createdAt := now |}]>
               (idempotencyKeys s)) s) in
        ret IsNew
    end).

Definition logEvent (conversationId eventId eventType : string)
  (payload : object) : M unit :=
  let* _ := docRef conversationId in
  let* _ := docRef eventId in
  let* now := newDate in
  modifyStore (fun s =>
    setEvents
      (<[(conversationId, eventId) :=
           {| el_eventId := eventId; el_eventType := eventType;
              el_timestamp := now; el_payload := storedFields payload |}]>
         (events s)) s).

Definition saveIntent (intent : ReasoningIntent) : M unit :=
  let* _ := docRef (ri_conversationId intent) in
  match ri_intentId intent with
  | VStr intentId =>
      let* _ := docRef intentId in
      modifyStore (fun s =>
        setIntents
          (<[(ri_conversationId intent, intentId) :=
               {| ri_intentId := ri_intentId intent;
                  ri_conversationId := ri_conversationId intent;
                  ri_messageId := ri_messageId intent;
                  ri_action := ignoreUndefined (ri_action intent);
                  ri_parameters := ignoreUndefined (ri_parameters intent);
                  ri_confidence := ignoreUndefined (ri_confidence intent);
                  ri_createdAt := ri_createdAt intent;
                  ri_valid := ri_valid intent;
                  ri_validationError := ri_validationError intent |}]>
             (intents s)) s)
  | _ => throw invalidDocumentPath
  end.

Definition saveActionResult (result : ActionResult) : M unit :=
  let* _ := docRef (ar_conversationId result) in
  let* _ := docRef (ar_actionId result) in
  modifyStore (fun s =>
    setActions
      (<[(ar_conversationId result, ar_actionId result) :=
           {| ar_actionId := ar_actionId result;
              ar_conversationId := ar_conversationId result;
              ar_intentId := ignoreUndefined (ar_intentId result);
              ar_messageId := ar_messageId result;
              ar_result := storedFields (ar_result result);
              ar_executedAt := ar_executedAt result;
              ar_success := ar_success result;
              ar_error := ar_error result |}]> (actions s)) s).

(** The documents of [conversations/{id}/actions] whose [intentId] field
    is present and equal to the argument; [where] refuses [undefined] as
    the value to compare with. *)
Definition matchesIntent (conversationId : string) (intentId : value)
  (entry : (string * string) * ActionResult) : bool :=
  String.eqb (fst (fst entry)) conversationId
  && negb (valueEqb (ar_intentId (snd entry)) VUndefined)
  && valueEqb (ar_intentId (snd entry)) intentId.

Definition findActionResultByIntentId (conversationId : string)
  (intentId : value) : M bool :=
  let* _ := docRef conversationId in
  match intentId with
  | VUndefined => throw undefinedQueryValue
  | _ =>
      let* w := getWorld in
      ret (existsb (matchesIntent conversationId intentId)
             (map_to_list (actions (store w))))
  end.

(** *** shared/pubsub.ts *)

Definition publishEvent (topicName : string) (event : AgentEvent)
  : M string :=
  let* messageId := (fun w =>
    let w' (sent : list PublishedMessage) :=
      {| store := store w; published := published w ++ sent;
         logged := logged w; clockReads := clockReads w;
         uuidReads := uuidReads w;
         publishAttempts := S (publishAttempts w) |} in
    match publishMessage_at (publishAttempts w) with
    | inl e => (Throw e, w' [])
    | inr messageId =>
        (Return messageId,
         w' [{| pm_topic := topicName; pm_data := event;
                pm_attributes :=
                  [("eventId", ev_eventId event);
                   ("eventType", ev_eventType event);
                   ("conversationId", ev_conversationId event)] |}])
    end) in
  let* _ := log_info "Published event" in
  ret messageId.

Definition decodeEventData (data : option MessagePublishedData)
  : error + AgentEvent :=
  let raw :=
    match data with
    | Some d =>
        match mpd_message d with
        | Some m => pmsg_data m
        | None => None
        end
    | None => None
    end in
  match raw with
  | None | Some EmptyString => inl (Error "Missing Pub/Sub message data in CloudEvent")
  | Some raw => parseEnvelope raw
  end.


(** [process.env.NAME || fallback] *)
Definition envOr (v : option string) (fallback : string) : string :=
  match v with
  | Some s => if String.eqb s EmptyString then fallback else s
  | None => fallback
  end.

Definition TOPIC_REASONING : string :=
  envOr env_TOPIC_REASONING "reasoning-requested".
Definition TOPIC_ACTION : string :=
  envOr env_TOPIC_ACTION "action-requested".

(** The argument of [doc(...)] must be a string. *)
Definition documentId (v : value) : M string :=
  match v with
  | VStr s => ret s
  | _ => throw invalidDocumentPath
  end.

(** *** functions/reasoner.ts *)

Definition mockReasoning (content conversationId messageId : string)
  : M object :=
  let lower := toLowerCase content in
  if includes lower "search" || includes lower "find" then
    let* intentId := uuidv4 in
    ret [("intentId", VStr intentId);
         ("conversationId", VStr conversationId);
         ("messageId", VStr messageId);
         ("action", VStr "search");
         ("parameters", VObj [("query", VStr content)]);
         ("confidence", VNum (Finite (92 # 100)))]
  else if includes lower "calculate" || includes lower "compute"
          || includes lower "math" then
    let* intentId := uuidv4 in
    ret [("intentId", VStr intentId);
         ("conversationId", VStr conversationId);
         ("messageId", VStr messageId);
         ("action", VStr "calculate");
         ("parameters", VObj [("expression", VStr content)]);
         ("confidence", VNum (Finite (88 # 100)))]
  else if includes lower "summarize" || includes lower "summary" then
    let* intentId := uuidv4 in
    ret [("intentId", VStr intentId);
         ("conversationId", VStr conversationId);
         ("messageId", VStr messageId);
         ("action", VStr "summarize");
         ("parameters", VObj [("text", VStr content)]);
         ("confidence", VNum (Finite (85 # 100)))]
  else if includes lower "translate" then
    let* intentId := uuidv4 in
    ret [("intentId", VStr intentId);
         ("conversationId", VStr conversationId);
         ("messageId", VStr messageId);
         ("action", VStr "translate");
         ("parameters", VObj [("text", VStr content);
                              ("targetLang", VStr "en")]);
         ("confidence", VNum (Finite (90 # 100)))]
  else
    let* intentId := uuidv4 in
    ret [("intentId", VStr intentId);
         ("conversationId", VStr conversationId);
         ("messageId", VStr messageId);
         ("action", VStr "search");
         ("parameters", VObj [("query", VStr content)]);
         ("confidence", VNum (Finite (60 # 100)))].

(** [a || b] where [b] has an effect: it runs only when [a] is falsy. *)
Definition orElseM (a : value) (b : M value) : M value :=
  if truthy a then ret a else b.

Definition reasoner (data : option MessagePublishedData) : M unit :=
  match decodeEventData data with
  | inl err =>
      let* _ := log_error "Failed to decode message" in
      ret tt
  | inr agentEvent =>
      let eventId := ev_eventId agentEvent in
      let conversationId := ev_conversationId agentEvent in
      let messageId := ev_messageId agentEvent in
      let payload := ev_payload agentEvent in
      let* _ := log_info "Received event" in
      let* isNew := claimReceipt eventId
                      {| meta_handler := "reasoner";
                         meta_conversationId := conversationId;
                         meta_messageId := messageId |} in
      if negb isNew then
        let* _ := log_info "Duplicate event, skipping" in
        ret tt
      else
        let content := orElse (getField payload "content") (VStr EmptyString) in
        let* rawIntent :=
          match content with
          | VStr content => mockReasoning content conversationId messageId
          | _ => throw (TypeError "content.toLowerCase is not a function")
          end in
        let validation := validateIntent isUuid (VObj rawIntent) in
        let* intentId :=
          orElseM (getField rawIntent "intentId")
                  (let* fresh := uuidv4 in ret (VStr fresh)) in
        let* createdAt := newDate in
        let intentDoc :=
          {| ri_intentId := intentId;
             ri_conversationId := conversationId;
             ri_messageId := messageId;
             ri_action := orElse (getField rawIntent "action") (VStr "unknown");
             ri_parameters := orElse (getField rawIntent "parameters") (VObj []);
             ri_confidence :=
               orElse (getField rawIntent "confidence") (VNum (Finite 0));
             ri_createdAt := createdAt;
             ri_valid := valid validation;
             ri_validationError := error_ validation |} in
        let* _ := saveIntent intentDoc in
        let* _ := logEvent conversationId eventId "reasoning_completed"
                    [("intentId", ri_intentId intentDoc);
                     ("valid", VBool (valid validation))] in
        if negb (valid validation) then
          let* _ := log_warn "Intent validation failed" in
          let* _ := transitionState conversationId FAILED_VALIDATION in
          let* _ := completeReceipt eventId in
          ret tt
        else
          let* _ := transitionState conversationId INTENT_VALIDATED in
          let* actionEventId := uuidv4 in
          let* timestamp := newDate in
          let actionEvent :=
            {| ev_eventId := actionEventId;
               ev_eventType := "action_requested";
               ev_conversationId := conversationId;
               ev_messageId := messageId;
               ev_timestamp := timestamp;
               ev_producer := "reasoner";
               ev_payload :=
                 [("intentId", ri_intentId intentDoc);
                  ("action", ri_action intentDoc);
                  ("parameters", ri_parameters intentDoc);
                  ("confidence", ri_confidence intentDoc)] |} in
          let* _ := publishEvent TOPIC_ACTION actionEvent in
          let* _ := transitionState conversationId ACTION_REQUESTED in
          let* _ := completeReceipt eventId in
          let* _ := log_info "Published action_requested" in
          ret tt
  end.

(** *** functions/executor.ts *)

(** ToString, as a template literal and [String(...)] apply it.  An
    object is printed by [Object.prototype.toString] unless it has an own
    property [toString]: a value read from JSON is never callable, so the
    conversion then finds no method that yields a primitive and throws.
    An array prints its elements, [null] and [undefined] as nothing,
    joined by commas. *)
Fixpoint ToString (v : value) : error + string :=
  match v with
  | VUndefined => inr "undefined"
  | VNull => inr "null"
  | VBool true => inr "true"
  | VBool false => inr "false"
  | VNum n => inr (numberToString n)
  | VStr s => inr s
  | VArr items =>
      match
        (fix go (l : list value) : error + list string :=
           match l with
           | [] => inr []
           | x :: rest =>
               match
                 match x with
                 | VUndefined | VNull => inr EmptyString
                 | _ => ToString x
                 end
               with
               | inl e => inl e
               | inr printed =>
                   match go rest with
                   | inl e => inl e
                   | inr others => inr (printed :: others)
                   end
               end
           end) items
      with
      | inl e => inl e
      | inr parts => inr (join "," parts)
      end
  | VObj o =>
      if hasField o "toString" then inl cannotConvertToPrimitive
      else inr "[object Object]"
  end.

(** [s.length]: the UTF-16 code units of the text that the bytes of [s]
    encode in UTF-8.  A byte below 0x80 or a lead byte of a two- or
    three-byte sequence stands for one unit, the lead byte of a four-byte
    sequence for two (a surrogate pair), a continuation byte for none. *)
Definition utf16Units (c : ascii) : nat :=
  let n := nat_of_ascii c in
  if (n <? 128)%nat then 1%nat
  else if (n <? 192)%nat then 0%nat
  else if (n <? 240)%nat then 1%nat
  else 2%nat.

Fixpoint utf16Length (s : string) : nat :=
  match s with
  | EmptyString => 0%nat
  | String c rest => (utf16Units c + utf16Length rest)%nat
  end.

Definition lengthOf (s : string) : value :=
  VNum (Finite (inject_Z (Z.of_nat (utf16Length s)))).

(** [action === label], the test a [switch] makes for each [case]. *)
Definition isCase (action : value) (label : string) : bool :=
  match action with
  | VStr a => String.eqb a label
  | _ => false
  end.

(** The tool returns, or throws the [TypeError] of a property read on
    [null] or [undefined] or of a conversion to string. *)
Definition executeTool (action : value) (parameters : value)
  : error + ToolOutput :=
  if isCase action "search" then
    let? query := getProp parameters "query" in
    inr {| success := true;
           result :=
             [("tool", VStr "search");
              ("query", query);
              ("results",
               VArr [VObj [("title", VStr "Result 1");
                           ("snippet",
                            VStr "Relevant information found for the query.")];
                     VObj [("title", VStr "Result 2");
                           ("snippet",
                            VStr "Additional context from another source.")]]);
              ("totalResults", VNum (Finite 2))];
           tool_error := None |}
  else if isCase action "calculate" then
    let? expression := getProp parameters "expression" in
    inr {| success := true;
           result :=
             [("tool", VStr "calculate");
              ("expression", expression);
              ("answer", VNum (Finite 42));
              ("note",
               VStr "Mocked calculation – always returns 42 for determinism.")];
           tool_error := None |}
  else if isCase action "summarize" then
    let? text := getProp parameters "text" in
    let? printed := ToString (orElse text (VStr EmptyString)) in
    inr {| success := true;
           result :=
             [("tool", VStr "summarize");
              ("inputLength", lengthOf printed);
              ("summary",
               VStr "This is a mocked summary of the provided text.")];
           tool_error := None |}
  else if isCase action "translate" then
    let? targetLang := getProp parameters "targetLang" in
    inr {| success := true;
           result :=
             [("tool", VStr "translate");
              ("targetLang", orElse targetLang (VStr "en"));
              ("translation", VStr "This is a mocked translation output.")];
           tool_error := None |}
  else
    let? printed := ToString action in
    inr {| success := false;
           result := [];
           tool_error := Some ("Unknown action: " ++ printed) |}.

Definition executor (data : option MessagePublishedData) : M unit :=
  match decodeEventData data with
  | inl err =>
      let* _ := log_error "Failed to decode message" in
      ret tt
  | inr agentEvent =>
      let eventId := ev_eventId agentEvent in
      let conversationId := ev_conversationId agentEvent in
      let messageId := ev_messageId agentEvent in
      let payload := ev_payload agentEvent in
      let* _ := log_info "Received event" in
      let* isNew := claimReceipt eventId
                      {| meta_handler := "executor";
                         meta_conversationId := conversationId;
                         meta_messageId := messageId |} in
      if negb isNew then
        let* _ := log_info "Duplicate event, skipping" in
        ret tt
      else
        let action := getField payload "action" in
        let parameters := orElse (getField payload "parameters") (VObj []) in
        let intentId := getField payload "intentId" in
        let* alreadyExecuted :=
          findActionResultByIntentId conversationId intentId in
        if alreadyExecuted then
          let* _ := log_warn
            "Action result already exists for intent, skipping execution" in
          let* _ := completeReceipt eventId in
          ret tt
        else
          let* out := orThrow (executeTool action parameters) in
          let* actionId := uuidv4 in
          let* executedAt := newDate in
          let actionResult :=
            {| ar_actionId := actionId;
               ar_conversationId := conversationId;
               ar_intentId := intentId;
               ar_messageId := messageId;
               ar_result := result out;
               ar_executedAt := executedAt;
               ar_success := success out;
               ar_error := tool_error out |} in
          let* _ := saveActionResult actionResult in
          let* _ := logEvent conversationId eventId "action_executed"
                      [("actionId", VStr (ar_actionId actionResult));
                       ("success", VBool (success out))] in
          if success out then
            let* _ := transitionState conversationId ACTION_COMPLETED in
            let* _ := completeReceipt eventId in
            let* _ := log_info "Action completed" in
            ret tt
          else
            let* _ := transitionState conversationId FAILED_EXECUTION in
            let* _ := completeReceipt eventId in
            let* _ := log_error "Action failed" in
            ret tt
  end.

(** *** functions/api.ts *)

Definition json (status : Z) (body : object) : M Response :=
  ret {| res_status := status; res_body := body |}.

(** [if (idempotencyKey)] *)
Definition presentKey (k : option string) : option string :=
  match k with
  | Some s => if String.eqb s EmptyString then None else Some s
  | None => None
  end.

Definition postMessages (req : Request) : M Response :=
  tryCatch
    (let content := getField (req_body req) "content" in
     let existingConvId := getField (req_body req) "conversationId" in
     match content with
     | VStr contentText =>
         if negb (truthy content) then
           json 400 [("error", VStr missingContent)]
         else
           let* conversationId :=
             orElseM existingConvId
                     (let* fresh := uuidv4 in ret (VStr fresh)) in
           let* messageId := uuidv4 in
           let idempotencyKey := req_idempotencyKey req in
           let* claim :=
             match presentKey idempotencyKey with
             | Some key => claimIdempotencyKey key messageId
             | None => ret IsNew
             end in
           match claim with
           | Existing existingMessageId =>
               let* _ := log_info "Duplicate request detected" in
               json 200 [("messageId", VStr existingMessageId);
                         ("duplicate", VBool true);
                         ("message", VStr "Request already processed")]
           | IsNew =>
               let* _ :=
                 if negb (truthy existingConvId) then
                   let* id := documentId conversationId in
                   let* _ := createConversation id in
                   log_info "Created conversation"
                 else ret tt in
               let* createdAt := newDate in
               let* conversationId := documentId conversationId in
               let* _ := saveMessage
                 {| msg_messageId := messageId;
                    msg_conversationId := conversationId;
                    msg_content := contentText;
                    msg_createdAt := createdAt;
                    msg_idempotencyKey := idempotencyKey |} in
               let* _ := log_info "Saved message" in
               let* eventId := uuidv4 in
               let* timestamp := newDate in
               let event :=
                 {| ev_eventId := eventId;
                    ev_eventType := "reasoning_requested";
                    ev_conversationId := conversationId;
                    ev_messageId := messageId;
                    ev_timestamp := timestamp;
                    ev_producer := "api";
                    ev_payload := [("content", VStr contentText)] |} in
               let* _ := logEvent conversationId eventId
                           "reasoning_requested"
                           [("content", VStr contentText)] in
               let* _ := publishEvent TOPIC_REASONING event in
               let* _ := transitionState conversationId
                           REASONING_REQUESTED in
               json 201 [("messageId", VStr messageId);
                         ("conversationId", VStr conversationId);
                         ("eventId", VStr eventId);
                         ("state", VStr "REASONING_REQUESTED")]
           end
     | _ =>
         json 400 [("error", VStr missingContent)]
     end)
    (fun err =>
       let* _ := log_error "Error processing message" in
       json 500 [("error", VStr (errorMessage err))]).

(** [GET /conversations/:id].  The document is sent as stored; its two
    timestamps are the strings [toISOString] printed. *)
Variable toISOString : timestamp -> string.

Definition conversationJson (c : Conversation) : object :=
  [("conversationId", VStr (conv_conversationId c));
   ("state", VStr (stateName (conv_state c)));
   ("createdAt", VStr (toISOString (conv_createdAt c)));
   ("updatedAt", VStr (toISOString (conv_updatedAt c)))].

Definition getConversationById (conversationId : string) : M Response :=
  tryCatch
    (let* conversation := getConversation conversationId in
     match conversation with
     | None => json 404 [("error", VStr "Conversation not found")]
     | Some c => json 200 (conversationJson c)
     end)
    (fun err =>
       let* _ := log_error "Error fetching conversation" in
       json 500 [("error", VStr (errorMessage err))]).

(** [GET /health] *)
Definition health : M Response :=
  json 200 [("status", VStr "ok"); ("service", VStr "api")].

End Pipeline.

(** ** A concrete environment, for running the handlers *)

Definition isHexDigit (c : ascii) : bool :=
  let n := nat_of_ascii c in
  (((48 <=? n) && (n <=? 57)) || ((65 <=? n) && (n <=? 70))
   || ((97 <=? n) && (n <=? 102)))%nat.

Fixpoint hexRun (n : nat) (s : string) : option string :=
  match n, s with
  | O, _ => Some s
  | S n', String c rest => if isHexDigit c then hexRun n' rest else None
  | S _, EmptyString => None
  end.

Definition dashThen (k : string -> option string) (s : string)
  : option string :=
  match s with
  | String "-"%char rest => k rest
  | _ => None
  end.

(** Five groups of 8, 4, 4, 4 and 12 hexadecimal digits. *)
Definition sampleIsUuid (s : string) : bool :=
  match hexRun 8 s with
  | Some r1 =>
      match dashThen (hexRun 4) r1 with
      | Some r2 =>
          match dashThen (hexRun 4) r2 with
          | Some r3 =>
              match dashThen (hexRun 4) r3 with
              | Some r4 =>
                  match dashThen (hexRun 12) r4 with
                  | Some EmptyString => true
                  | _ => false
                  end
              | None => false
              end
          | None => false
          end
      | None => false
      end
  | None => false
  end.

Definition digit (n : nat) : string :=
  String (ascii_of_nat (48 + n mod 10)) EmptyString.

Definition sampleUuid (n : nat) : string :=
  "00000000-0000-4000-8000-0000000000" ++ digit (n / 10) ++ digit n.

Definition sampleNumberToString (n : number) : string :=
  match n with
  | NaN => "NaN"
  | PosInfinity => "Infinity"
  | NegInfinity => "-Infinity"
  | Finite _ => "0"
  end.

(** One second between two readings of the clock; after the sixteenth
    reading, five minutes have passed. *)
Definition sampleClock (n : nat) : timestamp :=
  if (n <? 16)%nat then 1000 * Z.of_nat n
  else 300000 + 1000 * Z.of_nat n.

Definition busUp (n : nat) : error + string := inr ("m" ++ digit n).

(** The bus rejects its second publish. *)
Definition busDownOnce (n : nat) : error + string :=
  if (n =? 1)%nat then inl (Error "Pub/Sub unavailable") else busUp n.

Definition sampleReasoningEvent : AgentEvent :=
  {| ev_eventId := sampleUuid 2;
     ev_eventType := "reasoning_requested";
     ev_conversationId := sampleUuid 0;
     ev_messageId := sampleUuid 1;
     ev_timestamp := 2000;
     ev_producer := "api";
     ev_payload := [("content", VStr "search for cats")] |}.

Definition sampleActionEvent (action : string) : AgentEvent :=
  {| ev_eventId := sampleUuid 7;
     ev_eventType := "action_requested";
     ev_conversationId := sampleUuid 0;
     ev_messageId := sampleUuid 1;
     ev_timestamp := 9000;
     ev_producer := "reasoner";
     ev_payload :=
       [("intentId", VStr (sampleUuid 3));
        ("action", VStr action);
        ("parameters", VObj [("query", VStr "search for cats")]);
        ("confidence", VNum (Finite (92 # 100)))] |}.

(** The wire form of an envelope is its name in this table. *)
Definition sampleParse (raw : string) : error + AgentEvent :=
  if String.eqb raw "reasoning" then inr sampleReasoningEvent
  else if String.eqb raw "search" then inr (sampleActionEvent "search")
  else if String.eqb raw "dance" then inr (sampleActionEvent "dance")
  else inl (Error "Unexpected token in JSON").

Definition delivered (raw : string) : option MessagePublishedData :=
  Some {| mpd_message := Some {| pmsg_data := Some raw |} |}.

Definition sampleRequest : Request :=
  {| req_body := [("content", VStr "search for cats")];
     req_idempotencyKey := Some "k1" |}.

(** ** The transition table and the terminal states, as the specification
       lists them *)

Definition transitionTable : list (ConversationState * ConversationState) :=
  [ (RECEIVED, REASONING_REQUESTED);
    (REASONING_REQUESTED, INTENT_VALIDATED);
    (REASONING_REQUESTED, FAILED_VALIDATION);
    (INTENT_VALIDATED, ACTION_REQUESTED);
    (ACTION_REQUESTED, ACTION_COMPLETED);
    (ACTION_REQUESTED, FAILED_EXECUTION) ].

Definition terminalStates : list ConversationState :=
  [ACTION_COMPLETED; FAILED_VALIDATION; FAILED_EXECUTION].

(** The state of a conversation and the status of a receipt in a world. *)
Definition stateOf (w : World) (conversationId : string)
  : option ConversationState :=
  conv_state <$> conversations (store w) !! conversationId.

Definition statusOf (w : World) (eventId : string) : option string :=
  receipts (store w) !! eventId ≫= rc_status.

(** An intent as the specification describes a valid one: an object whose
    [intentId] is a UUID string, whose [conversationId] and [messageId] are
    non-empty strings, whose [action] is one of the four actions, whose
    [parameters] is a map and whose [confidence] is a number in [0,1]. *)
Definition wellFormedIntent (isUuid : string -> bool) (raw : value)
  (d : ValidatedIntent) : Prop :=
  exists o q,
    raw = VObj o
    /\ getField o "intentId" = VStr (vi_intentId d)
    /\ isUuid (vi_intentId d) = true
    /\ getField o "conversationId" = VStr (vi_conversationId d)
    /\ vi_conversationId d <> EmptyString
    /\ getField o "messageId" = VStr (vi_messageId d)
    /\ vi_messageId d <> EmptyString
    /\ getField o "action" = VStr (vi_action d)
    /\ In (vi_action d) ["search"; "calculate"; "summarize"; "translate"]
    /\ getField o "parameters" = VObj (vi_parameters d)
    /\ getField o "confidence" = VNum (vi_confidence d)
    /\ vi_confidence d = Finite q
    /\ (0 <= q)%Q /\ (q <= 1)%Q.

(** The body of a request without a usable [content]: the field is missing
    (it reads as [undefined]), is not a string, or is the empty string. *)
Definition invalidContent (body : object) : Prop :=
  match getField body "content" with
  | VStr s => s = EmptyString
  | _ => True
  end.

Definition badRequest : Response :=
  {| res_status := 400; res_body := [("error", VStr missingContent)] |}.

Definition duplicateResponse (messageId : string) : Response :=
  {| res_status := 200;
     res_body := [("messageId", VStr messageId);
                  ("duplicate", VBool true);
                  ("message", VStr "Request already processed")] |}.

(** The world after a first [POST /messages] with key [k1] was accepted. *)
Definition worldAfterFirstPost : World :=
  snd (postMessages sampleClock sampleUuid busUp None sampleRequest
         initialWorld).

(** A request with the same key and an empty body. *)
Definition emptyBodyRequest : Request :=
  {| req_body := []; req_idempotencyKey := Some "k1" |}.

(** A receipt slot that [claimReceipt] grants at time [now]: no receipt,
    or one in [processing] whose claim is at least the threshold old. *)
Definition claimable (now : timestamp) (r : option Receipt) : Prop :=
  match r with
  | None => True
  | Some data =>
      rc_status data = Some "processing"
      /\ exists claimedAt,
          rc_claimedAt data = Some claimedAt
          /\ RECEIPT_STALE_THRESHOLD_MS <= now - claimedAt
  end.

(** The world after the reasoner handled the first request's event, and
    the world it leaves when the bus rejects its publish. *)
Definition worldAfterReasoning : World :=
  snd (reasoner sampleIsUuid sampleClock sampleUuid busUp sampleParse None
         (delivered "reasoning") worldAfterFirstPost).

Definition worldAfterFailedPublish : World :=
  snd (reasoner sampleIsUuid sampleClock sampleUuid busDownOnce sampleParse
         None (delivered "reasoning") worldAfterFirstPost).

(** The invariant of an intent document, and the worlds reachable from
    [w] by writing only intents that satisfy it. *)
Definition intentInvariant (doc : ReasoningIntent) : Prop :=
  ri_valid doc = true <-> ri_validationError doc = None.

Definition intentsGrowValid (w w' : World) : Prop :=
  forall key doc,
    intents (store w') !! key = Some doc ->
    intents (store w) !! key = Some doc \/ intentInvariant doc.

(** The confidences and the keywords of [mockReasoning]. *)
Definition mockConfidences : list Q :=
  [92 # 100; 88 # 100; 85 # 100; 90 # 100; 60 # 100].

Definition mockKeywords : list string :=
  ["search"; "find"; "calculate"; "compute"; "math"; "summarize"; "summary";
   "translate"].

(** The reasoner's failed-validation branch starts by logging this line and
    then moves the conversation to [FAILED_VALIDATION]; nothing else logs
    the line.  [noValidationFailure w w'] says that from [w] to [w'] the
    line was not logged and no conversation was moved to that state. *)
Definition validationFailureMessage : string := "Intent validation failed".

Definition noValidationFailure (w w' : World) : Prop :=
  (forall entry,
      In entry (logged w') ->
      le_message entry = validationFailureMessage ->
      In entry (logged w))
  /\ (forall conversationId,
         stateOf w' conversationId = Some FAILED_VALIDATION ->
         stateOf w conversationId = Some FAILED_VALIDATION).

(** The fields of a receipt that [completeReceipt] does not write. *)
Definition untouchedByCompletion (before after : Receipt) : Prop :=
  rc_eventId after = rc_eventId before
  /\ rc_handler after = rc_handler before
  /\ rc_conversationId after = rc_conversationId before
  /\ rc_messageId after = rc_messageId before
  /\ rc_claimedAt after = rc_claimedAt before
  /\ rc_retriedAt after = rc_retriedAt before.

(** What [claimReceipt] leaves alone, whatever it answers. *)
Definition onlyReceiptsChanged (w w' : World) : Prop :=
  conversations (store w') = conversations (store w)
  /\ messages (store w') = messages (store w)
  /\ intents (store w') = intents (store w)
  /\ actions (store w') = actions (store w)
  /\ events (store w') = events (store w)
  /\ idempotencyKeys (store w') = idempotencyKeys (store w)
  /\ published w' = published w
  /\ logged w' = logged w
  /\ uuidReads w' = uuidReads w
  /\ publishAttempts w' = publishAttempts w.

(** [preserves R c]: from any world, [c] ends in a world related by [R],
    whether it returns or throws. *)
Definition preserves {A} (R : World -> World -> Prop) (c : M A) : Prop :=
  forall w, R w (snd (c w)).

(** Worlds for the receipt and the conversation examples. *)
Definition sampleMeta : ReceiptMeta :=
  {| meta_handler := "reasoner"; meta_conversationId := "c1";
     meta_messageId := "m1" |}.

Definition worldClaimed : World :=
  snd (claimReceipt sampleClock "e1" sampleMeta initialWorld).

Definition worldCompleted : World :=
  snd (completeReceipt sampleClock "e1" worldClaimed).

(** Sixteen readings of the clock later. *)
Definition muchLater (w : World) : World := Nat.iter 16 tick w.

Definition worldWithConversation : World :=
  snd (createConversation sampleClock "c1" initialWorld).

(** A candidate with an unknown action. *)
Definition danceIntent : value :=
  VObj [("intentId", VStr (sampleUuid 3));
        ("conversationId", VStr (sampleUuid 0));
        ("messageId", VStr (sampleUuid 1));
        ("action", VStr "dance");
        ("parameters", VObj []);
        ("confidence", VNum (Finite (1 # 2)))].

(** ** The transition graph *)

(** A position of each state along the pipeline: every allowed transition
    moves to a higher one. *)
Definition stateRank (s : ConversationState) : nat :=
  match s with
  | RECEIVED => 0
  | REASONING_REQUESTED => 1
  | INTENT_VALIDATED => 2
  | FAILED_VALIDATION => 2
  | ACTION_REQUESTED => 3
  | ACTION_COMPLETED => 4
  | FAILED_EXECUTION => 4
  end.

(** A sequence of states in which each step is an allowed transition. *)
Fixpoint validPath (l : list ConversationState) : bool :=
  match l with
  | a :: ((b :: _) as rest) => validateTransition a b && validPath rest
  | _ => true
  end.

(** [reachable a b]: zero or more allowed transitions lead from [a] to [b]. *)
Inductive reachable : ConversationState -> ConversationState -> Prop :=
  | reachable_here s : reachable s s
  | reachable_step a b c :
      validateTransition a b = true -> reachable b c -> reachable a c.

(** From [w] to [w']: the same conversations exist, each in a state
    reachable from the one it had. *)
Definition statesAdvance (w w' : World) : Prop :=
  forall conversationId,
    match stateOf w conversationId, stateOf w' conversationId with
    | Some s, Some s' => reachable s s'
    | None, None => True
    | _, _ => False
    end.

(** From [w] to [w']: a completed receipt stays completed. *)
Definition completedStay (w w' : World) : Prop :=
  forall eventId,
    statusOf w eventId = Some "completed" ->
    statusOf w' eventId = Some "completed".

(** From [w] to [w']: an idempotency key that is claimed keeps its record. *)
Definition keysKept (w w' : World) : Prop :=
  forall key doc,
    idempotencyKeys (store w) !! key = Some doc ->
    idempotencyKeys (store w') !! key = Some doc.

(** ** Worlds and deliveries for the handler examples *)

(** The bus rejects every publish. *)
Definition busDown (n : nat) : error + string :=
  inl (Error "Pub/Sub unavailable").

(** A request that names the conversation [c1]. *)
Definition namedRequest : Request :=
  {| req_body := [("content", VStr "search for cats");
                  ("conversationId", VStr "c1")];
     req_idempotencyKey := None |}.

(** A world whose only document is a result for the intent of
    [sampleActionEvent]. *)
Definition worldWithResult : World :=
  snd (saveActionResult
         {| ar_actionId := "a1"; ar_conversationId := sampleUuid 0;
            ar_intentId := VStr (sampleUuid 3);
            ar_messageId := sampleUuid 1; ar_result := [];
            ar_executedAt := 0; ar_success := true; ar_error := None |}
         initialWorld).

(** A bus that hands each delivery the event that was published last: the
    delivery [reasoning] carries the event of the first request, the
    delivery [action] the one the reasoner published for it. *)
Definition publishedLast (w : World) : error + AgentEvent :=
  match last (published w) with
  | Some m => inr (pm_data m)
  | None => inl (Error "Unexpected end of JSON input")
  end.

Definition pipelineParse (raw : string) : error + AgentEvent :=
  if String.eqb raw "reasoning" then publishedLast worldAfterFirstPost
  else if String.eqb raw "action" then publishedLast worldAfterReasoning
  else inl (Error "Unexpected token in JSON").

(** The event of the first request as a producer would send it without a
    message id, and without an event id; their wire forms are [nomessage]
    and [noevent]. *)
Definition eventWithoutMessageId : AgentEvent :=
  {| ev_eventId := sampleUuid 2;
     ev_eventType := "reasoning_requested";
     ev_conversationId := sampleUuid 0;
     ev_messageId := EmptyString;
     ev_timestamp := 2000;
     ev_producer := "api";
     ev_payload := [("content", VStr "search for cats")] |}.

Definition eventWithoutEventId : AgentEvent :=
  {| ev_eventId := EmptyString;
     ev_eventType := "reasoning_requested";
     ev_conversationId := sampleUuid 0;
     ev_messageId := sampleUuid 1;
     ev_timestamp := 2000;
     ev_producer := "api";
     ev_payload := [("content", VStr "search for cats")] |}.

Definition incompleteParse (raw : string) : error + AgentEvent :=
  if String.eqb raw "nomessage" then inr eventWithoutMessageId
  else if String.eqb raw "noevent" then inr eventWithoutEventId
  else inl (Error "Unexpected token in JSON").

(** The timestamps of the example responses, all printed alike. *)
Definition sampleToISOString (t : timestamp) : string :=
  "1970-01-01T00:00:00.000Z".

(** ** Values a handler stores as they were delivered *)

(** A value that is not an array and not an object. *)
Definition flat (v : value) : bool :=
  match v with
  | VArr _ | VObj _ => false
  | _ => true
  end.

(** A value that is a string, a number, a boolean or [null]. *)
Definition isScalar (v : value) : bool :=
  match v with
  | VNull | VBool _ | VNum _ | VStr _ => true
  | _ => false
  end.

(** Parameters whose fields are all flat (anything that is not an object
    has no field the tools read). *)
Definition flatFields (parameters : value) : bool :=
  match parameters with
  | VObj o => forallb (fun kv => flat (snd kv)) o
  | _ => true
  end.

(** From [w] to [w']: what was published is kept, and every message added
    satisfies [ok]. *)
Definition publishesOnly (ok : PublishedMessage -> Prop) (w w' : World)
  : Prop :=
  exists sent, published w' = (published w ++ sent)%list /\ Forall ok sent.

(** A message as a handler publishes it: on its topic, of its event type,
    under its producer name, with the three attributes read off the
    event. *)
Definition publishedBy (topicName eventType producer : string)
  (m : PublishedMessage) : Prop :=
  pm_topic m = topicName
  /\ ev_eventType (pm_data m) = eventType
  /\ ev_producer (pm_data m) = producer
  /\ pm_attributes m
     = [("eventId", ev_eventId (pm_data m));
        ("eventType", eventType);
        ("conversationId", ev_conversationId (pm_data m))].

(** From [w] to [w']: the component [f] of the world is the same. *)
Definition unchanged {X} (f : World -> X) (w w' : World) : Prop :=
  f w' = f w.

(** * Properties *)

(** ** Running a computation step by step *)

Lemma bind_Return {A B} (c : M A) (k : A -> M B) w a w' :
  c w = (Return a, w') -> bind c k w = k a w'.
Proof. intros H. unfold bind. rewrite H. reflexivity. Qed.

Lemma bind_Throw {A B} (c : M A) (k : A -> M B) w e w' :
  c w = (Throw e, w') -> bind c k w = (Throw e, w').
Proof. intros H. unfold bind. rewrite H. reflexivity. Qed.

Lemma tryCatch_Return {A} (c : M A) (h : error -> M A) w a w' :
  c w = (Return a, w') -> tryCatch c h w = (Return a, w').
Proof. intros H. unfold tryCatch. rewrite H. reflexivity. Qed.

(** ** Document ids *)

Lemma docRef_valid id w :
  validDocumentId id = true -> docRef id w = (Return tt, w).
Proof. intros H. unfold docRef. rewrite H. reflexivity. Qed.

Lemma docRef_invalid id w :
  validDocumentId id = false ->
  docRef id w = (Throw (documentPathError id), w).
Proof. intros H. unfold docRef. rewrite H. reflexivity. Qed.

Lemma docRef_same id w : snd (docRef id w) = w.
Proof. unfold docRef. destruct (validDocumentId id); reflexivity. Qed.

(** An operation on a document whose id is a document id goes on to its
    body; on any other id it throws there and then. *)
Lemma bind_docRef {A} id (k : unit -> M A) w :
  validDocumentId id = true -> bind (docRef id) k w = k tt w.
Proof. intros H. unfold bind. rewrite (docRef_valid _ _ H). reflexivity. Qed.

Lemma bind_docRef_invalid {A} id (k : unit -> M A) w :
  validDocumentId id = false ->
  bind (docRef id) k w = (Throw (documentPathError id), w).
Proof. intros H. unfold bind. rewrite (docRef_invalid _ _ H). reflexivity. Qed.

Ltac pass_doc H := rewrite (bind_docRef _ _ _ H); cbv beta.

Lemma validDocumentId_nonempty id :
  validDocumentId id = true -> id <> EmptyString.
Proof. intros H ->. vm_compute in H. discriminate H. Qed.

(** The writes of the store on document ids. *)
Lemma createConversation_run clock conversationId w :
  validDocumentId conversationId = true ->
  createConversation clock conversationId w
  = (Return {| conv_conversationId := conversationId;
               conv_state := RECEIVED;
               conv_createdAt := clock (clockReads w);
               conv_updatedAt := clock (clockReads w) |},
     withStore
       (setConversations
          (<[conversationId :=
               {| conv_conversationId := conversationId;
                  conv_state := RECEIVED;
                  conv_createdAt := clock (clockReads w);
                  conv_updatedAt := clock (clockReads w) |}]>
             (conversations (store w))) (store w)) (tick w)).
Proof.
  intros H. unfold createConversation, bind, newDate.
  rewrite (docRef_valid _ _ H). reflexivity.
Qed.

Lemma getConversation_run conversationId w :
  validDocumentId conversationId = true ->
  getConversation conversationId w
  = (Return (conversations (store w) !! conversationId), w).
Proof. intros H. unfold getConversation. pass_doc H. reflexivity. Qed.

Lemma saveMessage_run msg w :
  validDocumentId (msg_conversationId msg) = true ->
  validDocumentId (msg_messageId msg) = true ->
  saveMessage msg w
  = (Return tt,
     withStore
       (setMessages
          (<[(msg_conversationId msg, msg_messageId msg) := msg]>
             (messages (store w))) (store w)) w).
Proof.
  intros Hc Hm. unfold saveMessage. pass_doc Hc. pass_doc Hm. reflexivity.
Qed.

Lemma completeReceipt_run clock eventId w :
  validDocumentId eventId = true ->
  completeReceipt clock eventId w
  = (Return tt,
     withStore
       (setReceipts
          (<[eventId :=
               mergeCompleted (clock (clockReads w))
                 (receipts (store w) !! eventId)]> (receipts (store w)))
          (store w)) (tick w)).
Proof. intros H. unfold completeReceipt. pass_doc H. reflexivity. Qed.

Lemma logEvent_run clock conversationId eventId eventType payload w :
  validDocumentId conversationId = true ->
  validDocumentId eventId = true ->
  logEvent clock conversationId eventId eventType payload w
  = (Return tt,
     withStore
       (setEvents
          (<[(conversationId, eventId) :=
               {| el_eventId := eventId; el_eventType := eventType;
                  el_timestamp := clock (clockReads w);
                  el_payload := storedFields payload |}]>
             (events (store w))) (store w)) (tick w)).
Proof.
  intros Hc He. unfold logEvent. pass_doc Hc. pass_doc He. reflexivity.
Qed.

Lemma saveIntent_run intent intentId w :
  ri_intentId intent = VStr intentId ->
  validDocumentId (ri_conversationId intent) = true ->
  validDocumentId intentId = true ->
  saveIntent intent w
  = (Return tt,
     withStore
       (setIntents
          (<[(ri_conversationId intent, intentId) :=
               {| ri_intentId := ri_intentId intent;
                  ri_conversationId := ri_conversationId intent;
                  ri_messageId := ri_messageId intent;
                  ri_action := ignoreUndefined (ri_action intent);
                  ri_parameters := ignoreUndefined (ri_parameters intent);
                  ri_confidence := ignoreUndefined (ri_confidence intent);
                  ri_createdAt := ri_createdAt intent;
                  ri_valid := ri_valid intent;
                  ri_validationError := ri_validationError intent |}]>
             (intents (store w))) (store w)) w).
Proof.
  intros Hid Hc Hi. unfold saveIntent. pass_doc Hc. rewrite Hid.
  pass_doc Hi. reflexivity.
Qed.

Lemma saveActionResult_run result w :
  validDocumentId (ar_conversationId result) = true ->
  validDocumentId (ar_actionId result) = true ->
  saveActionResult result w
  = (Return tt,
     withStore
       (setActions
          (<[(ar_conversationId result, ar_actionId result) :=
               {| ar_actionId := ar_actionId result;
                  ar_conversationId := ar_conversationId result;
                  ar_intentId := ignoreUndefined (ar_intentId result);
                  ar_messageId := ar_messageId result;
                  ar_result := storedFields (ar_result result);
                  ar_executedAt := ar_executedAt result;
                  ar_success := ar_success result;
                  ar_error := ar_error result |}]>
             (actions (store w))) (store w)) w).
Proof.
  intros Hc Ha. unfold saveActionResult. pass_doc Hc. pass_doc Ha.
  reflexivity.
Qed.

Lemma findActionResultByIntentId_run conversationId intentId w :
  validDocumentId conversationId = true ->
  intentId <> VUndefined ->
  findActionResultByIntentId conversationId intentId w
  = (Return (existsb (matchesIntent conversationId intentId)
               (map_to_list (actions (store w)))), w).
Proof.
  intros Hc Hid. unfold findActionResultByIntentId. pass_doc Hc.
  destruct intentId; try reflexivity. contradiction.
Qed.

(** Projections of a world built by the primitive updates. *)
Ltac world_simpl :=
  cbn [store published logged clockReads uuidReads publishAttempts
       conversations messages intents actions events receipts idempotencyKeys
       withStore tick mint logLine
       setConversations setMessages setIntents setActions setEvents
       setReceipts setIdempotencyKeys fst snd
       ar_actionId ar_conversationId ar_intentId ar_messageId ar_result
       ar_executedAt ar_success ar_error].

(** Case analysis on the innermost scrutinee of a nest of matches. *)
Ltac destruct_inner x :=
  first [ match x with
          | context [match ?y with _ => _ end] => destruct_inner y
          end
        | destruct x ].

(** A computation that leaves some components of the world alone: [same]
    turns their equality into the relation at hand. *)
Ltac keeps_by same :=
  intros w; apply same;
  unfold log_info, log_warn, log_error, write, newDate, uuidv4,
    createConversation, getConversation, transitionState, saveMessage,
    claimReceipt, completeReceipt, claimIdempotencyKey, logEvent,
    saveIntent, saveActionResult, findActionResultByIntentId, publishEvent,
    documentId, docRef, orThrow, json, runTransaction, bind, getWorld,
    modifyStore, ret, throw;
  repeat (cbn;
          match goal with
          | |- context [match ?x with _ => _ end] => destruct_inner x
          end);
  cbn; reflexivity.

(** One step of a handler: the first computation of a [bind] returns. *)
Ltac step_by tac :=
  etransitivity; [apply bind_Return; tac | cbv beta].
Ltac step := step_by ltac:(reflexivity).

(** ** The state machine *)

Lemma validateTransition_table current next :
  validateTransition current next = true
  <-> In (current, next) transitionTable.
Proof.
  split.
  - destruct current, next; cbn; intros H; try discriminate H; tauto.
  - intros H. cbn in H.
    repeat (destruct H as [H | H]; [inversion H; subst; reflexivity |]).
    contradiction.
Qed.

Lemma terminal_no_successor current next :
  In current terminalStates -> validateTransition current next = false.
Proof.
  intros H. cbn in H.
  repeat (destruct H as [H | H]; [subst; reflexivity |]).
  contradiction.
Qed.

Lemma assertTransition_throws current next :
  validateTransition current next = false ->
  exists e, assertTransition current next = inl e
            /\ isInvalidTransition e = true.
Proof.
  intros H. unfold assertTransition. rewrite H. cbn [negb].
  eexists. split; [reflexivity |].
  reflexivity.
Qed.

(** C3. [transitionState] on an existing conversation (under an id that
    is a document id) in state [current]:
    when [(current, next)] is a pair of the transition table it returns,
    having written [next] and the time it read into [updatedAt], and
    nothing else of the store changes; for every other pair it throws the
    invalid-transition error and the world is as it was.  The table of the
    code is the six pairs of the specification, and no pair starts from one
    of the three terminal states. *)
Theorem transitionState_follows_table :
  (forall current next,
      validateTransition current next = true
      <-> In (current, next) transitionTable)
  /\ (forall clock conversationId (conv : Conversation) next w,
         validDocumentId conversationId = true ->
         conversations (store w) !! conversationId = Some conv ->
         (In (conv_state conv, next) transitionTable ->
          exists w',
            transitionState clock conversationId next w = (Return tt, w')
            /\ store w' =
               setConversations
                 (<[conversationId :=
                      {| conv_conversationId := conv_conversationId conv;
                         conv_state := next;
                         conv_createdAt := conv_createdAt conv;
                         conv_updatedAt := clock (clockReads w) |}]>
                    (conversations (store w))) (store w)
            /\ published w' = published w /\ logged w' = logged w)
         /\ (~ In (conv_state conv, next) transitionTable ->
             exists e,
               transitionState clock conversationId next w = (Throw e, w)
               /\ isInvalidTransition e = true
               /\ e = Error (invalidTransitionMessage (conv_state conv) next)))
  /\ (forall current next,
         In current terminalStates ->
         ~ In (current, next) transitionTable).
Proof.
  split; [exact validateTransition_table |]. split.
  - intros clock conversationId conv next w Hvalid Hconv. split.
    + intros Hin. apply validateTransition_table in Hin.
      unfold transitionState. pass_doc Hvalid.
      unfold runTransaction, bind, getWorld.
      rewrite Hconv. unfold assertTransition. rewrite Hin. cbn.
      eexists. split; [reflexivity |]. cbn. auto.
    + intros Hout.
      assert (Hv : validateTransition (conv_state conv) next = false).
      { destruct (validateTransition (conv_state conv) next) eqn:E;
          [| reflexivity].
        apply validateTransition_table in E. contradiction. }
      unfold transitionState. pass_doc Hvalid.
      unfold runTransaction, bind, getWorld.
      rewrite Hconv. unfold assertTransition. rewrite Hv. cbn.
      eexists. split; [destruct w; reflexivity |].
      split; reflexivity.
  - intros current next Hterm Hin.
    apply validateTransition_table in Hin.
    rewrite (terminal_no_successor _ _ Hterm) in Hin. discriminate.
Qed.

(** ** Receipts *)

Lemma statusIs_eq data s :
  rc_status data = Some s -> forall s', statusIs data s' = String.eqb s s'.
Proof. intros H s'. unfold statusIs. rewrite H. reflexivity. Qed.

(** C1. The four outcomes of [claimReceipt] on an event id that is a
    document id, where [now] is what the clock reads at that point of the
    call.  No receipt: one is created with
    status [processing], [claimedAt] the time read and the fields of [meta],
    and the call returns [true].  A completed receipt: [false], the world
    untouched.  A receipt in [processing] whose age [now - claimedAt] is
    below [RECEIPT_STALE_THRESHOLD_MS] (120000): [false], the store
    untouched.  A receipt in [processing] whose age has reached the
    threshold: it stays in [processing], [claimedAt] and [retriedAt] receive
    the times read when they are written, the other fields are kept, and
    the call returns [true]. *)
Theorem claimReceipt_outcomes :
  forall clock eventId meta w,
    validDocumentId eventId = true ->
    let now := clock (clockReads w) in
    RECEIPT_STALE_THRESHOLD_MS = 120000
    /\ (receipts (store w) !! eventId = None ->
        exists w',
          claimReceipt clock eventId meta w = (Return true, w')
          /\ receipts (store w') !! eventId =
             Some {| rc_eventId := Some eventId;
                     rc_handler := Some (meta_handler meta);
                     rc_conversationId := Some (meta_conversationId meta);
                     rc_messageId := Some (meta_messageId meta);
                     rc_status := Some "processing";
                     rc_claimedAt := Some now;
                     rc_completedAt := None;
                     rc_retriedAt := None |})
    /\ (forall data,
           receipts (store w) !! eventId = Some data ->
           rc_status data = Some "completed" ->
           claimReceipt clock eventId meta w = (Return false, w))
    /\ (forall data claimedAt,
           receipts (store w) !! eventId = Some data ->
           rc_status data = Some "processing" ->
           rc_claimedAt data = Some claimedAt ->
           now - claimedAt < RECEIPT_STALE_THRESHOLD_MS ->
           exists w',
             claimReceipt clock eventId meta w = (Return false, w')
             /\ store w' = store w)
    /\ (forall data claimedAt,
           receipts (store w) !! eventId = Some data ->
           rc_status data = Some "processing" ->
           rc_claimedAt data = Some claimedAt ->
           RECEIPT_STALE_THRESHOLD_MS <= now - claimedAt ->
           exists w',
             claimReceipt clock eventId meta w = (Return true, w')
             /\ receipts (store w') !! eventId =
                Some {| rc_eventId := rc_eventId data;
                        rc_handler := rc_handler data;
                        rc_conversationId := rc_conversationId data;
                        rc_messageId := rc_messageId data;
                        rc_status := Some "processing";
                        rc_claimedAt := Some (clock (S (clockReads w)));
                        rc_completedAt := rc_completedAt data;
                        rc_retriedAt :=
                          Some (clock (S (S (clockReads w)))) |}).
Proof.
  intros clock eventId meta w Hvalid now.
  split; [reflexivity |]. repeat split.
  - intros Hnone.
    unfold claimReceipt. pass_doc Hvalid.
    unfold runTransaction, bind, getWorld. rewrite Hnone. cbn.
    eexists. split; [reflexivity |]. cbn. apply lookup_insert_eq.
  - intros data Hdata Hstatus.
    unfold claimReceipt. pass_doc Hvalid.
    unfold runTransaction, bind, getWorld. rewrite Hdata.
    rewrite (statusIs_eq _ _ Hstatus). reflexivity.
  - intros data claimedAt Hdata Hstatus Hclaimed Hage.
    unfold claimReceipt. pass_doc Hvalid.
    unfold runTransaction, bind, getWorld. rewrite Hdata.
    rewrite !(statusIs_eq _ _ Hstatus), Hclaimed. cbn.
    fold now. apply Z.ltb_lt in Hage. rewrite Hage.
    eexists. split; reflexivity.
  - intros data claimedAt Hdata Hstatus Hclaimed Hage.
    unfold claimReceipt. pass_doc Hvalid.
    unfold runTransaction, bind, getWorld. rewrite Hdata.
    rewrite !(statusIs_eq _ _ Hstatus), Hclaimed. cbn.
    fold now. apply Z.ltb_ge in Hage. rewrite Hage. cbn.
    eexists. split; [reflexivity |]. cbn. apply lookup_insert_eq.
Qed.

Lemma mergeCompleted_status now old :
  rc_status (mergeCompleted now old) = Some "completed"
  /\ rc_completedAt (mergeCompleted now old) = Some now.
Proof. destruct old; split; reflexivity. Qed.

(** C6. [completeReceipt] on an event id that is a document id always
    returns: whether or not a receipt exists for [eventId], afterwards one
    does, with status [completed] and
    [completedAt] the time read; a receipt that existed keeps its other
    fields (the write merges), and the other receipts are as before.
    Calling it a second time returns again and leaves the same status. *)
Theorem completeReceipt_upsert :
  forall clock eventId w,
    validDocumentId eventId = true ->
    exists w1 data1,
      completeReceipt clock eventId w = (Return tt, w1)
      /\ receipts (store w1) !! eventId = Some data1
      /\ rc_status data1 = Some "completed"
      /\ rc_completedAt data1 = Some (clock (clockReads w))
      /\ (forall before, receipts (store w) !! eventId = Some before ->
                         untouchedByCompletion before data1)
      /\ (forall other, other <> eventId ->
            receipts (store w1) !! other = receipts (store w) !! other)
      /\ exists w2 data2,
           completeReceipt clock eventId w1 = (Return tt, w2)
           /\ receipts (store w2) !! eventId = Some data2
           /\ rc_status data2 = rc_status data1
           /\ untouchedByCompletion data1 data2.
Proof.
  intros clock eventId w Hvalid.
  rewrite (completeReceipt_run _ _ _ Hvalid).
  eexists. eexists. split; [reflexivity |]. cbn.
  rewrite !lookup_insert_eq.
  split; [reflexivity |].
  split; [apply mergeCompleted_status |].
  split; [apply mergeCompleted_status |].
  split.
  { intros before Hbefore. rewrite Hbefore. cbn.
    unfold untouchedByCompletion. cbn. tauto. }
  split.
  { intros other Hne. apply lookup_insert_ne. congruence. }
  rewrite (completeReceipt_run _ _ _ Hvalid).
  eexists. eexists. split; [reflexivity |].
  cbn [store withStore setReceipts receipts].
  split; [apply lookup_insert_eq |].
  rewrite lookup_insert_eq.
  split.
  { destruct (receipts (store w) !! eventId); reflexivity. }
  unfold untouchedByCompletion. cbn. tauto.
Qed.

(** ** The intent schema *)

Section SchemaFacts.

Variable isUuid : string -> bool.

Lemma checkUuidString_nil v :
  checkUuidString isUuid v = []
  <-> exists s, v = VStr s /\ isUuid s = true.
Proof.
  split.
  - destruct v as [| | b | n | s | l | o]; cbn; try discriminate.
    destruct (isUuid s) eqn:E; [eauto | discriminate].
  - intros (s & -> & H). cbn. rewrite H. reflexivity.
Qed.

Lemma checkNonEmptyString_nil v :
  checkNonEmptyString v = []
  <-> exists s, v = VStr s /\ s <> EmptyString.
Proof.
  split.
  - destruct v as [| | b | n | s | l | o]; cbn; try discriminate.
    destruct s; cbn; [discriminate |].
    intros _. eexists. split; [reflexivity | discriminate].
  - intros (s & -> & H). destruct s; [contradiction | reflexivity].
Qed.

Lemma includesString_In l s : includesString l s = true <-> In s l.
Proof.
  unfold includesString. rewrite existsb_exists. split.
  - intros (x & Hin & Heq). apply String.eqb_eq in Heq. congruence.
  - intros Hin. exists s. split; [assumption | apply String.eqb_refl].
Qed.

Lemma checkAction_nil v :
  checkAction v = [] <-> exists s, v = VStr s /\ In s intentActions.
Proof.
  split.
  - destruct v as [| | b | n | s | l | o]; try (cbn; discriminate).
    unfold checkAction.
    destruct (includesString intentActions s) eqn:E; [| discriminate].
    intros _. exists s. split; [reflexivity |].
    apply includesString_In, E.
  - intros (s & -> & H). unfold checkAction.
    apply includesString_In in H. rewrite H. reflexivity.
Qed.

Lemma checkRecord_nil v : checkRecord v = [] <-> exists o, v = VObj o.
Proof.
  split.
  - destruct v as [| | b | n | s | l | o]; cbn; try discriminate; eauto.
  - intros (o & ->). reflexivity.
Qed.

Lemma checkUnitNumber_nil v :
  checkUnitNumber v = []
  <-> exists q, v = VNum (Finite q) /\ (0 <= q)%Q /\ (q <= 1)%Q.
Proof.
  split.
  - destruct v as [| | b | n | s | l | o]; cbn; try discriminate.
    destruct n as [| | | q]; cbn; try discriminate.
    unfold Qleb.
    destruct (Qle_bool 0 q) eqn:E0; [| discriminate].
    destruct (Qle_bool q 1) eqn:E1; [| discriminate].
    intros _. exists q.
    apply Qle_bool_iff in E0. apply Qle_bool_iff in E1. auto.
  - intros (q & -> & H0 & H1). cbn. unfold Qleb.
    apply Qle_bool_iff in H0. apply Qle_bool_iff in H1.
    rewrite H0, H1. reflexivity.
Qed.

Lemma at_path_nil k msgs : at_path k msgs = [] <-> msgs = [].
Proof. destruct msgs; cbn; split; congruence. Qed.

Lemma objectIssues_nil o :
  objectIssues isUuid o = []
  <-> checkUuidString isUuid (getField o "intentId") = []
      /\ checkNonEmptyString (getField o "conversationId") = []
      /\ checkNonEmptyString (getField o "messageId") = []
      /\ checkAction (getField o "action") = []
      /\ checkRecord (getField o "parameters") = []
      /\ checkUnitNumber (getField o "confidence") = [].
Proof.
  unfold objectIssues. cbn [flat_map IntentSchema_shape].
  rewrite !app_nil, !at_path_nil. tauto.
Qed.

(** An object without issues is a well-formed intent, and conversely. *)
Lemma objectIssues_nil_wellFormed o :
  objectIssues isUuid o = [] ->
  exists d, parsedIntent o = Some d /\ wellFormedIntent isUuid (VObj o) d.
Proof.
  rewrite objectIssues_nil, checkUuidString_nil, !checkNonEmptyString_nil,
    checkAction_nil, checkRecord_nil, checkUnitNumber_nil.
  intros ((i & Hi & Hu) & (c & Hc & Hcn) & (m & Hm & Hmn)
          & (a & Ha & Hin) & (p & Hp) & (q & Hq & H0 & H1)).
  exists {| vi_intentId := i; vi_conversationId := c; vi_messageId := m;
            vi_action := a; vi_parameters := p;
            vi_confidence := Finite q |}.
  split.
  - unfold parsedIntent. rewrite Hi, Hc, Hm, Ha, Hp, Hq. reflexivity.
  - exists o, q. cbn. tauto.
Qed.

Lemma wellFormed_objectIssues o d :
  wellFormedIntent isUuid (VObj o) d -> objectIssues isUuid o = [].
Proof.
  rewrite objectIssues_nil, checkUuidString_nil, !checkNonEmptyString_nil,
    checkAction_nil, checkRecord_nil, checkUnitNumber_nil.
  intros (o' & q & Ho & Hi & Hu & Hc & Hcn & Hm & Hmn & Ha & Hin
          & Hp & Hq & Hfin & H0 & H1).
  injection Ho as <-. rewrite Hfin in Hq.
  repeat split; eauto.
Qed.

End SchemaFacts.

Lemma append_empty_inv (a b : string) :
  (a ++ b)%string = EmptyString -> a = EmptyString /\ b = EmptyString.
Proof. destruct a; cbn; [auto | discriminate]. Qed.

Lemma join_cons_nonempty sep x l :
  x <> EmptyString -> join sep (x :: l) <> EmptyString.
Proof.
  intros Hx. destruct l as [| y l]; cbn [join]; [assumption |].
  intros H. apply append_empty_inv in H. tauto.
Qed.

Lemma formatIssue_nonempty i : formatIssue i <> EmptyString.
Proof.
  unfold formatIssue. intros H.
  apply append_empty_inv in H as [_ H]. discriminate H.
Qed.

Lemma formatted_issues_nonempty i issues :
  join "; " (map formatIssue (i :: issues)) <> EmptyString.
Proof. apply join_cons_nonempty, formatIssue_nonempty. Qed.

(** C5. [validateIntent] returns a result for every input, of one of two
    forms: [{valid: true, data}] with no error, exactly when the input is a
    well-formed intent (and [data] holds its six fields); otherwise
    [{valid: false, error}] with no data and a non-empty error string. *)
Theorem validateIntent_total :
  forall isUuid raw,
    (exists d,
        wellFormedIntent isUuid raw d
        /\ validateIntent isUuid raw =
           {| valid := true; data := Some d; error_ := None |})
    \/ ((forall d, ~ wellFormedIntent isUuid raw d)
        /\ exists e,
            validateIntent isUuid raw =
            {| valid := false; data := None; error_ := Some e |}
            /\ e <> EmptyString).
Proof.
  intros isUuid raw.
  assert (Hother : forall issue,
             (forall o, raw <> VObj o) ->
             safeParse isUuid raw = inl [issue] ->
             (forall d, ~ wellFormedIntent isUuid raw d)
             /\ exists e,
                 validateIntent isUuid raw =
                 {| valid := false; data := None; error_ := Some e |}
                 /\ e <> EmptyString).
  { intros issue Hno Hparse. split.
    - intros d (o & q & Ho & _). exact (Hno o Ho).
    - unfold validateIntent. rewrite Hparse. eexists. split; [reflexivity |].
      apply formatted_issues_nonempty. }
  destruct raw as [| | b | n | s | l | o];
    try (right; eapply Hother; [intros o'; discriminate | reflexivity]).
  destruct (objectIssues isUuid o) as [| i issues] eqn:E.
  - left. destruct (objectIssues_nil_wellFormed isUuid o E) as (d & Hd & Hwf).
    exists d. split; [assumption |].
    unfold validateIntent, safeParse. rewrite E, Hd. reflexivity.
  - right. split.
    + intros d Hwf. apply wellFormed_objectIssues in Hwf.
      rewrite E in Hwf. discriminate.
    + unfold validateIntent, safeParse. rewrite E.
      eexists. split; [reflexivity |]. apply formatted_issues_nonempty.
Qed.

(** ** Ingress *)

Lemma truthy_VStr s : truthy (VStr s) = true <-> s <> EmptyString.
Proof.
  cbn. destruct s; cbn; split; intros H; congruence.
Qed.

(** C7. A [POST /messages] whose body has no [content], a [content] that is
    not a string, or an empty [content], is answered 400 with the error
    string [Missing or invalid "content" field]; the world is exactly as
    before: nothing is written to the store and nothing is published. *)
Theorem postMessages_rejects_invalid_content :
  forall clock uuidv4_at publishMessage_at env_TOPIC_REASONING req w,
    invalidContent (req_body req) ->
    postMessages clock uuidv4_at publishMessage_at env_TOPIC_REASONING req w
    = (Return badRequest, w)
    /\ res_status badRequest = 400
    /\ res_body badRequest =
       [("error",
         VStr ("Missing or invalid "
               ++ String "034"%char ("content" ++ String "034"%char " field")))].
Proof.
  intros clock uuidv4_at publishMessage_at env_TOPIC_REASONING req w Hbad.
  split; [| split; reflexivity].
  unfold postMessages, tryCatch, invalidContent in *.
  destruct (getField (req_body req) "content")
    as [| | b | n | s | l | o]; try reflexivity.
  subst s. reflexivity.
Qed.

(** C4, as amended.  A [POST /messages] whose [content] is a non-empty
    string and which carries a non-empty idempotency key that is already
    claimed (a key under which the store holds a document is a document
    id) is answered 200 with the [messageId] stored under the key and
    [duplicate: true]; the store is unchanged and nothing is published. *)
Theorem postMessages_duplicate_key :
  forall clock uuidv4_at publishMessage_at env_TOPIC_REASONING req w
         content key doc,
    getField (req_body req) "content" = VStr content ->
    content <> EmptyString ->
    req_idempotencyKey req = Some key ->
    key <> EmptyString ->
    validDocumentId key = true ->
    idempotencyKeys (store w) !! key = Some doc ->
    exists w',
      postMessages clock uuidv4_at publishMessage_at env_TOPIC_REASONING req w
      = (Return (duplicateResponse (ik_messageId doc)), w')
      /\ store w' = store w
      /\ published w' = published w.
Proof.
  intros clock uuidv4_at publishMessage_at env_TOPIC_REASONING req w
         content key doc Hcontent Hne Hkey Hkne Hvalid Hdoc.
  assert (Hk : String.eqb key EmptyString = false)
    by (apply String.eqb_neq; assumption).
  assert (Hexisting : forall m w0,
             store w0 = store w ->
             claimIdempotencyKey clock key m w0
             = (Return (Existing (ik_messageId doc)), w0)).
  { intros m w0 Hw0.
    unfold claimIdempotencyKey. pass_doc Hvalid.
    unfold runTransaction, bind, getWorld.
    rewrite Hw0, Hdoc. reflexivity. }
  apply truthy_VStr in Hne.
  unfold postMessages. rewrite Hcontent, Hne, Hkey. cbn [negb].
  unfold presentKey. rewrite Hk. unfold orElseM.
  destruct (truthy (getField (req_body req) "conversationId"));
    eexists; (split; [apply tryCatch_Return |]).
  - step. step. step_by ltac:(apply Hexisting; reflexivity).
    step. reflexivity.
  - split; reflexivity.
  - step. step. step_by ltac:(apply Hexisting; reflexivity).
    step. reflexivity.
  - split; reflexivity.
Qed.

(** C4 as stated fails: with the key [k1] already claimed, a request that
    carries it with an empty body is answered 400, not 200. *)
Lemma postMessages_claimed_key_invalid_body :
  (exists doc, idempotencyKeys (store worldAfterFirstPost) !! "k1" = Some doc)
  /\ req_idempotencyKey emptyBodyRequest = Some "k1"
  /\ postMessages sampleClock sampleUuid busUp None emptyBodyRequest
       worldAfterFirstPost
     = (Return badRequest, worldAfterFirstPost)
  /\ res_status badRequest <> 200.
Proof.
  split; [| split; [reflexivity | split; [reflexivity | discriminate]]].
  eexists. vm_compute. reflexivity.
Qed.

(** ** Receipts, as the consumers use them *)

Lemma claimReceipt_returns clock eventId meta w :
  validDocumentId eventId = true ->
  exists b w',
    claimReceipt clock eventId meta w = (Return b, w')
    /\ onlyReceiptsChanged w w'
    /\ (b = false -> store w' = store w).
Proof.
  intros Hvalid. unfold claimReceipt. pass_doc Hvalid.
  unfold runTransaction, bind, getWorld, onlyReceiptsChanged.
  destruct (receipts (store w) !! eventId) as [data |]; cbn.
  - destruct (statusIs data "completed").
    { do 2 eexists. split; [reflexivity |]. cbn. tauto. }
    destruct (statusIs data "processing");
      [| do 2 eexists; split; [reflexivity |]; cbn; tauto].
    destruct (rc_claimedAt data) as [claimedAt |];
      [| do 2 eexists; split; [reflexivity |]; cbn; tauto].
    cbn.
    destruct (clock (clockReads w) - claimedAt <? RECEIPT_STALE_THRESHOLD_MS);
      cbn; do 2 eexists; (split; [reflexivity |]); cbn;
      (split; [tauto |]); [reflexivity | discriminate].
  - do 2 eexists. split; [reflexivity |]. cbn. split; [tauto | discriminate].
Qed.

(** Whatever it is given and however it ends, [claimReceipt] changes
    receipts only. *)
Lemma claimReceipt_frame clock eventId meta w :
  onlyReceiptsChanged w (snd (claimReceipt clock eventId meta w)).
Proof.
  destruct (validDocumentId eventId) eqn:Hvalid.
  - destruct (claimReceipt_returns clock eventId meta w Hvalid)
      as (b & w' & -> & Hframe & _). exact Hframe.
  - unfold claimReceipt. rewrite (bind_docRef_invalid _ _ _ Hvalid).
    unfold onlyReceiptsChanged. cbn. tauto.
Qed.

Lemma claimReceipt_claimable clock eventId meta w :
  validDocumentId eventId = true ->
  claimable (clock (clockReads w)) (receipts (store w) !! eventId) ->
  exists w' data,
    claimReceipt clock eventId meta w = (Return true, w')
    /\ onlyReceiptsChanged w w'
    /\ receipts (store w') = <[eventId := data]> (receipts (store w)).
Proof.
  intros Hvalid Hclaim.
  unfold claimReceipt. pass_doc Hvalid.
  unfold runTransaction, bind, getWorld, onlyReceiptsChanged.
  destruct (receipts (store w) !! eventId) as [data |] eqn:Hr; cbn.
  - destruct Hclaim as (Hstatus & claimedAt & Hclaimed & Hage).
    rewrite !(statusIs_eq _ _ Hstatus), Hclaimed. cbn.
    apply Z.ltb_ge in Hage. rewrite Hage. cbn.
    do 2 eexists. split; [reflexivity |]. cbn. tauto.
  - do 2 eexists. split; [reflexivity |]. cbn. tauto.
Qed.

(** ** The executor *)

Lemma transitionState_allowed clock conversationId conv next w :
  validDocumentId conversationId = true ->
  conversations (store w) !! conversationId = Some conv ->
  validateTransition (conv_state conv) next = true ->
  transitionState clock conversationId next w
  = (Return tt,
     withStore
       (setConversations
          (<[conversationId :=
               {| conv_conversationId := conv_conversationId conv;
                  conv_state := next;
                  conv_createdAt := conv_createdAt conv;
                  conv_updatedAt := clock (clockReads w) |}]>
             (conversations (store w))) (store w)) (tick w)).
Proof.
  intros Hvalid Hconv Hok.
  unfold transitionState. pass_doc Hvalid.
  unfold runTransaction, bind, getWorld.
  rewrite Hconv. unfold assertTransition. rewrite Hok. reflexivity.
Qed.



(** ** What a computation preserves *)

Section Preservation.

Variable R : World -> World -> Prop.
Hypothesis R_refl : forall w, R w w.
Hypothesis R_trans : forall w1 w2 w3, R w1 w2 -> R w2 w3 -> R w1 w3.

Lemma preserves_ret {A} (a : A) : preserves R (ret a).
Proof. intros w. apply R_refl. Qed.

Lemma preserves_throw {A} (e : error) : preserves R (@throw A e).
Proof. intros w. apply R_refl. Qed.

Lemma preserves_bind {A B} (c : M A) (k : A -> M B) :
  preserves R c -> (forall a, preserves R (k a)) -> preserves R (bind c k).
Proof.
  intros Hc Hk w. unfold bind.
  specialize (Hc w). destruct (c w) as [[a | e] w1]; cbn in *.
  - eapply R_trans; [exact Hc | apply Hk].
  - exact Hc.
Qed.

Lemma preserves_tryCatch {A} (c : M A) (h : error -> M A) :
  preserves R c -> (forall e, preserves R (h e)) ->
  preserves R (tryCatch c h).
Proof.
  intros Hc Hh w. unfold tryCatch.
  specialize (Hc w). destruct (c w) as [[a | e] w1]; cbn in *.
  - exact Hc.
  - eapply R_trans; [exact Hc | apply Hh].
Qed.

Lemma preserves_orElseM a (b : M value) :
  preserves R b -> preserves R (orElseM a b).
Proof.
  intros Hb. unfold orElseM. destruct (truthy a);
    [apply preserves_ret | exact Hb].
Qed.

End Preservation.

(** Walking through a handler: [prim] closes the goals about the primitive
    operations, for a reflexive and transitive relation. *)
Ltac preserve_with R_refl R_trans prim :=
  repeat first
    [ apply (preserves_ret _ R_refl)
    | apply (preserves_throw _ R_refl)
    | apply (preserves_orElseM _ R_refl)
    | solve [prim]
    | apply (preserves_bind _ R_trans); [| intros ?]
    | match goal with
      | |- preserves _ (if ?b then _ else _) => destruct b
      | |- preserves _ (match ?x with _ => _ end) => destruct x
      end ].

(** ** Intents written by the reasoner *)

Lemma validateIntent_valid_iff isUuid raw :
  valid (validateIntent isUuid raw) = true
  <-> error_ (validateIntent isUuid raw) = None.
Proof.
  unfold validateIntent. destruct (safeParse isUuid raw); cbn;
    split; intros H; congruence.
Qed.

Lemma intentsGrowValid_refl w : intentsGrowValid w w.
Proof. intros key doc H. left. exact H. Qed.

Lemma intentsGrowValid_trans w1 w2 w3 :
  intentsGrowValid w1 w2 -> intentsGrowValid w2 w3 -> intentsGrowValid w1 w3.
Proof.
  intros H12 H23 key doc H.
  destruct (H23 key doc H) as [H2 | Hinv]; [apply H12, H2 | right; exact Hinv].
Qed.

Lemma same_intents_grow w w' :
  intents (store w') = intents (store w) -> intentsGrowValid w w'.
Proof. intros Heq key doc H. left. rewrite <- Heq. exact H. Qed.

Section ReasonerIntents.

Variable isUuid : string -> bool.
Variable clock : nat -> timestamp.
Variable uuidv4_at : nat -> string.
Variable publishMessage_at : nat -> error + string.

Lemma newDate_intents : preserves intentsGrowValid (newDate clock).
Proof. keeps_by same_intents_grow. Qed.

Lemma uuidv4_intents : preserves intentsGrowValid (uuidv4 uuidv4_at).
Proof. keeps_by same_intents_grow. Qed.

Lemma write_intents severity message :
  preserves intentsGrowValid (write clock severity message).
Proof. keeps_by same_intents_grow. Qed.

Lemma claimReceipt_intents eventId meta :
  preserves intentsGrowValid (claimReceipt clock eventId meta).
Proof.
  intros w. apply same_intents_grow.
  apply (claimReceipt_frame clock eventId meta w).
Qed.

Lemma mockReasoning_intents content conversationId messageId :
  preserves intentsGrowValid
    (mockReasoning uuidv4_at content conversationId messageId).
Proof.
  unfold mockReasoning.
  repeat match goal with
         | |- context [if ?b then _ else _] => destruct b
         end; keeps_by same_intents_grow.
Qed.

Lemma logEvent_intents conversationId eventId eventType payload :
  preserves intentsGrowValid
    (logEvent clock conversationId eventId eventType payload).
Proof. keeps_by same_intents_grow. Qed.

Lemma transitionState_intents conversationId next :
  preserves intentsGrowValid (transitionState clock conversationId next).
Proof.
  keeps_by same_intents_grow.
Qed.

Lemma completeReceipt_intents eventId :
  preserves intentsGrowValid (completeReceipt clock eventId).
Proof. keeps_by same_intents_grow. Qed.

Lemma publishEvent_intents topic event :
  preserves intentsGrowValid
    (publishEvent clock publishMessage_at topic event).
Proof.
  intros w. apply same_intents_grow.
  unfold publishEvent, bind.
  destruct (publishMessage_at (publishAttempts w)); reflexivity.
Qed.

(** The one write of an intent: the document carries the verdict and the
    error of the same validation. *)
Lemma saveIntent_validated raw intentId conversationId messageId action
      parameters confidence createdAt :
  preserves intentsGrowValid
    (saveIntent
       {| ri_intentId := intentId;
          ri_conversationId := conversationId;
          ri_messageId := messageId;
          ri_action := action;
          ri_parameters := parameters;
          ri_confidence := confidence;
          ri_createdAt := createdAt;
          ri_valid := valid (validateIntent isUuid raw);
          ri_validationError := error_ (validateIntent isUuid raw) |}).
Proof.
  intros w. unfold saveIntent. cbn [ri_intentId ri_conversationId].
  destruct (validDocumentId conversationId) eqn:Hconversation;
    [pass_doc Hconversation
    | rewrite (bind_docRef_invalid _ _ _ Hconversation);
      apply intentsGrowValid_refl].
  destruct intentId as [| | b | n | intentId | l | o];
    try apply intentsGrowValid_refl.
  destruct (validDocumentId intentId) eqn:Hintent;
    [pass_doc Hintent
    | rewrite (bind_docRef_invalid _ _ _ Hintent);
      apply intentsGrowValid_refl].
  intros key doc. unfold modifyStore. world_simpl.
  rewrite lookup_insert. case_decide.
  - intros [= <-]. right. apply validateIntent_valid_iff.
  - auto.
Qed.

End ReasonerIntents.

(** C9. The verdict of a validation is [true] exactly when it carries no
    error; and in the world the reasoner leaves, after any delivery, every
    intent document either was already there, unchanged, or has
    [valid = true] exactly when it stores no [validationError]. *)
Theorem reasoner_intents_valid_iff_no_error :
  (forall isUuid raw,
      valid (validateIntent isUuid raw) = true
      <-> error_ (validateIntent isUuid raw) = None)
  /\ (forall isUuid clock uuidv4_at publishMessage_at parseEnvelope
             env_TOPIC_ACTION data w,
         intentsGrowValid w
           (snd (reasoner isUuid clock uuidv4_at publishMessage_at
                   parseEnvelope env_TOPIC_ACTION data w))).
Proof.
  split; [exact validateIntent_valid_iff |].
  intros isUuid clock uuidv4_at publishMessage_at parseEnvelope
         env_TOPIC_ACTION data.
  change (preserves intentsGrowValid
            (reasoner isUuid clock uuidv4_at publishMessage_at parseEnvelope
               env_TOPIC_ACTION data)).
  unfold reasoner, log_info, log_warn, log_error. cbv zeta.
  preserve_with intentsGrowValid_refl intentsGrowValid_trans
    ltac:(first [ apply newDate_intents | apply uuidv4_intents
                | apply write_intents | apply claimReceipt_intents
                | apply mockReasoning_intents | apply logEvent_intents
                | apply transitionState_intents
                | apply completeReceipt_intents | apply publishEvent_intents
                | apply saveIntent_validated ]).
Qed.

(** ** The reasoner: candidates of [mockReasoning] *)

Lemma validateIntent_wellFormed isUuid o d :
  wellFormedIntent isUuid (VObj o) d ->
  valid (validateIntent isUuid (VObj o)) = true.
Proof.
  intros Hwf. apply wellFormed_objectIssues in Hwf.
  destruct (objectIssues_nil_wellFormed isUuid o Hwf) as (d' & Hd' & _).
  unfold validateIntent, safeParse. rewrite Hwf, Hd'. reflexivity.
Qed.

Lemma mockReasoning_run uuidv4_at content conversationId messageId w :
  exists action parameters confidence,
    mockReasoning uuidv4_at content conversationId messageId w
    = (Return [("intentId", VStr (uuidv4_at (uuidReads w)));
               ("conversationId", VStr conversationId);
               ("messageId", VStr messageId);
               ("action", VStr action);
               ("parameters", VObj parameters);
               ("confidence", VNum (Finite confidence))],
       mint w)
    /\ In action intentActions
    /\ In confidence mockConfidences
    /\ ((forall keyword, In keyword mockKeywords ->
           includes (toLowerCase content) keyword = false) ->
        action = "search" /\ confidence = 60 # 100).
Proof.
  unfold mockReasoning.
  repeat match goal with
         | |- context [if ?b then _ else _] => destruct b eqn:?
         end;
    do 3 eexists; (split; [reflexivity |]); cbn [In intentActions mockConfidences];
    (split; [tauto |]); (split; [tauto |]); intros Hnone.
  all: try (split; reflexivity).
  all: repeat match goal with
         | H : _ || _ = true |- _ => apply orb_true_iff in H; destruct H
         end.
  all: match goal with
       | H : includes _ ?k = true |- _ =>
           rewrite (Hnone k) in H; [discriminate H | cbn; tauto]
       end.
Qed.

Lemma mock_candidate_valid isUuid intentId conversationId messageId action
      parameters confidence :
  isUuid intentId = true ->
  conversationId <> EmptyString ->
  messageId <> EmptyString ->
  In action intentActions ->
  In confidence mockConfidences ->
  valid (validateIntent isUuid
           (VObj [("intentId", VStr intentId);
                  ("conversationId", VStr conversationId);
                  ("messageId", VStr messageId);
                  ("action", VStr action);
                  ("parameters", VObj parameters);
                  ("confidence", VNum (Finite confidence))])) = true
  /\ (0 <= confidence)%Q /\ (confidence <= 1)%Q.
Proof.
  intros Hu Hc Hm Ha Hq.
  assert (Hrange : (0 <= confidence)%Q /\ (confidence <= 1)%Q).
  { cbn in Hq.
    repeat (destruct Hq as [<- | Hq]; [split; apply Qle_bool_iff; reflexivity |]).
    contradiction. }
  split; [| exact Hrange].
  apply validateIntent_wellFormed
    with (d := {| vi_intentId := intentId;
                  vi_conversationId := conversationId;
                  vi_messageId := messageId; vi_action := action;
                  vi_parameters := parameters;
                  vi_confidence := Finite confidence |}).
  eexists. exists confidence. cbn. repeat split; tauto.
Qed.

Lemma noValidationFailure_refl w : noValidationFailure w w.
Proof. split; auto. Qed.

Lemma noValidationFailure_trans w1 w2 w3 :
  noValidationFailure w1 w2 -> noValidationFailure w2 w3 ->
  noValidationFailure w1 w3.
Proof. intros [L12 S12] [L23 S23]. split; auto. Qed.

Lemma same_log_and_states w w' :
  logged w' = logged w ->
  conversations (store w') = conversations (store w) ->
  noValidationFailure w w'.
Proof.
  intros Hl Hc. unfold noValidationFailure, stateOf. rewrite Hl, Hc.
  split; auto.
Qed.

Section ReasonerBranch.

Variable clock : nat -> timestamp.
Variable uuidv4_at : nat -> string.
Variable publishMessage_at : nat -> error + string.

Lemma newDate_nvf : preserves noValidationFailure (newDate clock).
Proof. keeps_by same_log_and_states. Qed.

Lemma uuidv4_nvf : preserves noValidationFailure (uuidv4 uuidv4_at).
Proof. keeps_by same_log_and_states. Qed.

Lemma write_nvf severity message :
  message <> validationFailureMessage ->
  preserves noValidationFailure (write clock severity message).
Proof.
  intros Hne w. split.
  - unfold write, bind, newDate. cbn. intros entry Hin Hmsg.
    apply in_app_or in Hin as [Hin | [<- | []]]; [exact Hin |].
    cbn in Hmsg. contradiction.
  - auto.
Qed.

Lemma claimReceipt_nvf eventId meta :
  preserves noValidationFailure (claimReceipt clock eventId meta).
Proof.
  intros w.
  apply same_log_and_states; apply (claimReceipt_frame clock eventId meta w).
Qed.

Lemma logEvent_nvf conversationId eventId eventType payload :
  preserves noValidationFailure
    (logEvent clock conversationId eventId eventType payload).
Proof. keeps_by same_log_and_states. Qed.

Lemma saveIntent_nvf intent :
  preserves noValidationFailure (saveIntent intent).
Proof. unfold saveIntent. keeps_by same_log_and_states. Qed.

Lemma completeReceipt_nvf eventId :
  preserves noValidationFailure (completeReceipt clock eventId).
Proof. keeps_by same_log_and_states. Qed.

Lemma transitionState_nvf conversationId next :
  next <> FAILED_VALIDATION ->
  preserves noValidationFailure (transitionState clock conversationId next).
Proof.
  intros Hne w.
  unfold transitionState.
  destruct (validDocumentId conversationId) eqn:Hvalid;
    [pass_doc Hvalid
    | rewrite (bind_docRef_invalid _ _ _ Hvalid);
      apply noValidationFailure_refl].
  unfold runTransaction, bind, getWorld.
  destruct (conversations (store w) !! conversationId) as [conv |];
    [| apply same_log_and_states; reflexivity].
  destruct (assertTransition (conv_state conv) next);
    [apply same_log_and_states; reflexivity |].
  split; [auto |].
  intros id. unfold stateOf. cbn. rewrite lookup_insert. case_decide.
  - cbn. congruence.
  - auto.
Qed.

Lemma publishEvent_nvf topic event :
  preserves noValidationFailure
    (publishEvent clock publishMessage_at topic event).
Proof.
  unfold publishEvent, log_info.
  apply (preserves_bind _ noValidationFailure_trans).
  - intros w. apply same_log_and_states;
      destruct (publishMessage_at (publishAttempts w)); reflexivity.
  - intros m. apply (preserves_bind _ noValidationFailure_trans).
    + apply write_nvf. discriminate.
    + intros _. apply (preserves_ret _ noValidationFailure_refl).
Qed.

End ReasonerBranch.

Lemma rel_step {A B} (R : World -> World -> Prop) w0 (c : M A)
      (k : A -> M B) w a w1 :
  c w = (Return a, w1) -> R w0 (snd (k a w1)) -> R w0 (snd (bind c k w)).
Proof. intros Hc H. rewrite (bind_Return _ _ _ _ _ Hc). exact H. Qed.

Lemma rel_throw {A B} (R : World -> World -> Prop) w0 (c : M A)
      (k : A -> M B) w e w1 :
  c w = (Throw e, w1) -> R w0 w1 -> R w0 (snd (bind c k w)).
Proof. intros Hc H. rewrite (bind_Throw _ _ _ _ _ Hc). exact H. Qed.

Lemma reasoner_noValidationFailure isUuid clock uuidv4_at publishMessage_at
      parseEnvelope env_TOPIC_ACTION data ev w :
  decodeEventData parseEnvelope data = inr ev ->
  ev_conversationId ev <> EmptyString ->
  ev_messageId ev <> EmptyString ->
  isUuid (uuidv4_at (uuidReads w)) = true ->
  noValidationFailure w
    (snd (reasoner isUuid clock uuidv4_at publishMessage_at
            parseEnvelope env_TOPIC_ACTION data w)).
Proof.
  intros Hdecode Hc Hm Hu.
  unfold reasoner. rewrite Hdecode. cbv zeta.
  set (w1 := snd (log_info clock "Received event" w)).
  destruct (validDocumentId (ev_eventId ev)) eqn:Hevent.
  2: { eapply rel_step; [reflexivity |]. cbv beta.
       eapply rel_throw;
         [unfold claimReceipt; apply bind_docRef_invalid; exact Hevent |].
       apply (write_nvf clock INFO "Received event"). discriminate. }
  destruct (claimReceipt_returns clock (ev_eventId ev)
              {| meta_handler := "reasoner";
                 meta_conversationId := ev_conversationId ev;
                 meta_messageId := ev_messageId ev |} w1 Hevent)
    as (isNew & w2 & Hrun & Hframe & _).
  assert (H02 : noValidationFailure w w2).
  { apply noValidationFailure_trans with w1.
    - apply write_nvf. discriminate.
    - pose proof (claimReceipt_nvf clock (ev_eventId ev)
                    {| meta_handler := "reasoner";
                       meta_conversationId := ev_conversationId ev;
                       meta_messageId := ev_messageId ev |} w1) as H.
      rewrite Hrun in H. exact H. }
  assert (Hu2 : uuidReads w2 = uuidReads w) by apply Hframe.
  eapply rel_step; [reflexivity |]. cbv beta.
  eapply rel_step; [exact Hrun |]. cbv beta.
  destruct isNew; cbn [negb].
  2: { eapply noValidationFailure_trans; [exact H02 |].
       match goal with
       | |- noValidationFailure ?x (snd (?c ?x)) =>
           cut (preserves noValidationFailure c); [intros Hp; apply Hp |]
       end.
       unfold log_info.
       preserve_with noValidationFailure_refl noValidationFailure_trans
         ltac:(first [ apply newDate_nvf | apply uuidv4_nvf
                     | apply write_nvf; discriminate
                     | apply claimReceipt_nvf | apply logEvent_nvf
                     | apply saveIntent_nvf | apply completeReceipt_nvf
                     | apply transitionState_nvf; discriminate
                     | apply publishEvent_nvf ]). }
  destruct (orElse (getField (ev_payload ev) "content") (VStr EmptyString))
    as [| | b | n | content | l | o];
    try (eapply rel_throw; [reflexivity | exact H02]).
  destruct (mockReasoning_run uuidv4_at content (ev_conversationId ev)
              (ev_messageId ev) w2)
    as (action & parameters & confidence & Hmock & Ha & Hq & _).
  eapply rel_step; [exact Hmock |]. cbv beta.
  rewrite Hu2.
  destruct (mock_candidate_valid isUuid (uuidv4_at (uuidReads w))
              (ev_conversationId ev) (ev_messageId ev) action parameters
              confidence Hu Hc Hm Ha Hq) as (Hvalid & _).
  rewrite Hvalid. cbn [negb].
  eapply noValidationFailure_trans with (mint w2).
  { eapply noValidationFailure_trans; [exact H02 |].
    apply same_log_and_states; reflexivity. }
  match goal with
  | |- noValidationFailure ?x (snd (?c ?x)) =>
      cut (preserves noValidationFailure c); [intros Hp; apply Hp |]
  end.
  unfold log_info.
  preserve_with noValidationFailure_refl noValidationFailure_trans
    ltac:(first [ apply newDate_nvf | apply uuidv4_nvf
                | apply write_nvf; discriminate
                | apply claimReceipt_nvf | apply logEvent_nvf
                | apply saveIntent_nvf | apply completeReceipt_nvf
                | apply transitionState_nvf; discriminate
                | apply publishEvent_nvf ]).
Qed.


(** C10. With a non-empty [conversationId] and [messageId] and a minted
    [intentId] that is a UUID, the candidate [mockReasoning] returns passes
    [validateIntent]: its action is one of the four actions of the schema
    ([search] when the content has none of the keywords) and its confidence
    is one of 0.92, 0.88, 0.85, 0.90 and 0.60, all within [0,1].  So the
    reasoner, on a delivery that decodes to an event with non-empty ids,
    never takes its failed-validation branch: it does not log that line and
    moves no conversation to [FAILED_VALIDATION]. *)
Theorem mockReasoning_passes_validation :
  forall isUuid clock uuidv4_at publishMessage_at parseEnvelope
         env_TOPIC_ACTION,
    (forall content conversationId messageId w,
        conversationId <> EmptyString ->
        messageId <> EmptyString ->
        isUuid (uuidv4_at (uuidReads w)) = true ->
        exists raw action confidence,
          mockReasoning uuidv4_at content conversationId messageId w
          = (Return raw, mint w)
          /\ getField raw "intentId" = VStr (uuidv4_at (uuidReads w))
          /\ valid (validateIntent isUuid (VObj raw)) = true
          /\ getField raw "action" = VStr action
          /\ In action ["search"; "calculate"; "summarize"; "translate"]
          /\ getField raw "confidence" = VNum (Finite confidence)
          /\ In confidence [92 # 100; 88 # 100; 85 # 100; 90 # 100; 60 # 100]
          /\ (0 <= confidence)%Q /\ (confidence <= 1)%Q
          /\ ((forall keyword, In keyword mockKeywords ->
                 includes (toLowerCase content) keyword = false) ->
              action = "search" /\ confidence = 60 # 100))
    /\ (forall data ev w,
           decodeEventData parseEnvelope data = inr ev ->
           ev_conversationId ev <> EmptyString ->
           ev_messageId ev <> EmptyString ->
           isUuid (uuidv4_at (uuidReads w)) = true ->
           noValidationFailure w
             (snd (reasoner isUuid clock uuidv4_at publishMessage_at
                     parseEnvelope env_TOPIC_ACTION data w))).
Proof.
  intros isUuid clock uuidv4_at publishMessage_at parseEnvelope
         env_TOPIC_ACTION.
  split; [| intros data ev w; apply reasoner_noValidationFailure].
  intros content conversationId messageId w Hc Hm Hu.
  destruct (mockReasoning_run uuidv4_at content conversationId messageId w)
    as (action & parameters & confidence & Hmock & Ha & Hq & Hdefault).
  destruct (mock_candidate_valid isUuid _ _ _ _ parameters _ Hu Hc Hm Ha Hq)
    as (Hvalid & H0 & H1).
  do 3 eexists. split; [exact Hmock |].
  split; [reflexivity |]. split; [exact Hvalid |].
  split; [reflexivity |]. split; [exact Ha |].
  split; [reflexivity |]. split; [exact Hq |]. auto.
Qed.

(** ** The reasoner: replay after the [INTENT_VALIDATED] transition *)

Lemma transitionState_rejected clock conversationId conv next w :
  validDocumentId conversationId = true ->
  conversations (store w) !! conversationId = Some conv ->
  validateTransition (conv_state conv) next = false ->
  transitionState clock conversationId next w
  = (Throw (Error (invalidTransitionMessage (conv_state conv) next)), w).
Proof.
  intros Hvalid Hconv Hno.
  unfold transitionState. pass_doc Hvalid.
  unfold runTransaction, bind, getWorld.
  rewrite Hconv. unfold assertTransition. rewrite Hno.
  destruct w; reflexivity.
Qed.

Ltac throw_by tac := etransitivity; [apply bind_Throw; tac | cbv beta].

(** C2 (what the code does).  A delivery to the reasoner for a conversation
    already in [INTENT_VALIDATED], whose receipt claim is granted and whose
    content is a string (the ids of the event and the intent id drawn
    being document ids): the handler throws the invalid-transition
    error of [transitionState], so the delivery is not acknowledged; it
    publishes nothing and the conversation stays in [INTENT_VALIDATED]. *)
Theorem reasoner_replay_from_INTENT_VALIDATED_throws :
  forall isUuid clock uuidv4_at publishMessage_at parseEnvelope
         env_TOPIC_ACTION data ev w conv content,
    decodeEventData parseEnvelope data = inr ev ->
    validDocumentId (ev_eventId ev) = true ->
    validDocumentId (ev_conversationId ev) = true ->
    validDocumentId (uuidv4_at (uuidReads w)) = true ->
    claimable (clock (S (clockReads w)))
              (receipts (store w) !! ev_eventId ev) ->
    orElse (getField (ev_payload ev) "content") (VStr EmptyString)
    = VStr content ->
    conversations (store w) !! ev_conversationId ev = Some conv ->
    conv_state conv = INTENT_VALIDATED ->
    exists e w',
      reasoner isUuid clock uuidv4_at publishMessage_at parseEnvelope
        env_TOPIC_ACTION data w = (Throw e, w')
      /\ isInvalidTransition e = true
      /\ deliveryOf (Throw e) = Nack e
      /\ published w' = published w
      /\ stateOf w' (ev_conversationId ev) = Some INTENT_VALIDATED.
Proof.
  intros isUuid clock uuidv4_at publishMessage_at parseEnvelope
         env_TOPIC_ACTION data ev w conv content
         Hdecode Hevent Hconversation Huuid Hclaim Hcontent Hconv Hstate.
  destruct (claimReceipt_claimable clock (ev_eventId ev)
              {| meta_handler := "reasoner";
                 meta_conversationId := ev_conversationId ev;
                 meta_messageId := ev_messageId ev |}
              (snd (log_info clock "Received event" w)) Hevent)
    as (w2 & rdata & Hrun & Hframe & Hrec).
  { exact Hclaim. }
  destruct Hframe as (Hc & _ & _ & _ & _ & _ & Hp & _ & Hu & _).
  cbn in Hc, Hp, Hu.
  destruct (mockReasoning_run uuidv4_at content (ev_conversationId ev)
              (ev_messageId ev) w2)
    as (action & parameters & confidence & Hmock & _).
  set (raw := [("intentId", VStr (uuidv4_at (uuidReads w2)));
               ("conversationId", VStr (ev_conversationId ev));
               ("messageId", VStr (ev_messageId ev));
               ("action", VStr action);
               ("parameters", VObj parameters);
               ("confidence", VNum (Finite confidence))]) in *.
  assert (Hid : getField raw "intentId" = VStr (uuidv4_at (uuidReads w2)))
    by reflexivity.
  assert (Ht : truthy (VStr (uuidv4_at (uuidReads w2))) = true).
  { rewrite Hu. apply truthy_VStr, validDocumentId_nonempty, Huuid. }
  unfold reasoner. rewrite Hdecode. cbv zeta. rewrite Hcontent.
  unfold orElseM.
  assert (Hreject : forall next w0,
             next = INTENT_VALIDATED \/ next = FAILED_VALIDATION ->
             conversations (store w0) = conversations (store w2) ->
             transitionState clock (ev_conversationId ev) next w0
             = (Throw (Error (invalidTransitionMessage INTENT_VALIDATED next)),
                w0)).
  { intros next w0 Hnext Hw0. rewrite <- Hstate.
    apply transitionState_rejected.
    - exact Hconversation.
    - rewrite Hw0, Hc. exact Hconv.
    - rewrite Hstate. destruct Hnext as [-> | ->]; reflexivity. }
  destruct (valid (validateIntent isUuid (VObj raw))) eqn:Hv;
  do 2 eexists; (split; [
    step; step_by ltac:(exact Hrun); cbn [negb];
    step_by ltac:(exact Hmock); rewrite Hid, Ht, Hv; cbn [negb];
    step; step;
    step_by ltac:(eapply saveIntent_run;
                  [reflexivity | exact Hconversation
                  | rewrite Hu; exact Huuid]);
    step_by ltac:(apply logEvent_run;
                  [exact Hconversation | exact Hevent]);
    try step;
    throw_by ltac:(apply Hreject; [tauto | reflexivity]);
    reflexivity |]);
  (split; [reflexivity |]); (split; [reflexivity |]);
  (split; [exact Hp |]);
  unfold stateOf; world_simpl; rewrite Hc, Hconv; cbn; rewrite Hstate;
  reflexivity.
Qed.

(** * The properties at concrete inputs *)

(** The ids of the sample generator are document ids. *)
Lemma sampleUuid_valid n : validDocumentId (sampleUuid n) = true.
Proof.
  unfold sampleUuid, digit.
  assert (Hhigh : ((n / 10) mod 10 < 10)%nat)
    by (apply Nat.mod_upper_bound; discriminate).
  assert (Hlow : (n mod 10 < 10)%nat)
    by (apply Nat.mod_upper_bound; discriminate).
  destruct ((n / 10) mod 10)%nat as [|[|[|[|[|[|[|[|[|[|high]]]]]]]]]];
    try lia;
    destruct (n mod 10)%nat as [|[|[|[|[|[|[|[|[|[|low]]]]]]]]]];
    try lia; reflexivity.
Qed.

(** The four outcomes of [claimReceipt], on receipt [e1]. *)
Lemma claimReceipt_outcomes_witness :
  (receipts (store initialWorld) !! "e1" = None
   /\ exists w', claimReceipt sampleClock "e1" sampleMeta initialWorld
                 = (Return true, w')
                 /\ statusOf w' "e1" = Some "processing")
  /\ (statusOf worldCompleted "e1" = Some "completed"
      /\ claimReceipt sampleClock "e1" sampleMeta worldCompleted
         = (Return false, worldCompleted))
  /\ (statusOf worldClaimed "e1" = Some "processing"
      /\ exists w', claimReceipt sampleClock "e1" sampleMeta worldClaimed
                    = (Return false, w')
                    /\ store w' = store worldClaimed)
  /\ (statusOf (muchLater worldClaimed) "e1" = Some "processing"
      /\ exists w' data,
          claimReceipt sampleClock "e1" sampleMeta (muchLater worldClaimed)
          = (Return true, w')
          /\ receipts (store w') !! "e1" = Some data
          /\ rc_status data = Some "processing"
          /\ rc_claimedAt data = Some 318000
          /\ rc_retriedAt data = Some 319000).
Proof.
  split; [| split; [| split]].
  - pose proof (claimReceipt_outcomes sampleClock "e1" sampleMeta initialWorld
                  eq_refl)
      as (_ & Hfresh & _).
    split; [reflexivity |].
    destruct (Hfresh eq_refl) as (w' & Hrun & Hreceipt).
    exists w'. split; [exact Hrun |].
    unfold statusOf. rewrite Hreceipt. reflexivity.
  - pose proof (claimReceipt_outcomes sampleClock "e1" sampleMeta
                  worldCompleted eq_refl) as (_ & _ & Hdone & _).
    split; [vm_compute; reflexivity |].
    eapply Hdone; vm_compute; reflexivity.
  - pose proof (claimReceipt_outcomes sampleClock "e1" sampleMeta worldClaimed
                  eq_refl)
      as (_ & _ & _ & Hrecent & _).
    split; [vm_compute; reflexivity |].
    eapply Hrecent; vm_compute; reflexivity.
  - pose proof (claimReceipt_outcomes sampleClock "e1" sampleMeta
                  (muchLater worldClaimed) eq_refl)
      as (_ & _ & _ & _ & Hstale).
    split; [vm_compute; reflexivity |].
    edestruct Hstale as (w' & Hrun & Hreceipt).
    + vm_compute. reflexivity.
    + vm_compute. reflexivity.
    + vm_compute. reflexivity.
    + vm_compute. discriminate.
    + exists w'. eexists. split; [exact Hrun |].
      split; [exact Hreceipt |]. repeat split.
Defined.

(** A conversation in [RECEIVED]: one allowed and one refused transition. *)
Lemma transitionState_follows_table_witness :
  (stateOf worldWithConversation "c1" = Some RECEIVED)
  /\ (exists w',
         transitionState sampleClock "c1" REASONING_REQUESTED
           worldWithConversation = (Return tt, w')
         /\ stateOf w' "c1" = Some REASONING_REQUESTED)
  /\ (exists e,
         transitionState sampleClock "c1" ACTION_COMPLETED
           worldWithConversation = (Throw e, worldWithConversation)
         /\ isInvalidTransition e = true)
  /\ ~ In (FAILED_EXECUTION, RECEIVED) transitionTable.
Proof.
  pose proof transitionState_follows_table as (_ & Hrun & Hterminal).
  split; [vm_compute; reflexivity |].
  split; [| split].
  - edestruct (Hrun sampleClock "c1"
                 {| conv_conversationId := "c1"; conv_state := RECEIVED;
                    conv_createdAt := 0; conv_updatedAt := 0 |}
                 REASONING_REQUESTED
                 worldWithConversation) as [Hok _];
      [reflexivity | vm_compute; reflexivity |].
    destruct Hok as (w' & Hw' & Hstore & _).
    + cbn. tauto.
    + exists w'. split; [exact Hw' |].
      unfold stateOf. rewrite Hstore. vm_compute. reflexivity.
  - edestruct (Hrun sampleClock "c1"
                 {| conv_conversationId := "c1"; conv_state := RECEIVED;
                    conv_createdAt := 0; conv_updatedAt := 0 |}
                 ACTION_COMPLETED
                 worldWithConversation) as [_ Hno];
      [reflexivity | vm_compute; reflexivity |].
    destruct Hno as (e & He & Hinv & _).
    + cbn. intros H. repeat (destruct H as [H | H]; [discriminate H |]).
      exact H.
    + exists e. split; [exact He | exact Hinv].
  - apply Hterminal. cbn. tauto.
Defined.

(** [POST /messages {}] is answered 400. *)
Lemma postMessages_rejects_invalid_content_witness :
  invalidContent (req_body emptyBodyRequest)
  /\ postMessages sampleClock sampleUuid busUp None emptyBodyRequest
       initialWorld
     = (Return badRequest, initialWorld).
Proof.
  split; [exact I |].
  apply (postMessages_rejects_invalid_content sampleClock sampleUuid busUp
           None emptyBodyRequest initialWorld I).
Defined.

(** The first request, sent again with its key. *)
Lemma postMessages_duplicate_key_witness :
  exists w',
    postMessages sampleClock sampleUuid busUp None sampleRequest
      worldAfterFirstPost
    = (Return (duplicateResponse (sampleUuid 1)), w')
    /\ store w' = store worldAfterFirstPost
    /\ published w' = published worldAfterFirstPost.
Proof.
  apply (postMessages_duplicate_key sampleClock sampleUuid busUp None
           sampleRequest worldAfterFirstPost "search for cats" "k1"
           {| ik_messageId := sampleUuid 1; ik_createdAt := 0 |}).
  - reflexivity.
  - discriminate.
  - reflexivity.
  - discriminate.
  - reflexivity.
  - vm_compute. reflexivity.
Defined.


(** A content without keyword, and the reasoner on the first request. *)
Lemma mockReasoning_passes_validation_witness :
  (exists raw,
      mockReasoning sampleUuid "What is the weather?" (sampleUuid 0)
        (sampleUuid 1) worldAfterFirstPost
      = (Return raw, mint worldAfterFirstPost)
      /\ valid (validateIntent sampleIsUuid (VObj raw)) = true
      /\ getField raw "action" = VStr "search"
      /\ getField raw "confidence" = VNum (Finite (60 # 100)))
  /\ noValidationFailure worldAfterFirstPost worldAfterReasoning.
Proof.
  pose proof (mockReasoning_passes_validation sampleIsUuid sampleClock
                sampleUuid busUp sampleParse None) as [Hmock Hreasoner].
  split.
  - destruct (Hmock "What is the weather?" (sampleUuid 0) (sampleUuid 1)
                worldAfterFirstPost)
      as (raw & action & confidence & Hrun & _ & Hvalid & Haction & _
          & Hconfidence & _ & _ & _ & Hdefault).
    + discriminate.
    + discriminate.
    + vm_compute. reflexivity.
    + destruct Hdefault as [-> ->].
      * intros keyword Hin. cbn in Hin.
        repeat (destruct Hin as [<- | Hin]; [vm_compute; reflexivity |]).
        contradiction.
      * exists raw. auto.
  - apply (Hreasoner (delivered "reasoning") sampleReasoningEvent
             worldAfterFirstPost).
    + reflexivity.
    + discriminate.
    + discriminate.
    + vm_compute. reflexivity.
Defined.

(** The redelivery after the rejected publish. *)
Lemma reasoner_replay_from_INTENT_VALIDATED_throws_witness :
  stateOf worldAfterFailedPublish (sampleUuid 0) = Some INTENT_VALIDATED
  /\ statusOf worldAfterFailedPublish (sampleUuid 2) = Some "processing"
  /\ exists e w',
      reasoner sampleIsUuid sampleClock sampleUuid busUp sampleParse None
        (delivered "reasoning") worldAfterFailedPublish = (Throw e, w')
      /\ isInvalidTransition e = true
      /\ published w' = published worldAfterFailedPublish
      /\ stateOf w' (sampleUuid 0) = Some INTENT_VALIDATED.
Proof.
  split; [vm_compute; reflexivity |].
  split; [vm_compute; reflexivity |].
  edestruct (reasoner_replay_from_INTENT_VALIDATED_throws sampleIsUuid
               sampleClock sampleUuid busUp sampleParse None
               (delivered "reasoning") sampleReasoningEvent
               worldAfterFailedPublish)
    as (e & w' & Hrun & Hinvalid & _ & Hpublished & Hstate).
  - reflexivity.
  - apply sampleUuid_valid.
  - apply sampleUuid_valid.
  - apply sampleUuid_valid.
  - eassert (Hreceipt : receipts (store worldAfterFailedPublish)
                          !! ev_eventId sampleReasoningEvent = Some _)
      by (vm_compute; reflexivity).
    rewrite Hreceipt.
    split; [reflexivity |]. eexists. split; [reflexivity |].
    vm_compute. discriminate.
  - reflexivity.
  - vm_compute. reflexivity.
  - reflexivity.
  - exists e, w'. auto.
Defined.

(** The replay, evaluated end to end: the reasoner handled the event of the
    first request up to the [INTENT_VALIDATED] transition and its publish
    was rejected; five minutes later the event is delivered again, with the
    bus up.  The handler throws the invalid-transition error, publishes
    nothing and leaves the conversation in [INTENT_VALIDATED], the receipt
    in [processing]. *)
Lemma reasoner_replay_after_failed_publish :
  let firstRun :=
    reasoner sampleIsUuid sampleClock sampleUuid busDownOnce sampleParse None
      (delivered "reasoning") worldAfterFirstPost in
  let replay :=
    reasoner sampleIsUuid sampleClock sampleUuid busUp sampleParse None
      (delivered "reasoning") (snd firstRun) in
  fst firstRun = Throw (Error "Pub/Sub unavailable")
  /\ stateOf (snd firstRun) (sampleUuid 0) = Some INTENT_VALIDATED
  /\ fst replay
     = Throw (Error (invalidTransitionMessage INTENT_VALIDATED
                       INTENT_VALIDATED))
  /\ deliveryOf (fst replay)
     = Nack (Error (invalidTransitionMessage INTENT_VALIDATED
                      INTENT_VALIDATED))
  /\ length (published (snd replay)) = length (published (snd firstRun))
  /\ stateOf (snd replay) (sampleUuid 0) = Some INTENT_VALIDATED
  /\ statusOf (snd replay) (sampleUuid 2) = Some "processing".
Proof. vm_compute. repeat split; reflexivity. Qed.

(** The candidate with action [dance] is rejected. *)
Lemma validateIntent_total_witness :
  validateIntent sampleIsUuid danceIntent
  = {| valid := false; data := None;
       error_ := Some "action: Invalid enum value. Expected 'search' | 'calculate' | 'summarize' | 'translate', received 'dance'" |}
  /\ (forall d, ~ wellFormedIntent sampleIsUuid danceIntent d).
Proof.
  split; [reflexivity |].
  destruct (validateIntent_total sampleIsUuid danceIntent)
    as [(d & _ & Hvalid) | (Hno & _)].
  - discriminate Hvalid.
  - exact Hno.
Defined.

(** Completing a receipt that does not exist. *)
Lemma completeReceipt_upsert_witness :
  receipts (store initialWorld) !! "e1" = None
  /\ exists w1 data1,
      completeReceipt sampleClock "e1" initialWorld = (Return tt, w1)
      /\ receipts (store w1) !! "e1" = Some data1
      /\ rc_status data1 = Some "completed"
      /\ rc_completedAt data1 = Some 0.
Proof.
  split; [reflexivity |].
  destruct (completeReceipt_upsert sampleClock "e1" initialWorld eq_refl)
    as (w1 & data1 & Hrun & Hreceipt & Hstatus & Hat & _).
  exists w1, data1. auto.
Defined.

(** The intents after the reasoner handled the first request. *)
Lemma reasoner_intents_valid_iff_no_error_witness :
  intentsGrowValid worldAfterFirstPost worldAfterReasoning
  /\ (valid (validateIntent sampleIsUuid danceIntent) = true
      <-> error_ (validateIntent sampleIsUuid danceIntent) = None).
Proof.
  pose proof reasoner_intents_valid_iff_no_error as [Hiff Hgrow].
  split.
  - apply (Hgrow sampleIsUuid sampleClock sampleUuid busUp sampleParse None
             (delivered "reasoning") worldAfterFirstPost).
  - apply Hiff.
Defined.

(** * Further properties of the code *)

(** ** The transition graph *)

Lemma validateTransition_rank a b :
  validateTransition a b = true -> (stateRank a < stateRank b)%nat.
Proof. destruct a, b; cbn; intros H; try discriminate H; lia. Qed.

Lemma validPath_bound s l :
  validPath (s :: l) = true ->
  (length l + stateRank s <= 4)%nat
  /\ Forall (fun x => (stateRank s < stateRank x)%nat) l.
Proof.
  revert s. induction l as [| b l IH]; intros s H.
  - split; [destruct s; cbn; lia | constructor].
  - cbn [validPath] in H. apply andb_true_iff in H as [Hab Hrest].
    apply validateTransition_rank in Hab.
    destruct (IH b Hrest) as [Hlen Hall]. split.
    + cbn [length]. lia.
    + constructor; [exact Hab |].
      eapply Forall_impl; [exact Hall |]. cbn. intros x Hx. lia.
Qed.

(** X1. The transition graph has no cycle: no state is its own successor,
    along any sequence of allowed transitions no state occurs twice, and
    such a sequence has at most five states (four transitions). *)
Theorem transitions_acyclic :
  (forall s, validateTransition s s = false)
  /\ (forall l, validPath l = true -> NoDup l /\ (length l <= 5)%nat).
Proof.
  split; [intros s; destruct s; reflexivity |].
  intros l. induction l as [| s l IH]; intros H.
  - split; [constructor | cbn; lia].
  - destruct (validPath_bound s l H) as [Hlen Hall].
    assert (Hrest : validPath l = true).
    { destruct l as [| b l']; [reflexivity |].
      cbn [validPath] in H. apply andb_true_iff in H. tauto. }
    split.
    + constructor; [| apply IH, Hrest].
      intros Hin. apply list_elem_of_In in Hin.
      rewrite List.Forall_forall in Hall.
      specialize (Hall s Hin). lia.
    + cbn [length]. lia.
Qed.

(** ** Conversations *)

(** X2. [createConversation] on a document id returns and overwrites:
    whether or not the id is already in use, and whatever state its
    conversation is in, afterwards the id holds a conversation in
    [RECEIVED] whose two timestamps are the time read, [getConversation]
    returns it, and the other conversations are untouched. *)
Theorem createConversation_resets :
  forall clock conversationId w,
    validDocumentId conversationId = true ->
    let fresh :=
      {| conv_conversationId := conversationId; conv_state := RECEIVED;
         conv_createdAt := clock (clockReads w);
         conv_updatedAt := clock (clockReads w) |} in
    exists w',
      createConversation clock conversationId w = (Return fresh, w')
      /\ getConversation conversationId w' = (Return (Some fresh), w')
      /\ stateOf w' conversationId = Some RECEIVED
      /\ (forall other, other <> conversationId ->
            conversations (store w') !! other
            = conversations (store w) !! other).
Proof.
  intros clock conversationId w Hvalid fresh.
  rewrite (createConversation_run _ _ _ Hvalid). subst fresh.
  eexists. split; [reflexivity |].
  rewrite (getConversation_run _ _ Hvalid). unfold stateOf. world_simpl.
  rewrite lookup_insert_eq.
  split; [reflexivity |]. split; [reflexivity |].
  intros other Hne. apply lookup_insert_ne. congruence.
Qed.

(** X3. [transitionState] on a document id that holds no conversation
    throws [Conversation <id> not found], which is not the
    invalid-transition error, and changes nothing. *)
Theorem transitionState_unknown_conversation :
  forall clock conversationId next w,
    validDocumentId conversationId = true ->
    conversations (store w) !! conversationId = None ->
    transitionState clock conversationId next w
    = (Throw (Error ("Conversation " ++ conversationId ++ " not found")), w)
    /\ isInvalidTransition
         (Error ("Conversation " ++ conversationId ++ " not found")) = false.
Proof.
  intros clock conversationId next w Hvalid Hnone. split; [| reflexivity].
  unfold transitionState. pass_doc Hvalid.
  unfold runTransaction, bind, getWorld.
  rewrite Hnone. destruct w; reflexivity.
Qed.

(** ** Idempotency keys and receipts *)

(** X4. The first claim of a key wins: on an unclaimed key that is a
    document id [claimIdempotencyKey] answers [isNew] and records the
    message id; any later claim of the key, with whatever message id and at
    whatever time, answers with the first message id and changes nothing. *)
Theorem claimIdempotencyKey_first_wins :
  forall clock key messageId w,
    validDocumentId key = true ->
    idempotencyKeys (store w) !! key = None ->
    exists w1,
      claimIdempotencyKey clock key messageId w = (Return IsNew, w1)
      /\ idempotencyKeys (store w1) !! key
         = Some {| ik_messageId := messageId;
                   ik_createdAt := clock (clockReads w) |}
      /\ (forall other, other <> key ->
            idempotencyKeys (store w1) !! other
            = idempotencyKeys (store w) !! other)
      /\ forall clock' messageId',
          claimIdempotencyKey clock' key messageId' w1
          = (Return (Existing messageId), w1).
Proof.
  intros clock key messageId w Hvalid Hnone.
  unfold claimIdempotencyKey at 1. pass_doc Hvalid.
  unfold runTransaction, bind, getWorld. rewrite Hnone.
  eexists. split; [reflexivity |]. world_simpl.
  split; [apply lookup_insert_eq |].
  split; [intros other Hne; apply lookup_insert_ne; congruence |].
  intros clock' messageId'.
  unfold claimIdempotencyKey. pass_doc Hvalid.
  unfold runTransaction, bind, getWorld. world_simpl.
  rewrite lookup_insert_eq. reflexivity.
Qed.

(** X5. Right after an event whose id is a document id was claimed for the
    first time, a second claim of it is refused as long as the clock has
    advanced by less than the stale threshold, and granted once it has
    advanced by the threshold or more. *)
Theorem claimReceipt_duplicate_delivery :
  forall clock eventId meta meta' w,
    validDocumentId eventId = true ->
    receipts (store w) !! eventId = None ->
    exists w1,
      claimReceipt clock eventId meta w = (Return true, w1)
      /\ (clock (S (clockReads w)) - clock (clockReads w)
          < RECEIPT_STALE_THRESHOLD_MS ->
          exists w2,
            claimReceipt clock eventId meta' w1 = (Return false, w2)
            /\ store w2 = store w1)
      /\ (RECEIPT_STALE_THRESHOLD_MS
          <= clock (S (clockReads w)) - clock (clockReads w) ->
          exists w2,
            claimReceipt clock eventId meta' w1 = (Return true, w2)
            /\ statusOf w2 eventId = Some "processing").
Proof.
  intros clock eventId meta meta' w Hvalid Hnone.
  unfold claimReceipt at 1. pass_doc Hvalid.
  unfold runTransaction, bind, getWorld. rewrite Hnone.
  eexists. split; [reflexivity |]. split.
  - intros Hrecent. apply Z.ltb_lt in Hrecent.
    unfold claimReceipt. pass_doc Hvalid.
    unfold runTransaction, bind, getWorld, newDate, modifyStore.
    world_simpl. rewrite lookup_insert_eq. cbn. rewrite Hrecent.
    eexists. split; reflexivity.
  - intros Hstale. apply Z.ltb_ge in Hstale.
    unfold claimReceipt. pass_doc Hvalid.
    unfold runTransaction, bind, getWorld, newDate, modifyStore.
    world_simpl. rewrite lookup_insert_eq. cbn. rewrite Hstale.
    eexists. split; [reflexivity |].
    unfold statusOf. world_simpl. rewrite lookup_insert_eq. reflexivity.
Qed.

(** X6. Once [completeReceipt] ran for an event whose id is a document id,
    whatever the receipt was before (even missing), every later
    [claimReceipt] of the event is refused, at any time, and leaves the
    world as it is. *)
Theorem completed_receipt_refuses_claims :
  forall clock eventId w,
    validDocumentId eventId = true ->
    exists w1,
      completeReceipt clock eventId w = (Return tt, w1)
      /\ forall clock' meta,
          claimReceipt clock' eventId meta w1 = (Return false, w1).
Proof.
  intros clock eventId w Hvalid.
  rewrite (completeReceipt_run _ _ _ Hvalid).
  eexists. split; [reflexivity |].
  intros clock' meta.
  unfold claimReceipt. pass_doc Hvalid.
  unfold runTransaction, bind, getWorld. world_simpl.
  rewrite lookup_insert_eq.
  destruct (receipts (store w) !! eventId); reflexivity.
Qed.

(** ** The tools *)

Lemma isCase_true action label :
  isCase action label = true <-> action = VStr label.
Proof.
  destruct action; cbn; try (split; intros H; discriminate H).
  rewrite String.eqb_eq. split; intros H; congruence.
Qed.

Lemma validateIntent_data_action isUuid raw d :
  validateIntent isUuid raw
  = {| valid := true; data := Some d; error_ := None |} ->
  In (vi_action d) intentActions.
Proof.
  unfold validateIntent, safeParse.
  destruct raw as [| | b | n | s | l | o]; try discriminate.
  destruct (objectIssues isUuid o) as [| i issues] eqn:E.
  - destruct (objectIssues_nil_wellFormed isUuid o E) as (d' & Hd' & Hwf).
    rewrite Hd'. intros [= <-].
    destruct Hwf as (o' & q & _ & _ & _ & _ & _ & _ & _ & _ & Hin & _).
    exact Hin.
  - destruct (parsedIntent o); discriminate.
Qed.

Lemma isCase_VStr a label : isCase (VStr a) label = String.eqb a label.
Proof. reflexivity. Qed.

Lemma flatFields_getField o k :
  flatFields (VObj o) = true -> flat (getField o k) = true.
Proof.
  cbn [flatFields]. induction o as [| [k' v] o IH]; cbn; [reflexivity |].
  intros H. apply andb_true_iff in H as [Hv Hrest].
  destruct (String.eqb k' k); [exact Hv | exact (IH Hrest)].
Qed.

Lemma ToString_flat numberToString v :
  flat v = true -> exists printed, ToString numberToString v = inr printed.
Proof.
  destruct v as [| | [|] | n | s | l | o]; cbn; intros H;
    try discriminate H; eexists; reflexivity.
Qed.

Lemma orElse_flat a b :
  flat a = true -> flat b = true -> flat (orElse a b) = true.
Proof. unfold orElse. destruct (truthy a); tauto. Qed.

(** On one of the four actions and an object whose fields are flat the
    tool returns with success. *)
Lemma executeTool_flat numberToString a o :
  In a intentActions ->
  flatFields (VObj o) = true ->
  exists out,
    executeTool numberToString (VStr a) (VObj o) = inr out
    /\ success out = true.
Proof.
  intros Hin Hflat.
  assert (Htext : exists printed,
             ToString numberToString
               (orElse (getField o "text") (VStr EmptyString))
             = inr printed).
  { apply ToString_flat, orElse_flat;
      [apply flatFields_getField, Hflat | reflexivity]. }
  destruct Htext as [printed Htext].
  cbn in Hin.
  repeat (destruct Hin as [<- | Hin];
          [unfold executeTool, andThen; cbn [isCase String.eqb Ascii.eqb
             Bool.eqb getProp];
           try rewrite Htext; eexists; split; reflexivity |]).
  contradiction.
Qed.

(** X7. When [executeTool] returns, it reports success exactly on the four
    action strings; on success the result names the tool after the action
    and carries no error.  Every action that [validateIntent] lets through
    is one of them: an intent that passed validation never reaches the
    unknown-action branch.  On one of the four actions and an object whose
    fields are neither objects nor arrays the tool does return. *)
Theorem executeTool_succeeds_on_schema_actions :
  forall numberToString,
    (forall action parameters out,
        executeTool numberToString action parameters = inr out ->
        (success out = true
         <-> exists a, action = VStr a
                       /\ In a ["search"; "calculate"; "summarize";
                                "translate"]))
    /\ (forall action parameters out,
           executeTool numberToString action parameters = inr out ->
           success out = true ->
           getField (result out) "tool" = action /\ tool_error out = None)
    /\ (forall isUuid raw d parameters out,
           validateIntent isUuid raw
           = {| valid := true; data := Some d; error_ := None |} ->
           executeTool numberToString (VStr (vi_action d)) parameters
           = inr out ->
           success out = true)
    /\ (forall a o,
           In a ["search"; "calculate"; "summarize"; "translate"] ->
           flatFields (VObj o) = true ->
           exists out,
             executeTool numberToString (VStr a) (VObj o) = inr out
             /\ success out = true).
Proof.
  intros numberToString.
  assert (Hout : forall action parameters out,
             executeTool numberToString action parameters = inr out ->
             (success out = true
              /\ getField (result out) "tool" = action
              /\ tool_error out = None
              /\ exists a, action = VStr a /\ In a intentActions)
             \/ (success out = false
                 /\ ~ exists a, action = VStr a /\ In a intentActions)).
  { intros action parameters out. unfold executeTool, andThen.
    repeat match goal with
           | |- context [isCase ?a ?l] => destruct (isCase a l) eqn:?
           end;
      repeat match goal with
             | |- context [match ?x with _ => _ end] => destruct_inner x
             end;
      intros H; try discriminate H; injection H as <-;
      try (left;
           match goal with
           | E : isCase _ ?l = true |- _ =>
               apply isCase_true in E; subst;
               repeat split; try reflexivity;
               exists l; split; [reflexivity | cbn; tauto]
           end).
    right. split; [reflexivity |].
    intros (a & -> & Hin). cbn in Hin.
    repeat (destruct Hin as [<- | Hin]; [discriminate |]). contradiction. }
  split; [| split; [| split]].
  - intros action parameters out Hrun.
    destruct (Hout _ _ _ Hrun) as [(Hok & _ & _ & Hin) | (Hno & Hnot)].
    + split; [intros _; exact Hin | intros _; exact Hok].
    + split; [rewrite Hno; discriminate | intros Hin; contradiction].
  - intros action parameters out Hrun Hok.
    destruct (Hout _ _ _ Hrun) as [(_ & Htool & Herr & _) | (Hno & _)].
    + split; assumption.
    + rewrite Hno in Hok. discriminate Hok.
  - intros isUuid raw d parameters out Hvalid Hrun.
    destruct (Hout _ _ _ Hrun) as [(Hok & _) | (_ & Hnot)]; [exact Hok |].
    exfalso. apply Hnot. eexists. split; [reflexivity |].
    exact (validateIntent_data_action isUuid raw d Hvalid).
  - intros a o Hin Hflat.
    exact (executeTool_flat numberToString a o Hin Hflat).
Qed.

(** ** Reading a conversation over HTTP *)

(** X8. [GET /conversations/:id] with a document id answers 404 with
    [Conversation not found] when the id holds no conversation and 200 with
    the stored document when it does; either way the world is unchanged. *)
Theorem getConversationById_reads :
  forall clock toISOString conversationId w,
    validDocumentId conversationId = true ->
    (conversations (store w) !! conversationId = None ->
     getConversationById clock toISOString conversationId w
     = (Return {| res_status := 404;
                  res_body := [("error", VStr "Conversation not found")] |},
        w))
    /\ (forall c,
           conversations (store w) !! conversationId = Some c ->
           getConversationById clock toISOString conversationId w
           = (Return {| res_status := 200;
                        res_body :=
                          [("conversationId", VStr (conv_conversationId c));
                           ("state", VStr (stateName (conv_state c)));
                           ("createdAt",
                            VStr (toISOString (conv_createdAt c)));
                           ("updatedAt",
                            VStr (toISOString (conv_updatedAt c)))] |},
              w)).
Proof.
  intros clock toISOString conversationId w Hvalid.
  unfold getConversationById, tryCatch, bind.
  rewrite (getConversation_run _ _ Hvalid).
  split; [intros H | intros c H]; rewrite H; reflexivity.
Qed.

(** ** What the handlers keep *)

(** A primitive operation that leaves some components of the world alone. *)
Ltac prim_keeps same :=
  lazymatch goal with
  | |- preserves _ (bind _ _) => fail
  | |- preserves _ (tryCatch _ _) => fail
  | |- preserves _ (if _ then _ else _) => fail
  | |- preserves _ (match _ with _ => _ end) => fail
  | |- preserves _ _ =>
      let w := fresh "w" in
      intros w; apply same;
      unfold log_info, log_warn, log_error, write, newDate, uuidv4,
        createConversation, getConversation, transitionState, saveMessage,
        claimReceipt, completeReceipt, claimIdempotencyKey, logEvent,
        saveIntent, saveActionResult, findActionResultByIntentId,
        publishEvent, mockReasoning, documentId, docRef, orThrow, json,
        runTransaction, bind, getWorld, modifyStore, ret, throw, log_info,
        write, newDate, bind;
      repeat (cbn;
              match goal with
              | |- context [match ?x with _ => _ end] => destruct_inner x
              end);
      cbn; reflexivity
  end.

(** The same for [claimReceipt], which changes receipts only. *)
Ltac claim_keeps same :=
  lazymatch goal with
  | |- preserves _ (claimReceipt ?clock ?eventId ?meta) =>
      let w := fresh "w" in
      let Hfr := fresh "Hfr" in
      intros w; apply same;
      pose proof (claimReceipt_frame clock eventId meta w) as Hfr;
      unfold onlyReceiptsChanged in Hfr; cbv beta;
      intuition congruence
  end.

(** Walking through a handler that catches what its body throws. *)
Ltac preserve_all R_refl R_trans prim :=
  repeat first
    [ apply (preserves_tryCatch _ R_trans); [| intros ?]
    | progress preserve_with R_refl R_trans prim ].

(** The handlers, opened up to their sequence of operations. *)
Ltac open_handler :=
  unfold reasoner, executor, postMessages, getConversationById, orElseM;
  cbv zeta.

Lemma reachable_trans a b c : reachable a b -> reachable b c -> reachable a c.
Proof.
  induction 1 as [| a b c' Hab Hbc IH]; [auto |].
  intros Hc. eapply reachable_step; [exact Hab | auto].
Qed.

Lemma statesAdvance_refl w : statesAdvance w w.
Proof.
  intros id. destruct (stateOf w id); [apply reachable_here | exact I].
Qed.

Lemma statesAdvance_trans w1 w2 w3 :
  statesAdvance w1 w2 -> statesAdvance w2 w3 -> statesAdvance w1 w3.
Proof.
  intros H12 H23 id. specialize (H12 id). specialize (H23 id).
  destruct (stateOf w1 id), (stateOf w2 id), (stateOf w3 id);
    try contradiction; try exact I.
  eapply reachable_trans; eassumption.
Qed.

Lemma same_conversations_advance w w' :
  conversations (store w') = conversations (store w) -> statesAdvance w w'.
Proof.
  intros Heq id. unfold stateOf. rewrite Heq.
  destruct (conversations (store w) !! id); [apply reachable_here | exact I].
Qed.

Lemma transitionState_advances clock conversationId next :
  preserves statesAdvance (transitionState clock conversationId next).
Proof.
  intros w. unfold transitionState.
  destruct (validDocumentId conversationId) eqn:Hvalid;
    [pass_doc Hvalid
    | rewrite (bind_docRef_invalid _ _ _ Hvalid);
      apply same_conversations_advance; reflexivity].
  unfold runTransaction, bind, getWorld.
  destruct (conversations (store w) !! conversationId) as [conv |] eqn:Hconv;
    [| apply same_conversations_advance; reflexivity].
  unfold assertTransition.
  destruct (validateTransition (conv_state conv) next) eqn:Hok;
    [| apply same_conversations_advance; reflexivity].
  intros id. unfold stateOf. cbn. rewrite lookup_insert. case_decide.
  - subst id. rewrite Hconv. cbn.
    eapply reachable_step; [exact Hok | apply reachable_here].
  - destruct (conversations (store w) !! id); [apply reachable_here | exact I].
Qed.

Lemma reachable_rank a b : reachable a b -> (stateRank a <= stateRank b)%nat.
Proof.
  induction 1 as [| a b c Hab _ IH]; [lia |].
  apply validateTransition_rank in Hab. lia.
Qed.

Lemma reachable_from_terminal a b :
  In a terminalStates -> reachable a b -> b = a.
Proof.
  intros Hterm Hreach. destruct Hreach as [| a b c Hab _]; [reflexivity |].
  rewrite (terminal_no_successor _ _ Hterm) in Hab. discriminate.
Qed.

Lemma reasoner_advances isUuid clock uuidv4_at publishMessage_at
      parseEnvelope env_TOPIC_ACTION data :
  preserves statesAdvance
    (reasoner isUuid clock uuidv4_at publishMessage_at parseEnvelope
       env_TOPIC_ACTION data).
Proof.
  open_handler.
  preserve_with statesAdvance_refl statesAdvance_trans
    ltac:(first [ apply transitionState_advances
                | claim_keeps same_conversations_advance
                | prim_keeps same_conversations_advance ]).
Qed.

Lemma executor_advances numberToString clock uuidv4_at parseEnvelope data :
  preserves statesAdvance
    (executor numberToString clock uuidv4_at parseEnvelope data).
Proof.
  open_handler.
  preserve_with statesAdvance_refl statesAdvance_trans
    ltac:(first [ apply transitionState_advances
                | claim_keeps same_conversations_advance
                | prim_keeps same_conversations_advance ]).
Qed.

(** X9. The two consumers move conversations only along the transition
    graph: after a delivery to the reasoner or to the executor, whatever
    it contains and however it ends, the same conversations exist and each
    is in a state reachable from the one it had.  A conversation in a
    terminal state stays in it. *)
Theorem consumers_follow_the_graph :
  forall isUuid numberToString clock uuidv4_at publishMessage_at
         parseEnvelope env_TOPIC_ACTION data w,
    let afterReasoner :=
      snd (reasoner isUuid clock uuidv4_at publishMessage_at parseEnvelope
             env_TOPIC_ACTION data w) in
    let afterExecutor :=
      snd (executor numberToString clock uuidv4_at parseEnvelope data w) in
    statesAdvance w afterReasoner
    /\ statesAdvance w afterExecutor
    /\ (forall w' conversationId s,
           w' = afterReasoner \/ w' = afterExecutor ->
           stateOf w conversationId = Some s ->
           In s terminalStates ->
           stateOf w' conversationId = Some s).
Proof.
  intros isUuid numberToString clock uuidv4_at publishMessage_at
         parseEnvelope env_TOPIC_ACTION data w afterReasoner afterExecutor.
  assert (Hr : statesAdvance w afterReasoner)
    by apply reasoner_advances.
  assert (He : statesAdvance w afterExecutor)
    by apply executor_advances.
  split; [exact Hr |]. split; [exact He |].
  intros w' id s Hw' Hs Hterm.
  assert (Hadv : statesAdvance w w') by (destruct Hw'; subst w'; assumption).
  specialize (Hadv id). rewrite Hs in Hadv.
  destruct (stateOf w' id) as [s' |]; [| contradiction].
  f_equal. apply reachable_from_terminal; assumption.
Qed.

Lemma unchanged_refl {X} (f : World -> X) w : unchanged f w w.
Proof. reflexivity. Qed.

Lemma unchanged_trans {X} (f : World -> X) w1 w2 w3 :
  unchanged f w1 w2 -> unchanged f w2 w3 -> unchanged f w1 w3.
Proof. unfold unchanged. congruence. Qed.

Lemma unchanged_same {X} (f : World -> X) w w' :
  f w' = f w -> unchanged f w w'.
Proof. exact (fun H => H). Qed.

(** Walking through a handler for a component that none of its operations
    writes. *)
Ltac never_writes :=
  open_handler;
  lazymatch goal with
  | |- preserves (unchanged ?f) _ =>
      preserve_all (unchanged_refl f) (unchanged_trans f)
        ltac:(first [ claim_keeps (unchanged_same f)
                    | prim_keeps (unchanged_same f) ])
  end.

Lemma executor_published numberToString clock uuidv4_at parseEnvelope data :
  preserves (unchanged published)
    (executor numberToString clock uuidv4_at parseEnvelope data).
Proof. never_writes. Qed.

(** X10. The executor never publishes and never writes an intent, a
    message or an idempotency key, whatever it is delivered and however it
    ends. *)
Theorem executor_footprint :
  forall numberToString clock uuidv4_at parseEnvelope data w,
    let w' :=
      snd (executor numberToString clock uuidv4_at parseEnvelope data w) in
    published w' = published w
    /\ publishAttempts w' = publishAttempts w
    /\ intents (store w') = intents (store w)
    /\ messages (store w') = messages (store w)
    /\ idempotencyKeys (store w') = idempotencyKeys (store w).
Proof.
  intros numberToString clock uuidv4_at parseEnvelope data w w'. subst w'.
  pose proof (executor_published numberToString clock uuidv4_at
                parseEnvelope data w) as Hpub.
  assert (Hatt : preserves (unchanged publishAttempts)
            (executor numberToString clock uuidv4_at parseEnvelope data))
    by never_writes.
  assert (Hint : preserves (unchanged (fun w => intents (store w)))
            (executor numberToString clock uuidv4_at parseEnvelope data))
    by never_writes.
  assert (Hmsg : preserves (unchanged (fun w => messages (store w)))
            (executor numberToString clock uuidv4_at parseEnvelope data))
    by never_writes.
  assert (Hkey : preserves (unchanged (fun w => idempotencyKeys (store w)))
            (executor numberToString clock uuidv4_at parseEnvelope data))
    by never_writes.
  repeat split; [apply Hpub | apply Hatt | apply Hint | apply Hmsg
                 | apply Hkey].
Qed.

(** X11. The reasoner never writes an action result, a message or an
    idempotency key, whatever it is delivered and however it ends. *)
Theorem reasoner_footprint :
  forall isUuid clock uuidv4_at publishMessage_at parseEnvelope
         env_TOPIC_ACTION data w,
    let w' :=
      snd (reasoner isUuid clock uuidv4_at publishMessage_at parseEnvelope
             env_TOPIC_ACTION data w) in
    actions (store w') = actions (store w)
    /\ messages (store w') = messages (store w)
    /\ idempotencyKeys (store w') = idempotencyKeys (store w).
Proof.
  intros isUuid clock uuidv4_at publishMessage_at parseEnvelope
         env_TOPIC_ACTION data w w'. subst w'.
  assert (Hact : preserves (unchanged (fun w => actions (store w)))
            (reasoner isUuid clock uuidv4_at publishMessage_at parseEnvelope
               env_TOPIC_ACTION data))
    by never_writes.
  assert (Hmsg : preserves (unchanged (fun w => messages (store w)))
            (reasoner isUuid clock uuidv4_at publishMessage_at parseEnvelope
               env_TOPIC_ACTION data))
    by never_writes.
  assert (Hkey : preserves (unchanged (fun w => idempotencyKeys (store w)))
            (reasoner isUuid clock uuidv4_at publishMessage_at parseEnvelope
               env_TOPIC_ACTION data))
    by never_writes.
  repeat split; [apply Hact | apply Hmsg | apply Hkey].
Qed.

(** X12. [POST /messages] never writes an intent, an action result or a
    receipt, whatever the request and however it is answered. *)
Theorem postMessages_footprint :
  forall clock uuidv4_at publishMessage_at env_TOPIC_REASONING req w,
    let w' :=
      snd (postMessages clock uuidv4_at publishMessage_at
             env_TOPIC_REASONING req w) in
    intents (store w') = intents (store w)
    /\ actions (store w') = actions (store w)
    /\ receipts (store w') = receipts (store w).
Proof.
  intros clock uuidv4_at publishMessage_at env_TOPIC_REASONING req w w'.
  subst w'.
  assert (Hint : preserves (unchanged (fun w => intents (store w)))
            (postMessages clock uuidv4_at publishMessage_at
               env_TOPIC_REASONING req))
    by never_writes.
  assert (Hact : preserves (unchanged (fun w => actions (store w)))
            (postMessages clock uuidv4_at publishMessage_at
               env_TOPIC_REASONING req))
    by never_writes.
  assert (Hrec : preserves (unchanged (fun w => receipts (store w)))
            (postMessages clock uuidv4_at publishMessage_at
               env_TOPIC_REASONING req))
    by never_writes.
  repeat split; [apply Hint | apply Hact | apply Hrec].
Qed.

(** ** Receipts and idempotency keys are never taken back *)

Lemma completedStay_refl w : completedStay w w.
Proof. intros eventId H. exact H. Qed.

Lemma completedStay_trans w1 w2 w3 :
  completedStay w1 w2 -> completedStay w2 w3 -> completedStay w1 w3.
Proof. intros H12 H23 eventId H. auto. Qed.

Lemma same_receipts_completedStay w w' :
  receipts (store w') = receipts (store w) -> completedStay w w'.
Proof. intros Heq eventId. unfold statusOf. rewrite Heq. auto. Qed.

Lemma statusOf_completed w eventId :
  statusOf w eventId = Some "completed" ->
  exists data,
    receipts (store w) !! eventId = Some data
    /\ statusIs data "completed" = true.
Proof.
  unfold statusOf. intros H.
  destruct (receipts (store w) !! eventId) as [data |]; [| discriminate].
  exists data. split; [reflexivity |]. cbn in H.
  rewrite (statusIs_eq _ _ H). reflexivity.
Qed.

Lemma claimReceipt_completed clock eventId meta w :
  validDocumentId eventId = true ->
  statusOf w eventId = Some "completed" ->
  claimReceipt clock eventId meta w = (Return false, w).
Proof.
  intros Hvalid H. apply statusOf_completed in H as (data & Hdata & Hdone).
  unfold claimReceipt. pass_doc Hvalid.
  unfold runTransaction, bind, getWorld.
  rewrite Hdata, Hdone. reflexivity.
Qed.

Lemma claimReceipt_completedStay clock eventId meta :
  preserves completedStay (claimReceipt clock eventId meta).
Proof.
  intros w other Hother.
  destruct (validDocumentId eventId) eqn:Hvalid;
    [| unfold claimReceipt; rewrite (bind_docRef_invalid _ _ _ Hvalid);
       exact Hother].
  destruct (decide (other = eventId)) as [-> |Hne].
  - rewrite (claimReceipt_completed _ _ _ _ Hvalid Hother). exact Hother.
  - revert Hother. unfold statusOf, claimReceipt. pass_doc Hvalid.
    unfold runTransaction, bind, getWorld, newDate, modifyStore, ret.
    repeat (cbn;
            match goal with
            | |- context [match ?x with _ => _ end] => destruct_inner x
            end);
      cbn; try rewrite lookup_insert_ne by congruence; auto.
Qed.

Lemma completeReceipt_completedStay clock eventId :
  preserves completedStay (completeReceipt clock eventId).
Proof.
  intros w other Hother.
  destruct (validDocumentId eventId) eqn:Hvalid;
    [| unfold completeReceipt; rewrite (bind_docRef_invalid _ _ _ Hvalid);
       exact Hother].
  rewrite (completeReceipt_run _ _ _ Hvalid).
  unfold statusOf. cbn. rewrite lookup_insert. case_decide.
  - cbn. apply mergeCompleted_status.
  - exact Hother.
Qed.

Ltac completed_stay :=
  open_handler;
  preserve_all completedStay_refl completedStay_trans
    ltac:(first [ apply claimReceipt_completedStay
                | apply completeReceipt_completedStay
                | prim_keeps same_receipts_completedStay ]).

Lemma reasoner_completedStay isUuid clock uuidv4_at publishMessage_at
      parseEnvelope env_TOPIC_ACTION data :
  preserves completedStay
    (reasoner isUuid clock uuidv4_at publishMessage_at parseEnvelope
       env_TOPIC_ACTION data).
Proof. completed_stay. Qed.

Lemma executor_completedStay numberToString clock uuidv4_at parseEnvelope
      data :
  preserves completedStay
    (executor numberToString clock uuidv4_at parseEnvelope data).
Proof. completed_stay. Qed.

(** X13. A receipt that is completed stays completed through any delivery
    to the reasoner or to the executor, whatever the delivery contains and
    however the handler ends. *)
Theorem completed_receipts_stay :
  forall isUuid numberToString clock uuidv4_at publishMessage_at
         parseEnvelope env_TOPIC_ACTION data w,
    completedStay w
      (snd (reasoner isUuid clock uuidv4_at publishMessage_at parseEnvelope
              env_TOPIC_ACTION data w))
    /\ completedStay w
         (snd (executor numberToString clock uuidv4_at parseEnvelope data w)).
Proof.
  intros isUuid numberToString clock uuidv4_at publishMessage_at
         parseEnvelope env_TOPIC_ACTION data w.
  split; [apply reasoner_completedStay | apply executor_completedStay].
Qed.

Lemma keysKept_refl w : keysKept w w.
Proof. intros key doc H. exact H. Qed.

Lemma keysKept_trans w1 w2 w3 :
  keysKept w1 w2 -> keysKept w2 w3 -> keysKept w1 w3.
Proof. intros H12 H23 key doc H. auto. Qed.

Lemma same_keys_keysKept w w' :
  idempotencyKeys (store w') = idempotencyKeys (store w) -> keysKept w w'.
Proof. intros Heq key doc. rewrite Heq. auto. Qed.

Lemma claimIdempotencyKey_keysKept clock key messageId :
  preserves keysKept (claimIdempotencyKey clock key messageId).
Proof.
  intros w other doc Hother. unfold claimIdempotencyKey.
  destruct (validDocumentId key) eqn:Hvalid;
    [pass_doc Hvalid
    | rewrite (bind_docRef_invalid _ _ _ Hvalid); exact Hother].
  unfold runTransaction, bind, getWorld, newDate, modifyStore, ret.
  destruct (idempotencyKeys (store w) !! key) eqn:Hkey; cbn; [exact Hother |].
  rewrite lookup_insert_ne; [exact Hother | congruence].
Qed.

(** X14. [POST /messages] never changes or removes the record of an
    idempotency key that is already claimed, whatever the request and
    however it is answered. *)
Theorem postMessages_keeps_claimed_keys :
  forall clock uuidv4_at publishMessage_at env_TOPIC_REASONING req w,
    keysKept w
      (snd (postMessages clock uuidv4_at publishMessage_at
              env_TOPIC_REASONING req w)).
Proof.
  intros clock uuidv4_at publishMessage_at env_TOPIC_REASONING req.
  change (preserves keysKept
            (postMessages clock uuidv4_at publishMessage_at
               env_TOPIC_REASONING req)).
  open_handler.
  preserve_all keysKept_refl keysKept_trans
    ltac:(first [ apply claimIdempotencyKey_keysKept
                | prim_keeps same_keys_keysKept ]).
Qed.

(** ** Running a handler forwards *)

(** A handler is run inside an equation [E : handler w = (r, w')], one
    operation at a time; after each operation the world reached is given a
    name and an equation, so that the terms stay small. *)
Lemma tryCatch_Throw {A} (c : M A) (h : error -> M A) w e w' :
  c w = (Throw e, w') -> tryCatch c h w = h e w'.
Proof. intros H. unfold tryCatch. rewrite H. reflexivity. Qed.

Ltac freeze E :=
  lazymatch type of E with
  | ?f ?wt = _ =>
      first [ is_var wt
            | let wn := fresh "w" in
              let Hw := fresh "Hw" in
              set (wn := wt) in E;
              assert (Hw : wn = wt) by reflexivity;
              clearbody wn ]
  end.

Ltac run_by E tac :=
  lazymatch type of E with
  | bind ?c ?k ?w0 = _ =>
      let H := fresh "Hstep" in
      eassert (H : c w0 = (Return _, _)) by tac;
      rewrite (bind_Return c k w0 _ _ H) in E; clear H; cbv beta in E;
      freeze E
  end.
Ltac run E := run_by E ltac:(reflexivity).

Ltac fail_by E tac :=
  lazymatch type of E with
  | bind ?c ?k ?w0 = _ =>
      let H := fresh "Hstep" in
      eassert (H : c w0 = (Throw _, _)) by tac;
      rewrite (bind_Throw c k w0 _ _ H) in E; clear H;
      freeze E
  end.

(** The handler's run ends: [E] gives the outcome and the final world. *)
Ltac finish E :=
  first [ injection E as <- <- | unfold ret, json, bind in E; freeze E;
          injection E as <- <- ].

(** The named worlds, written out again. *)
Ltac unfreeze :=
  repeat match goal with
         | Hw : ?x = _ |- context [?x] =>
             is_var x;
             lazymatch type of x with World => rewrite Hw end
         end.

(** A component of a named world, in terms of the worlds before it. *)
Ltac chase :=
  repeat (match goal with
          | Hw : ?x = _ |- context [?x] =>
              is_var x;
              lazymatch type of x with World => rewrite Hw end
          end;
          cbv beta; world_simpl).

(** ** Publishing *)

Lemma publishEvent_sent clock publishMessage_at topicName event w busId :
  publishMessage_at (publishAttempts w) = inr busId ->
  publishEvent clock publishMessage_at topicName event w
  = (Return busId,
     logLine {| le_severity := INFO; le_message := "Published event";
                le_timestamp := clock (clockReads w) |}
       (tick
          {| store := store w;
             published :=
               published w
               ++ [{| pm_topic := topicName; pm_data := event;
                      pm_attributes :=
                        [("eventId", ev_eventId event);
                         ("eventType", ev_eventType event);
                         ("conversationId", ev_conversationId event)] |}];
             logged := logged w; clockReads := clockReads w;
             uuidReads := uuidReads w;
             publishAttempts := S (publishAttempts w) |})).
Proof.
  intros Hbus. unfold publishEvent, bind. rewrite Hbus. reflexivity.
Qed.

Lemma publishEvent_failed clock publishMessage_at topicName event w e :
  publishMessage_at (publishAttempts w) = inl e ->
  publishEvent clock publishMessage_at topicName event w
  = (Throw e,
     {| store := store w; published := published w;
        logged := logged w; clockReads := clockReads w;
        uuidReads := uuidReads w;
        publishAttempts := S (publishAttempts w) |}).
Proof.
  intros Hbus. unfold publishEvent, bind. rewrite Hbus, app_nil_r.
  reflexivity.
Qed.

(** ** The reasoner, path by path *)

Lemma mockReasoning_flat uuidv4_at content conversationId messageId w raw
      w' :
  mockReasoning uuidv4_at content conversationId messageId w
  = (Return raw, w') ->
  flatFields (getField raw "parameters") = true.
Proof.
  unfold mockReasoning.
  repeat match goal with
         | |- context [if ?b then _ else _] => destruct b
         end;
    intros H; injection H as <- _; reflexivity.
Qed.

Lemma reasoner_requests_action_run :
  forall isUuid clock uuidv4_at publishMessage_at parseEnvelope
         env_TOPIC_ACTION data ev w conv content busId,
    decodeEventData parseEnvelope data = inr ev ->
    validDocumentId (ev_eventId ev) = true ->
    claimable (clock (S (clockReads w)))
              (receipts (store w) !! ev_eventId ev) ->
    orElse (getField (ev_payload ev) "content") (VStr EmptyString)
    = VStr content ->
    validDocumentId (ev_conversationId ev) = true ->
    conversations (store w) !! ev_conversationId ev = Some conv ->
    conv_state conv = REASONING_REQUESTED ->
    ev_messageId ev <> EmptyString ->
    isUuid (uuidv4_at (uuidReads w)) = true ->
    validDocumentId (uuidv4_at (uuidReads w)) = true ->
    publishMessage_at (publishAttempts w) = inr busId ->
    exists w' intentId action parameters confidence actionEventId timestamp
           doc,
      reasoner isUuid clock uuidv4_at publishMessage_at parseEnvelope
        env_TOPIC_ACTION data w = (Return tt, w')
      /\ stateOf w' (ev_conversationId ev) = Some ACTION_REQUESTED
      /\ statusOf w' (ev_eventId ev) = Some "completed"
      /\ published w'
         = (published w
            ++ [{| pm_topic := TOPIC_ACTION env_TOPIC_ACTION;
                   pm_data :=
                     {| ev_eventId := actionEventId;
                        ev_eventType := "action_requested";
                        ev_conversationId := ev_conversationId ev;
                        ev_messageId := ev_messageId ev;
                        ev_timestamp := timestamp;
                        ev_producer := "reasoner";
                        ev_payload :=
                          [("intentId", VStr intentId);
                           ("action", VStr action);
                           ("parameters", VObj parameters);
                           ("confidence", VNum (Finite confidence))] |};
                   pm_attributes :=
                     [("eventId", actionEventId);
                      ("eventType", "action_requested");
                      ("conversationId", ev_conversationId ev)] |}])%list
      /\ In action intentActions
      /\ intents (store w') !! (ev_conversationId ev, intentId) = Some doc
      /\ ri_valid doc = true
      /\ ri_validationError doc = None
      /\ ri_action doc = VStr action
      /\ actions (store w') = actions (store w)
      /\ (forall eventId,
             eventId <> ev_eventId ev ->
             receipts (store w') !! eventId = receipts (store w) !! eventId)
      /\ intentId = uuidv4_at (uuidReads w)
      /\ actionEventId = uuidv4_at (S (uuidReads w))
      /\ uuidReads w' = S (S (uuidReads w))
      /\ flatFields (VObj parameters) = true.
Proof.
  intros isUuid clock uuidv4_at publishMessage_at parseEnvelope
         env_TOPIC_ACTION data ev w conv content busId
         Hdecode Hevent Hclaim Hcontent Hconversation Hconv Hstate Hmid
         Huuid Hintent Hbus.
  pose proof (validDocumentId_nonempty _ Hconversation) as Hcid.
  destruct (claimReceipt_claimable clock (ev_eventId ev)
              {| meta_handler := "reasoner";
                 meta_conversationId := ev_conversationId ev;
                 meta_messageId := ev_messageId ev |}
              (snd (log_info clock "Received event" w)) Hevent)
    as (w2 & rdata & Hrun & Hframe & Hrec).
  { exact Hclaim. }
  destruct Hframe as (Hc & _ & _ & Hact' & _ & _ & Hp & _ & Hu & Ha).
  cbn in Hc, Hp, Hu, Ha, Hact'.
  destruct (mockReasoning_run uuidv4_at content (ev_conversationId ev)
              (ev_messageId ev) w2)
    as (action & parameters & confidence & Hmock & Haction & Hconf & _).
  pose proof (mockReasoning_flat _ _ _ _ _ _ _ Hmock) as Hflat.
  rewrite Hu in Hmock.
  destruct (mock_candidate_valid isUuid _ _ _ _ parameters _
              Huuid Hcid Hmid Haction Hconf) as (Hv & _).
  pose proof (proj1 (validateIntent_valid_iff _ _) Hv) as Herr.
  set (raw := [("intentId", VStr (uuidv4_at (uuidReads w)));
               ("conversationId", VStr (ev_conversationId ev));
               ("messageId", VStr (ev_messageId ev));
               ("action", VStr action);
               ("parameters", VObj parameters);
               ("confidence", VNum (Finite confidence))]) in *.
  assert (Hid : getField raw "intentId" = VStr (uuidv4_at (uuidReads w)))
    by reflexivity.
  assert (Hact : orElse (getField raw "action") (VStr "unknown")
                 = VStr action).
  { cbn in Haction.
    destruct Haction as [<- | [<- | [<- | [<- | []]]]]; reflexivity. }
  assert (Hpar : orElse (getField raw "parameters") (VObj [])
                 = VObj parameters) by reflexivity.
  assert (Hcon : orElse (getField raw "confidence") (VNum (Finite 0))
                 = VNum (Finite confidence)).
  { cbn in Hconf.
    destruct Hconf as [<- | [<- | [<- | [<- | [<- | []]]]]]; reflexivity. }
  destruct (reasoner isUuid clock uuidv4_at publishMessage_at parseEnvelope
              env_TOPIC_ACTION data w) as [r wfin] eqn:E.
  unfold reasoner in E. rewrite Hdecode in E. cbv zeta in E.
  rewrite Hcontent in E. unfold orElseM in E.
  run E. run_by E ltac:(unfreeze; exact Hrun). cbn [negb] in E.
  run_by E ltac:(exact Hmock). rewrite Hid, Hv, Herr, Hact, Hpar, Hcon in E.
  cbn [negb] in E.
  assert (Ht : truthy (VStr (uuidv4_at (uuidReads w))) = true)
    by (apply truthy_VStr, validDocumentId_nonempty, Hintent).
  rewrite Ht in E.
  run E. run E.
  run_by E ltac:(eapply saveIntent_run;
                 [reflexivity | exact Hconversation | exact Hintent]).
  run_by E ltac:(apply logEvent_run; [exact Hconversation | exact Hevent]).
  run_by E ltac:(eapply (transitionState_allowed _ _ conv);
                 [exact Hconversation
                 | chase; rewrite Hc; exact Hconv
                 | rewrite Hstate; reflexivity]).
  run E. run E.
  run_by E ltac:(apply (publishEvent_sent _ _ _ _ _ busId);
                 chase; rewrite Ha; exact Hbus).
  run_by E ltac:(eapply transitionState_allowed;
                 [exact Hconversation
                 | chase; apply lookup_insert_eq | reflexivity]).
  run_by E ltac:(apply completeReceipt_run; exact Hevent).
  run E. finish E.
  do 8 eexists. split; [reflexivity |].
  split.
  { unfold stateOf. chase. rewrite lookup_insert_eq. reflexivity. }
  split.
  { unfold statusOf. chase. rewrite lookup_insert_eq. cbn.
    apply mergeCompleted_status. }
  split.
  { chase. rewrite Hp. reflexivity. }
  split; [exact Haction |].
  split.
  { chase. apply lookup_insert_eq. }
  split; [reflexivity |]. split; [reflexivity |].
  split; [cbn; rewrite ?Hpar, ?Hcon; reflexivity |].
  split; [chase; exact Hact' |].
  split.
  { intros eventId Hother. chase.
    rewrite lookup_insert_ne by congruence.
    rewrite Hrec, lookup_insert_ne by congruence. reflexivity. }
  split; [reflexivity |].
  split; [chase; rewrite Hu; reflexivity |].
  split; [chase; rewrite Hu; reflexivity |].
  exact Hflat.
Qed.

(** X15. The reasoner on a delivery it may claim, for a conversation in
    [REASONING_REQUESTED], with string content, event and conversation ids
    that are document ids, a non-empty message id, a generated intent id
    that is a UUID and a document id, and a bus that accepts the publish:
    it acknowledges; it stores an intent marked valid
    with no validation error; it publishes exactly one event, of type
    [action_requested], on the action topic, carrying that intent's id and
    one of the four actions; the conversation ends in [ACTION_REQUESTED]
    and the receipt is completed. *)
Theorem reasoner_requests_action :
  forall isUuid clock uuidv4_at publishMessage_at parseEnvelope
         env_TOPIC_ACTION data ev w conv content busId,
    decodeEventData parseEnvelope data = inr ev ->
    validDocumentId (ev_eventId ev) = true ->
    claimable (clock (S (clockReads w)))
              (receipts (store w) !! ev_eventId ev) ->
    orElse (getField (ev_payload ev) "content") (VStr EmptyString)
    = VStr content ->
    validDocumentId (ev_conversationId ev) = true ->
    conversations (store w) !! ev_conversationId ev = Some conv ->
    conv_state conv = REASONING_REQUESTED ->
    ev_messageId ev <> EmptyString ->
    isUuid (uuidv4_at (uuidReads w)) = true ->
    validDocumentId (uuidv4_at (uuidReads w)) = true ->
    publishMessage_at (publishAttempts w) = inr busId ->
    exists w' intentId action parameters confidence actionEventId timestamp
           doc,
      reasoner isUuid clock uuidv4_at publishMessage_at parseEnvelope
        env_TOPIC_ACTION data w = (Return tt, w')
      /\ stateOf w' (ev_conversationId ev) = Some ACTION_REQUESTED
      /\ statusOf w' (ev_eventId ev) = Some "completed"
      /\ published w'
         = (published w
            ++ [{| pm_topic := TOPIC_ACTION env_TOPIC_ACTION;
                   pm_data :=
                     {| ev_eventId := actionEventId;
                        ev_eventType := "action_requested";
                        ev_conversationId := ev_conversationId ev;
                        ev_messageId := ev_messageId ev;
                        ev_timestamp := timestamp;
                        ev_producer := "reasoner";
                        ev_payload :=
                          [("intentId", VStr intentId);
                           ("action", VStr action);
                           ("parameters", VObj parameters);
                           ("confidence", VNum (Finite confidence))] |};
                   pm_attributes :=
                     [("eventId", actionEventId);
                      ("eventType", "action_requested");
                      ("conversationId", ev_conversationId ev)] |}])%list
      /\ In action intentActions
      /\ intents (store w') !! (ev_conversationId ev, intentId) = Some doc
      /\ ri_valid doc = true
      /\ ri_validationError doc = None
      /\ ri_action doc = VStr action.
Proof.
  intros isUuid clock uuidv4_at publishMessage_at parseEnvelope
         env_TOPIC_ACTION data ev w conv content busId
         Hdecode Hevent Hclaim Hcontent Hconversation Hconv Hstate Hmid
         Huuid Hintent Hbus.
  destruct (reasoner_requests_action_run isUuid clock uuidv4_at
              publishMessage_at parseEnvelope env_TOPIC_ACTION data ev w
              conv content busId Hdecode Hevent Hclaim Hcontent
              Hconversation Hconv Hstate Hmid Huuid Hintent Hbus)
    as (w' & intentId & action & parameters & confidence & actionEventId
        & timestamp & doc & Hrun & Hs & Hr & Hp & Ha & Hi & Hv & He & Hact
        & _).
  exists w', intentId, action, parameters, confidence, actionEventId,
    timestamp, doc.
  repeat split; assumption.
Qed.

Lemma validateIntent_issues isUuid o :
  objectIssues isUuid o <> [] ->
  valid (validateIntent isUuid (VObj o)) = false
  /\ exists reason, error_ (validateIntent isUuid (VObj o)) = Some reason.
Proof.
  intros Hissues. unfold validateIntent, safeParse.
  destruct (objectIssues isUuid o) as [| i rest]; [contradiction |].
  cbn. eauto.
Qed.

(** X16. The reasoner on a delivery it may claim, for a conversation in
    [REASONING_REQUESTED], with string content and with event,
    conversation and generated intent ids that are document ids, when the
    candidate intent cannot pass validation (the event's message id is
    empty, or the generated intent id is not a UUID): it acknowledges; the intent is
    stored all the same, marked invalid and with the validation error;
    nothing is published; the conversation ends in [FAILED_VALIDATION] and
    the receipt is completed. *)
Theorem reasoner_records_invalid_intent :
  forall isUuid clock uuidv4_at publishMessage_at parseEnvelope
         env_TOPIC_ACTION data ev w conv content,
    decodeEventData parseEnvelope data = inr ev ->
    validDocumentId (ev_eventId ev) = true ->
    claimable (clock (S (clockReads w)))
              (receipts (store w) !! ev_eventId ev) ->
    orElse (getField (ev_payload ev) "content") (VStr EmptyString)
    = VStr content ->
    validDocumentId (ev_conversationId ev) = true ->
    conversations (store w) !! ev_conversationId ev = Some conv ->
    conv_state conv = REASONING_REQUESTED ->
    validDocumentId (uuidv4_at (uuidReads w)) = true ->
    ev_messageId ev = EmptyString
    \/ isUuid (uuidv4_at (uuidReads w)) = false ->
    exists w' intentId doc reason,
      reasoner isUuid clock uuidv4_at publishMessage_at parseEnvelope
        env_TOPIC_ACTION data w = (Return tt, w')
      /\ stateOf w' (ev_conversationId ev) = Some FAILED_VALIDATION
      /\ statusOf w' (ev_eventId ev) = Some "completed"
      /\ published w' = published w
      /\ intents (store w') !! (ev_conversationId ev, intentId) = Some doc
      /\ ri_valid doc = false
      /\ ri_validationError doc = Some reason.
Proof.
  intros isUuid clock uuidv4_at publishMessage_at parseEnvelope
         env_TOPIC_ACTION data ev w conv content
         Hdecode Hevent Hclaim Hcontent Hconversation Hconv Hstate Hintent
         Hbad.
  destruct (claimReceipt_claimable clock (ev_eventId ev)
              {| meta_handler := "reasoner";
                 meta_conversationId := ev_conversationId ev;
                 meta_messageId := ev_messageId ev |}
              (snd (log_info clock "Received event" w)) Hevent)
    as (w2 & rdata & Hrun & Hframe & Hrec).
  { exact Hclaim. }
  destruct Hframe as (Hc & _ & _ & _ & _ & _ & Hp & _ & Hu & Ha).
  cbn in Hc, Hp, Hu, Ha.
  destruct (mockReasoning_run uuidv4_at content (ev_conversationId ev)
              (ev_messageId ev) w2)
    as (action & parameters & confidence & Hmock & _).
  rewrite Hu in Hmock.
  set (raw := [("intentId", VStr (uuidv4_at (uuidReads w)));
               ("conversationId", VStr (ev_conversationId ev));
               ("messageId", VStr (ev_messageId ev));
               ("action", VStr action);
               ("parameters", VObj parameters);
               ("confidence", VNum (Finite confidence))]) in *.
  destruct (validateIntent_issues isUuid raw) as (Hv & reason & Herr).
  { rewrite objectIssues_nil, checkUuidString_nil, !checkNonEmptyString_nil.
    intros ((i & Hi & Hu') & _ & (m & Hm & Hmn) & _).
    injection Hi as <-. injection Hm as <-.
    destruct Hbad as [Hempty | Hnot]; congruence. }
  assert (Hid : getField raw "intentId" = VStr (uuidv4_at (uuidReads w)))
    by reflexivity.
  destruct (reasoner isUuid clock uuidv4_at publishMessage_at parseEnvelope
              env_TOPIC_ACTION data w) as [r wfin] eqn:E.
  unfold reasoner in E. rewrite Hdecode in E. cbv zeta in E.
  rewrite Hcontent in E. unfold orElseM in E.
  run E. run_by E ltac:(unfreeze; exact Hrun). cbn [negb] in E.
  run_by E ltac:(exact Hmock). rewrite Hid, Hv, Herr in E.
  cbn [negb] in E.
  assert (Ht : truthy (VStr (uuidv4_at (uuidReads w))) = true)
    by (apply truthy_VStr, validDocumentId_nonempty, Hintent).
  rewrite Ht in E.
  run E. run E.
  run_by E ltac:(eapply saveIntent_run;
                 [reflexivity | exact Hconversation | exact Hintent]).
  run_by E ltac:(apply logEvent_run; [exact Hconversation | exact Hevent]).
  run E.
  run_by E ltac:(eapply (transitionState_allowed _ _ conv);
                 [exact Hconversation
                 | chase; rewrite Hc; exact Hconv
                 | rewrite Hstate; reflexivity]).
  run_by E ltac:(apply completeReceipt_run; exact Hevent).
  finish E.
  do 4 eexists. split; [reflexivity |].
  split; [unfold stateOf; chase; rewrite lookup_insert_eq; reflexivity |].
  split; [unfold statusOf; chase; rewrite lookup_insert_eq; cbn;
          apply mergeCompleted_status |].
  split; [chase; exact Hp |].
  split; [chase; apply lookup_insert_eq |].
  cbn. auto.
Qed.

(** ** Deliveries that are not processed *)

Lemma claimReceipt_refused clock eventId meta w rdata :
  validDocumentId eventId = true ->
  receipts (store w) !! eventId = Some rdata ->
  ~ claimable (clock (clockReads w)) (Some rdata) ->
  exists w',
    claimReceipt clock eventId meta w = (Return false, w')
    /\ store w' = store w
    /\ published w' = published w.
Proof.
  intros Hvalid Hdata Hno.
  unfold claimReceipt. pass_doc Hvalid.
  unfold runTransaction, bind, getWorld. rewrite Hdata.
  destruct (statusIs rdata "completed");
    [eexists; split; [reflexivity | split; reflexivity] |].
  destruct (statusIs rdata "processing") eqn:Hproc;
    [| eexists; split; [reflexivity | split; reflexivity]].
  destruct (rc_claimedAt rdata) as [claimedAt |] eqn:Hat;
    [| eexists; split; [reflexivity | split; reflexivity]].
  cbn.
  destruct (clock (clockReads w) - claimedAt <? RECEIPT_STALE_THRESHOLD_MS)
    eqn:Hage; cbn;
    [eexists; split; [reflexivity | split; reflexivity] |].
  exfalso. apply Hno. cbn. split.
  - unfold statusIs in Hproc. destruct (rc_status rdata) as [s |];
      [| discriminate].
    apply String.eqb_eq in Hproc. congruence.
  - exists claimedAt. split; [exact Hat |]. apply Z.ltb_ge. exact Hage.
Qed.

(** X17. A delivery whose event id is a document id and whose receipt
    exists and cannot be claimed (it is completed, or it is being processed
    and is younger than the stale threshold) is acknowledged by the
    reasoner and by the executor without any document changing and without
    anything being published. *)
Theorem consumers_skip_unclaimable_delivery :
  forall isUuid numberToString clock uuidv4_at publishMessage_at
         parseEnvelope env_TOPIC_ACTION data ev w rdata,
    decodeEventData parseEnvelope data = inr ev ->
    validDocumentId (ev_eventId ev) = true ->
    receipts (store w) !! ev_eventId ev = Some rdata ->
    ~ claimable (clock (S (clockReads w))) (Some rdata) ->
    (exists w',
        reasoner isUuid clock uuidv4_at publishMessage_at parseEnvelope
          env_TOPIC_ACTION data w = (Return tt, w')
        /\ store w' = store w /\ published w' = published w)
    /\ (exists w',
           executor numberToString clock uuidv4_at parseEnvelope data w
           = (Return tt, w')
           /\ store w' = store w /\ published w' = published w).
Proof.
  intros isUuid numberToString clock uuidv4_at publishMessage_at
         parseEnvelope env_TOPIC_ACTION data ev w rdata Hdecode Hevent Hdata
         Hno.
  assert (Hrefused : forall handler,
             exists w2,
               claimReceipt clock (ev_eventId ev)
                 {| meta_handler := handler;
                    meta_conversationId := ev_conversationId ev;
                    meta_messageId := ev_messageId ev |}
                 (snd (log_info clock "Received event" w))
               = (Return false, w2)
               /\ store w2 = store w /\ published w2 = published w).
  { intros handler.
    destruct (claimReceipt_refused clock (ev_eventId ev)
                {| meta_handler := handler;
                   meta_conversationId := ev_conversationId ev;
                   meta_messageId := ev_messageId ev |}
                (snd (log_info clock "Received event" w)) rdata Hevent Hdata
                Hno)
      as (w2 & Hrun & Hs & Hp).
    exists w2. auto. }
  split.
  - destruct (Hrefused "reasoner") as (w2 & Hrun & Hs & Hp).
    eexists. split.
    + unfold reasoner. rewrite Hdecode. cbv zeta.
      step. step_by ltac:(exact Hrun). cbn [negb]. step. reflexivity.
    + world_simpl. auto.
  - destruct (Hrefused "executor") as (w2 & Hrun & Hs & Hp).
    eexists. split.
    + unfold executor. rewrite Hdecode. cbv zeta.
      step. step_by ltac:(exact Hrun). cbn [negb]. step. reflexivity.
    + world_simpl. auto.
Qed.

(** X18. A delivery without message data (no event data, no message, no
    data field, or an empty one) does not decode, whatever the parser; and
    a delivery that does not decode is acknowledged by the reasoner and by
    the executor with one line logged at [ERROR], no document changed and
    nothing published: it is never redelivered. *)
Theorem consumers_drop_undecodable_delivery :
  forall isUuid numberToString clock uuidv4_at publishMessage_at
         parseEnvelope env_TOPIC_ACTION,
    (forall data,
        data = None
        \/ data = Some {| mpd_message := None |}
        \/ data = Some {| mpd_message := Some {| pmsg_data := None |} |}
        \/ data = Some {| mpd_message :=
                            Some {| pmsg_data := Some EmptyString |} |} ->
        decodeEventData parseEnvelope data
        = inl (Error "Missing Pub/Sub message data in CloudEvent"))
    /\ (forall data err w,
           decodeEventData parseEnvelope data = inl err ->
           let line :=
             {| le_severity := ERROR;
                le_message := "Failed to decode message";
                le_timestamp := clock (clockReads w) |} in
           reasoner isUuid clock uuidv4_at publishMessage_at parseEnvelope
             env_TOPIC_ACTION data w
           = (Return tt, logLine line (tick w))
           /\ executor numberToString clock uuidv4_at parseEnvelope data w
              = (Return tt, logLine line (tick w))).
Proof.
  intros isUuid numberToString clock uuidv4_at publishMessage_at
         parseEnvelope env_TOPIC_ACTION.
  split.
  - intros data [-> | [-> | [-> | ->]]]; reflexivity.
  - intros data err w Hdecode line.
    unfold reasoner, executor. rewrite Hdecode. split; reflexivity.
Qed.

Lemma matchesIntent_undefined conversationId entries :
  existsb (matchesIntent conversationId VUndefined) entries = false.
Proof.
  induction entries as [| entry entries IH]; [reflexivity |].
  cbn [existsb]. rewrite IH, orb_false_r. unfold matchesIntent.
  destruct (valueEqb (ar_intentId (snd entry)) VUndefined);
    [rewrite andb_false_r | rewrite andb_false_r]; reflexivity.
Qed.

Lemma executor_skip_run numberToString clock uuidv4_at parseEnvelope data
      ev w :
  decodeEventData parseEnvelope data = inr ev ->
  validDocumentId (ev_eventId ev) = true ->
  claimable (clock (S (clockReads w)))
            (receipts (store w) !! ev_eventId ev) ->
  validDocumentId (ev_conversationId ev) = true ->
  existsb (matchesIntent (ev_conversationId ev)
                         (getField (ev_payload ev) "intentId"))
          (map_to_list (actions (store w))) = true ->
  exists w',
    executor numberToString clock uuidv4_at parseEnvelope data w
    = (Return tt, w')
    /\ actions (store w') = actions (store w)
    /\ conversations (store w') = conversations (store w)
    /\ uuidReads w' = uuidReads w
    /\ statusOf w' (ev_eventId ev) = Some "completed".
Proof.
  intros Hdecode Hevent Hclaim Hconversation Hdone.
  assert (Hintent : getField (ev_payload ev) "intentId" <> VUndefined).
  { intros Hundefined. rewrite Hundefined, matchesIntent_undefined in Hdone.
    discriminate Hdone. }
  destruct (claimReceipt_claimable clock (ev_eventId ev)
              {| meta_handler := "executor";
                 meta_conversationId := ev_conversationId ev;
                 meta_messageId := ev_messageId ev |}
              (snd (log_info clock "Received event" w)) Hevent)
    as (w2 & rdata & Hrun & Hframe & Hrec).
  { exact Hclaim. }
  destruct Hframe as (Hc & _ & _ & Ha & _ & _ & _ & _ & Hu & _).
  cbn in Hc, Ha, Hu.
  eexists. split.
  { unfold executor. rewrite Hdecode. cbv zeta.
    step. step_by ltac:(exact Hrun). cbn [negb].
    step_by ltac:(apply findActionResultByIntentId_run;
                  [exact Hconversation | exact Hintent]).
    rewrite Ha, Hdone.
    step. step_by ltac:(apply completeReceipt_run; exact Hevent).
    reflexivity. }
  world_simpl. split; [exact Ha |]. split; [exact Hc |].
  split; [exact Hu |].
  unfold statusOf. world_simpl. rewrite lookup_insert_eq. cbn.
  apply mergeCompleted_status.
Qed.

(** X19. The executor on a delivery it may claim, with event and
    conversation ids that are document ids and an intent id that is a
    string or another scalar, whose intent already has an action result in
    the conversation: it runs no tool, adds no action
    result, draws no id, leaves the conversations as they are, completes
    the receipt and acknowledges. *)
Theorem executor_skips_executed_intent :
  forall numberToString clock uuidv4_at parseEnvelope data ev w,
    decodeEventData parseEnvelope data = inr ev ->
    validDocumentId (ev_eventId ev) = true ->
    claimable (clock (S (clockReads w)))
              (receipts (store w) !! ev_eventId ev) ->
    validDocumentId (ev_conversationId ev) = true ->
    isScalar (getField (ev_payload ev) "intentId") = true ->
    existsb (matchesIntent (ev_conversationId ev)
                           (getField (ev_payload ev) "intentId"))
            (map_to_list (actions (store w))) = true ->
    exists w',
      executor numberToString clock uuidv4_at parseEnvelope data w
      = (Return tt, w')
      /\ actions (store w') = actions (store w)
      /\ conversations (store w') = conversations (store w)
      /\ uuidReads w' = uuidReads w
      /\ statusOf w' (ev_eventId ev) = Some "completed".
Proof.
  intros numberToString clock uuidv4_at parseEnvelope data ev w
         Hdecode Hevent Hclaim Hconversation _.
  apply executor_skip_run; assumption.
Qed.

(** ** [POST /messages], path by path *)

Lemma claimIdempotencyKey_new clock key messageId w :
  validDocumentId key = true ->
  idempotencyKeys (store w) !! key = None ->
  claimIdempotencyKey clock key messageId w
  = (Return IsNew,
     withStore
       (setIdempotencyKeys
          (<[key := {| ik_messageId := messageId;
                       ik_createdAt := clock (clockReads w) |}]>
             (idempotencyKeys (store w))) (store w)) (tick w)).
Proof.
  intros Hvalid Hfree.
  unfold claimIdempotencyKey. pass_doc Hvalid.
  unfold runTransaction, bind, getWorld.
  rewrite Hfree. reflexivity.
Qed.

Lemma claimIdempotencyKey_claimed clock key messageId w doc :
  validDocumentId key = true ->
  idempotencyKeys (store w) !! key = Some doc ->
  claimIdempotencyKey clock key messageId w
  = (Return (Existing (ik_messageId doc)), w).
Proof.
  intros Hvalid Hdoc.
  unfold claimIdempotencyKey. pass_doc Hvalid.
  unfold runTransaction, bind, getWorld.
  rewrite Hdoc. destruct w; reflexivity.
Qed.

(** The body of a handler that catches errors, run inside [E]; [E0] keeps
    the equation on the body for the handler itself. *)
Ltac enter_body E E0 :=
  lazymatch goal with
  | |- context [tryCatch ?c ?h ?w] =>
      let rb := fresh "rb" in
      let wb := fresh "wb" in
      destruct (c w) as [rb wb] eqn:E; pose proof E as E0
  end.

(** The writes of the handler between the claim of the key and the
    publish, for ids that are document ids. *)
Ltac run_message_writes E Hconversation Huuid :=
  run E;
  run_by E ltac:(apply saveMessage_run;
                 [exact Hconversation | apply Huuid]);
  run E; run E; run E;
  run_by E ltac:(apply logEvent_run; [exact Hconversation | apply Huuid]).

Ltac run_create E Huuid :=
  run_by E ltac:(step;
                 step_by ltac:(apply createConversation_run; apply Huuid);
                 reflexivity).

Lemma postMessages_accepts_run :
  forall clock uuidv4_at publishMessage_at env_TOPIC_REASONING req w
         content busId,
    getField (req_body req) "content" = VStr content ->
    content <> EmptyString ->
    truthy (getField (req_body req) "conversationId") = false ->
    (forall n, validDocumentId (uuidv4_at n) = true) ->
    (forall key,
        presentKey (req_idempotencyKey req) = Some key ->
        validDocumentId key = true
        /\ idempotencyKeys (store w) !! key = None) ->
    publishMessage_at (publishAttempts w) = inr busId ->
    let conversationId := uuidv4_at (uuidReads w) in
    let messageId := uuidv4_at (S (uuidReads w)) in
    let eventId := uuidv4_at (S (S (uuidReads w))) in
    exists w' createdAt timestamp,
      postMessages clock uuidv4_at publishMessage_at env_TOPIC_REASONING
        req w
      = (Return {| res_status := 201;
                   res_body :=
                     [("messageId", VStr messageId);
                      ("conversationId", VStr conversationId);
                      ("eventId", VStr eventId);
                      ("state", VStr "REASONING_REQUESTED")] |}, w')
      /\ stateOf w' conversationId = Some REASONING_REQUESTED
      /\ messages (store w') !! (conversationId, messageId)
         = Some {| msg_messageId := messageId;
                   msg_conversationId := conversationId;
                   msg_content := content;
                   msg_createdAt := createdAt;
                   msg_idempotencyKey := req_idempotencyKey req |}
      /\ (forall key,
             presentKey (req_idempotencyKey req) = Some key ->
             exists claimedAt,
               idempotencyKeys (store w') !! key
               = Some {| ik_messageId := messageId;
                         ik_createdAt := claimedAt |})
      /\ published w'
         = (published w
            ++ [{| pm_topic := TOPIC_REASONING env_TOPIC_REASONING;
                   pm_data :=
                     {| ev_eventId := eventId;
                        ev_eventType := "reasoning_requested";
                        ev_conversationId := conversationId;
                        ev_messageId := messageId;
                        ev_timestamp := timestamp;
                        ev_producer := "api";
                        ev_payload := [("content", VStr content)] |};
                   pm_attributes :=
                     [("eventId", eventId);
                      ("eventType", "reasoning_requested");
                      ("conversationId", conversationId)] |}])%list
      /\ receipts (store w') = receipts (store w)
      /\ actions (store w') = actions (store w)
      /\ uuidReads w' = S (S (S (uuidReads w)))
      /\ publishAttempts w' = S (publishAttempts w).
Proof.
  intros clock uuidv4_at publishMessage_at env_TOPIC_REASONING req w
         content busId Hcontent Hne Hnoconv Huuid Hfree Hbus
         conversationId messageId eventId.
  subst conversationId messageId eventId.
  apply truthy_VStr in Hne.
  unfold postMessages. rewrite Hcontent, Hne, Hnoconv. cbn [negb].
  unfold orElseM. rewrite Hnoconv.
  enter_body E E0.
  run E. run E.
  destruct (presentKey (req_idempotencyKey req)) as [key |] eqn:Hkey.
  - destruct (Hfree key eq_refl) as [Hkeyid Hunclaimed].
    run_by E ltac:(apply claimIdempotencyKey_new;
                   [exact Hkeyid | chase; exact Hunclaimed]).
    cbv iota in E.
    run_create E Huuid. run E.
    run_message_writes E (Huuid (uuidReads w)) Huuid.
    run_by E ltac:(apply (publishEvent_sent _ _ _ _ _ busId);
                   chase; exact Hbus).
    run_by E ltac:(eapply transitionState_allowed;
                   [apply Huuid
                   | chase; apply lookup_insert_eq | reflexivity]).
    finish E.
    rewrite (tryCatch_Return _ _ _ _ _ E0).
    do 3 eexists.
    split; [apply pair_equal_spec; split; [chase |]; reflexivity |].
    split.
    { unfold stateOf. chase. rewrite lookup_insert_eq. reflexivity. }
    split.
    { chase. apply lookup_insert_eq. }
    split.
    { intros key' Hkey'. injection Hkey' as <-. eexists. chase.
      apply lookup_insert_eq. }
    repeat split; chase; reflexivity.
  - run E. cbv iota in E.
    run_create E Huuid. run E.
    run_message_writes E (Huuid (uuidReads w)) Huuid.
    run_by E ltac:(apply (publishEvent_sent _ _ _ _ _ busId);
                   chase; exact Hbus).
    run_by E ltac:(eapply transitionState_allowed;
                   [apply Huuid
                   | chase; apply lookup_insert_eq | reflexivity]).
    finish E.
    rewrite (tryCatch_Return _ _ _ _ _ E0).
    do 3 eexists.
    split; [apply pair_equal_spec; split; [chase |]; reflexivity |].
    split.
    { unfold stateOf. chase. rewrite lookup_insert_eq. reflexivity. }
    split.
    { chase. apply lookup_insert_eq. }
    split.
    { intros key' Hkey'. discriminate Hkey'. }
    repeat split; chase; reflexivity.
Qed.

(** X20. [POST /messages] with a non-empty string content, no conversation
    id, an idempotency key that is absent or an unclaimed document id,
    generated ids that are document ids, and a bus that accepts the
    publish, is answered 201 with the three generated ids and
    the state [REASONING_REQUESTED]: a conversation is created and ends in
    that state, the message is saved under it, the key (if any) is claimed
    for this message, and exactly one event, of type [reasoning_requested]
    and carrying the content, is published on the reasoning topic. *)
Theorem postMessages_accepts :
  forall clock uuidv4_at publishMessage_at env_TOPIC_REASONING req w
         content busId,
    getField (req_body req) "content" = VStr content ->
    content <> EmptyString ->
    truthy (getField (req_body req) "conversationId") = false ->
    (forall n, validDocumentId (uuidv4_at n) = true) ->
    (forall key,
        presentKey (req_idempotencyKey req) = Some key ->
        validDocumentId key = true
        /\ idempotencyKeys (store w) !! key = None) ->
    publishMessage_at (publishAttempts w) = inr busId ->
    let conversationId := uuidv4_at (uuidReads w) in
    let messageId := uuidv4_at (S (uuidReads w)) in
    let eventId := uuidv4_at (S (S (uuidReads w))) in
    exists w' createdAt timestamp,
      postMessages clock uuidv4_at publishMessage_at env_TOPIC_REASONING
        req w
      = (Return {| res_status := 201;
                   res_body :=
                     [("messageId", VStr messageId);
                      ("conversationId", VStr conversationId);
                      ("eventId", VStr eventId);
                      ("state", VStr "REASONING_REQUESTED")] |}, w')
      /\ stateOf w' conversationId = Some REASONING_REQUESTED
      /\ messages (store w') !! (conversationId, messageId)
         = Some {| msg_messageId := messageId;
                   msg_conversationId := conversationId;
                   msg_content := content;
                   msg_createdAt := createdAt;
                   msg_idempotencyKey := req_idempotencyKey req |}
      /\ (forall key,
             presentKey (req_idempotencyKey req) = Some key ->
             exists claimedAt,
               idempotencyKeys (store w') !! key
               = Some {| ik_messageId := messageId;
                         ik_createdAt := claimedAt |})
      /\ published w'
         = (published w
            ++ [{| pm_topic := TOPIC_REASONING env_TOPIC_REASONING;
                   pm_data :=
                     {| ev_eventId := eventId;
                        ev_eventType := "reasoning_requested";
                        ev_conversationId := conversationId;
                        ev_messageId := messageId;
                        ev_timestamp := timestamp;
                        ev_producer := "api";
                        ev_payload := [("content", VStr content)] |};
                   pm_attributes :=
                     [("eventId", eventId);
                      ("eventType", "reasoning_requested");
                      ("conversationId", conversationId)] |}])%list.
Proof.
  intros clock uuidv4_at publishMessage_at env_TOPIC_REASONING req w
         content busId Hcontent Hne Hnoconv Huuid Hfree Hbus.
  destruct (postMessages_accepts_run clock uuidv4_at publishMessage_at
              env_TOPIC_REASONING req w content busId Hcontent Hne Hnoconv
              Huuid Hfree Hbus)
    as (w' & createdAt & timestamp & Hrun & Hs & Hm & Hk & Hp & _).
  exists w', createdAt, timestamp. repeat split; assumption.
Qed.

(** The world a handler ends in, given a name. *)
Ltac name_end wend :=
  lazymatch goal with
  | |- context [logLine ?l (tick ?x)] =>
      let Hw := fresh "Hw" in
      set (wend := logLine l (tick x)) in *;
      assert (Hw : wend = logLine l (tick x)) by reflexivity;
      clearbody wend
  end.

(** X21. [POST /messages] with a fresh idempotency key that is a document
    id, and generated ids that are document ids, when the bus rejects the
    publish: the answer is 500 with the bus error, nothing
    is published, yet the conversation (left in [RECEIVED]), the message
    and the claim on the key are already written.  A retry of the same
    request is therefore answered 200 as a duplicate of that message,
    whatever the bus does then, and still nothing is published: the
    message never reaches the reasoner. *)
Theorem postMessages_publish_failure_then_retry :
  forall clock uuidv4_at publishMessage_at env_TOPIC_REASONING req w
         content key e,
    getField (req_body req) "content" = VStr content ->
    content <> EmptyString ->
    truthy (getField (req_body req) "conversationId") = false ->
    (forall n, validDocumentId (uuidv4_at n) = true) ->
    req_idempotencyKey req = Some key ->
    validDocumentId key = true ->
    idempotencyKeys (store w) !! key = None ->
    publishMessage_at (publishAttempts w) = inl e ->
    let conversationId := uuidv4_at (uuidReads w) in
    let messageId := uuidv4_at (S (uuidReads w)) in
    exists w' createdAt,
      postMessages clock uuidv4_at publishMessage_at env_TOPIC_REASONING
        req w
      = (Return {| res_status := 500;
                   res_body := [("error", VStr (errorMessage e))] |}, w')
      /\ published w' = published w
      /\ stateOf w' conversationId = Some RECEIVED
      /\ messages (store w') !! (conversationId, messageId)
         = Some {| msg_messageId := messageId;
                   msg_conversationId := conversationId;
                   msg_content := content;
                   msg_createdAt := createdAt;
                   msg_idempotencyKey := Some key |}
      /\ (forall clock' uuidv4_at' publishMessage_at' env_TOPIC_REASONING',
             exists w'',
               postMessages clock' uuidv4_at' publishMessage_at'
                 env_TOPIC_REASONING' req w'
               = (Return (duplicateResponse messageId), w'')
               /\ store w'' = store w'
               /\ published w'' = published w).
Proof.
  intros clock uuidv4_at publishMessage_at env_TOPIC_REASONING req w
         content key e Hcontent Hne Hnoconv Huuid Hkey Hkeyid Hfree Hbus
         conversationId messageId.
  subst conversationId messageId.
  pose proof (validDocumentId_nonempty _ Hkeyid) as Hkne.
  apply truthy_VStr in Hne.
  assert (Hk : String.eqb key EmptyString = false)
    by (apply String.eqb_neq; assumption).
  assert (Hpresent : presentKey (req_idempotencyKey req) = Some key)
    by (unfold presentKey; rewrite Hkey, Hk; reflexivity).
  unfold postMessages at 1. rewrite Hcontent, Hne, Hnoconv. cbn [negb].
  unfold orElseM. rewrite Hnoconv, Hpresent.
  enter_body E E0.
  run E. run E.
  run_by E ltac:(apply claimIdempotencyKey_new;
                 [exact Hkeyid | chase; exact Hfree]).
  cbv iota in E.
  run_create E Huuid. run E.
  run_message_writes E (Huuid (uuidReads w)) Huuid.
  fail_by E ltac:(apply (publishEvent_failed _ _ _ _ _ e);
                  chase; exact Hbus).
  finish E.
  rewrite (tryCatch_Throw _ _ _ _ _ E0).
  do 2 eexists. split; [reflexivity |].
  name_end wend.
  assert (Hpub : published wend = published w) by (chase; reflexivity).
  split; [exact Hpub |].
  split.
  { unfold stateOf. chase. rewrite lookup_insert_eq. reflexivity. }
  split.
  { chase. rewrite Hkey. apply lookup_insert_eq. }
  intros clock' uuidv4_at' publishMessage_at' env_TOPIC_REASONING'.
  eassert (Hdoc : idempotencyKeys (store wend) !! key = Some _)
    by (chase; apply lookup_insert_eq).
  eexists. split.
  { unfold postMessages. rewrite Hcontent, Hne, Hnoconv. cbn [negb].
    unfold orElseM. rewrite Hnoconv, Hpresent.
    apply tryCatch_Return.
    step. step.
    step_by ltac:(eapply claimIdempotencyKey_claimed;
                  [exact Hkeyid | world_simpl; exact Hdoc]).
    step. reflexivity. }
  split; [reflexivity | exact Hpub].
Qed.

(** X22. [POST /messages] that names a conversation by a document id (with
    valid content, a key that is absent or an unclaimed document id,
    generated ids that are document ids, and a bus that accepts the
    publish) saves the message and publishes the
    [reasoning_requested] event before it looks at the conversation: when
    the conversation is in [RECEIVED] the answer is 201 and it moves to
    [REASONING_REQUESTED]; when it is in any other state, or does not
    exist, the answer is 500 and no conversation changes, although the
    message is saved and the event is out. *)
Theorem postMessages_named_conversation :
  forall clock uuidv4_at publishMessage_at env_TOPIC_REASONING req w
         content conversationId busId,
    getField (req_body req) "content" = VStr content ->
    content <> EmptyString ->
    getField (req_body req) "conversationId" = VStr conversationId ->
    validDocumentId conversationId = true ->
    (forall n, validDocumentId (uuidv4_at n) = true) ->
    (forall key,
        presentKey (req_idempotencyKey req) = Some key ->
        validDocumentId key = true
        /\ idempotencyKeys (store w) !! key = None) ->
    publishMessage_at (publishAttempts w) = inr busId ->
    let messageId := uuidv4_at (uuidReads w) in
    let eventId := uuidv4_at (S (uuidReads w)) in
    exists w' response createdAt timestamp,
      postMessages clock uuidv4_at publishMessage_at env_TOPIC_REASONING
        req w
      = (Return response, w')
      /\ messages (store w') !! (conversationId, messageId)
         = Some {| msg_messageId := messageId;
                   msg_conversationId := conversationId;
                   msg_content := content;
                   msg_createdAt := createdAt;
                   msg_idempotencyKey := req_idempotencyKey req |}
      /\ published w'
         = (published w
            ++ [{| pm_topic := TOPIC_REASONING env_TOPIC_REASONING;
                   pm_data :=
                     {| ev_eventId := eventId;
                        ev_eventType := "reasoning_requested";
                        ev_conversationId := conversationId;
                        ev_messageId := messageId;
                        ev_timestamp := timestamp;
                        ev_producer := "api";
                        ev_payload := [("content", VStr content)] |};
                   pm_attributes :=
                     [("eventId", eventId);
                      ("eventType", "reasoning_requested");
                      ("conversationId", conversationId)] |}])%list
      /\ (stateOf w conversationId = Some RECEIVED ->
          response
          = {| res_status := 201;
               res_body :=
                 [("messageId", VStr messageId);
                  ("conversationId", VStr conversationId);
                  ("eventId", VStr eventId);
                  ("state", VStr "REASONING_REQUESTED")] |}
          /\ stateOf w' conversationId = Some REASONING_REQUESTED)
      /\ (stateOf w conversationId <> Some RECEIVED ->
          res_status response = 500
          /\ conversations (store w') = conversations (store w)).
Proof.
  intros clock uuidv4_at publishMessage_at env_TOPIC_REASONING req w
         content conversationId busId Hcontent Hne Hconv Hconversation Huuid
         Hfree Hbus messageId eventId.
  subst messageId eventId.
  pose proof (validDocumentId_nonempty _ Hconversation) as Hcne.
  apply truthy_VStr in Hne. apply truthy_VStr in Hcne.
  unfold postMessages. rewrite Hcontent, Hne, Hconv, Hcne. cbn [negb].
  unfold orElseM. rewrite Hcne.
  enter_body E E0.
  run E. run E.
  assert (Hclaimed :
            exists w3,
              (match presentKey (req_idempotencyKey req) with
               | Some key =>
                   claimIdempotencyKey clock key
                     (uuidv4_at (uuidReads w))
               | None => ret IsNew
               end) w0 = (Return IsNew, w3)
              /\ conversations (store w3) = conversations (store w)
              /\ messages (store w3) = messages (store w)
              /\ published w3 = published w
              /\ uuidReads w3 = S (uuidReads w)
              /\ publishAttempts w3 = publishAttempts w).
  { destruct (presentKey (req_idempotencyKey req)) as [key |] eqn:Hkey.
    - destruct (Hfree key eq_refl) as [Hkeyid Hunclaimed]. eexists. split.
      + apply claimIdempotencyKey_new; [exact Hkeyid |].
        chase. exact Hunclaimed.
      + chase. repeat split; reflexivity.
    - eexists. split; [reflexivity |]. chase. repeat split; reflexivity. }
  destruct Hclaimed as (w3 & Hrun & Hc3 & Hm3 & Hp3 & Hu3 & Ha3).
  run_by E ltac:(exact Hrun). cbv iota in E.
  run E. run E.
  run_message_writes E Hconversation Huuid.
  run_by E ltac:(apply (publishEvent_sent _ _ _ _ _ busId);
                 chase; rewrite Ha3; exact Hbus).
  destruct (conversations (store w) !! conversationId) as [conv |] eqn:Hc;
    [destruct (validateTransition (conv_state conv) REASONING_REQUESTED)
       eqn:Hok |].
  - run_by E ltac:(eapply (transitionState_allowed _ _ conv);
                   [exact Hconversation
                   | chase; rewrite Hc3; exact Hc | exact Hok]).
    finish E. rewrite (tryCatch_Return _ _ _ _ _ E0).
    do 4 eexists. split; [reflexivity |].
    split; [chase; rewrite Hu3; apply lookup_insert_eq |].
    split; [chase; rewrite Hp3, Hu3; reflexivity |].
    split.
    + intros _. split; [chase; rewrite Hu3; reflexivity |].
      unfold stateOf. chase. rewrite lookup_insert_eq. reflexivity.
    + unfold stateOf. rewrite Hc. cbn. intros Hnot. exfalso. apply Hnot.
      f_equal. destruct (conv_state conv); try discriminate Hok.
      reflexivity.
  - fail_by E ltac:(eapply (transitionState_rejected _ _ conv);
                    [exact Hconversation
                    | chase; rewrite Hc3; exact Hc | exact Hok]).
    finish E. rewrite (tryCatch_Throw _ _ _ _ _ E0).
    do 4 eexists. split; [reflexivity |]. name_end wend.
    split; [chase; rewrite Hu3; apply lookup_insert_eq |].
    split; [chase; rewrite Hp3, Hu3; reflexivity |].
    split.
    + unfold stateOf at 1. rewrite Hc. cbn. intros Hs.
      injection Hs as Hs. rewrite Hs in Hok. discriminate Hok.
    + intros _. split; [reflexivity |]. chase. exact Hc3.
  - fail_by E ltac:(unfold transitionState;
                    rewrite (bind_docRef _ _ _ Hconversation);
                    unfold runTransaction, bind, getWorld;
                    chase; rewrite Hc3, Hc; reflexivity).
    finish E. rewrite (tryCatch_Throw _ _ _ _ _ E0).
    do 4 eexists. split; [reflexivity |]. name_end wend.
    split; [chase; rewrite Hu3; apply lookup_insert_eq |].
    split; [chase; rewrite Hp3, Hu3; reflexivity |].
    split.
    + unfold stateOf at 1. rewrite Hc. discriminate.
    + intros _. split; [reflexivity |]. chase. exact Hc3.
Qed.

(** ** The executor and the intents it has run *)

Lemma existsb_map_to_list_insert {K V} `{Countable K} (f : K * V -> bool)
      (m : gmap K V) k v :
  f (k, v) = true -> existsb f (map_to_list (<[k := v]> m)) = true.
Proof.
  intros Hf. apply existsb_exists. exists (k, v). split; [| exact Hf].
  apply list_elem_of_In, elem_of_map_to_list, lookup_insert_eq.
Qed.

Lemma claimReceipt_granted clock eventId meta w :
  validDocumentId eventId = true ->
  claimable (clock (clockReads w)) (receipts (store w) !! eventId) ->
  exists w' data claimedAt,
    claimReceipt clock eventId meta w = (Return true, w')
    /\ onlyReceiptsChanged w w'
    /\ receipts (store w') = <[eventId := data]> (receipts (store w))
    /\ rc_status data = Some "processing"
    /\ rc_claimedAt data = Some claimedAt.
Proof.
  intros Hvalid Hclaim.
  unfold claimReceipt. pass_doc Hvalid.
  unfold runTransaction, bind, getWorld, onlyReceiptsChanged.
  destruct (receipts (store w) !! eventId) as [data |] eqn:Hr; cbn.
  - destruct Hclaim as (Hstatus & claimedAt & Hclaimed & Hage).
    rewrite !(statusIs_eq _ _ Hstatus), Hclaimed. cbn.
    apply Z.ltb_ge in Hage. rewrite Hage. cbn.
    do 3 eexists. split; [reflexivity |]. cbn. tauto.
  - do 3 eexists. split; [reflexivity |]. cbn. tauto.
Qed.

Lemma executor_run numberToString clock uuidv4_at parseEnvelope data ev w
      conv out :
  decodeEventData parseEnvelope data = inr ev ->
  validDocumentId (ev_eventId ev) = true ->
  claimable (clock (S (clockReads w)))
            (receipts (store w) !! ev_eventId ev) ->
  validDocumentId (ev_conversationId ev) = true ->
  getField (ev_payload ev) "intentId" <> VUndefined ->
  existsb (matchesIntent (ev_conversationId ev)
                         (getField (ev_payload ev) "intentId"))
          (map_to_list (actions (store w))) = false ->
  executeTool numberToString (getField (ev_payload ev) "action")
    (orElse (getField (ev_payload ev) "parameters") (VObj [])) = inr out ->
  validDocumentId (uuidv4_at (uuidReads w)) = true ->
  conversations (store w) !! ev_conversationId ev = Some conv ->
  let next := if success out then ACTION_COMPLETED else FAILED_EXECUTION in
  exists doc,
    actions (store
               (snd (executor numberToString clock uuidv4_at parseEnvelope
                       data w)))
    = <[(ev_conversationId ev, uuidv4_at (uuidReads w)) := doc]>
        (actions (store w))
    /\ ar_intentId doc = ignoreUndefined (getField (ev_payload ev) "intentId")
    /\ ar_success doc = success out
    /\ published
         (snd (executor numberToString clock uuidv4_at parseEnvelope data w))
       = published w
    /\ (validateTransition (conv_state conv) next = true ->
        exists w',
          executor numberToString clock uuidv4_at parseEnvelope data w
          = (Return tt, w')
          /\ stateOf w' (ev_conversationId ev) = Some next
          /\ statusOf w' (ev_eventId ev) = Some "completed")
    /\ (validateTransition (conv_state conv) next = false ->
        exists w' rdata,
          executor numberToString clock uuidv4_at parseEnvelope data w
          = (Throw (Error (invalidTransitionMessage (conv_state conv) next)),
             w')
          /\ conversations (store w') = conversations (store w)
          /\ receipts (store w') !! ev_eventId ev = Some rdata
          /\ rc_status rdata = Some "processing").
Proof.
  intros Hdecode Hevent Hclaim Hconversation Hdefined Hfresh Htool Haction
         Hconv next.
  destruct (claimReceipt_granted clock (ev_eventId ev)
              {| meta_handler := "executor";
                 meta_conversationId := ev_conversationId ev;
                 meta_messageId := ev_messageId ev |}
              (snd (log_info clock "Received event" w)) Hevent)
    as (w2 & rdata & claimedAt & Hrun & Hframe & Hrec & Hstatus & _).
  { exact Hclaim. }
  destruct Hframe as (Hc & _ & _ & Ha & _ & _ & Hp & _ & Hu & _).
  cbn in Hc, Ha, Hu, Hp.
  destruct (executor numberToString clock uuidv4_at parseEnvelope data w)
    as [r wfin] eqn:E.
  unfold executor in E. rewrite Hdecode in E. cbv zeta in E.
  run E. run_by E ltac:(unfreeze; exact Hrun). cbn [negb] in E.
  run_by E ltac:(apply findActionResultByIntentId_run;
                 [exact Hconversation | exact Hdefined]).
  rewrite Ha, Hfresh, Htool in E.
  run E. run E. run E.
  run_by E ltac:(apply saveActionResult_run;
                 [exact Hconversation
                 | cbn [ar_actionId]; chase; rewrite Hu; exact Haction]).
  run_by E ltac:(apply logEvent_run; [exact Hconversation | exact Hevent]).
  assert (Hnext : (if success out
                   then let* _ := transitionState clock (ev_conversationId ev)
                                    ACTION_COMPLETED in
                        let* _ := completeReceipt clock (ev_eventId ev) in
                        let* _ := log_info clock "Action completed" in
                        ret tt
                   else let* _ := transitionState clock (ev_conversationId ev)
                                    FAILED_EXECUTION in
                        let* _ := completeReceipt clock (ev_eventId ev) in
                        let* _ := log_error clock "Action failed" in
                        ret tt)
                  = (let* _ := transitionState clock (ev_conversationId ev)
                                 next in
                     let* _ := completeReceipt clock (ev_eventId ev) in
                     let* _ := write clock
                                 (if success out then INFO else ERROR)
                                 (if success out then "Action completed"
                                  else "Action failed") in
                     ret tt)).
  { subst next. destruct (success out); reflexivity. }
  rewrite Hnext in E. clear Hnext.
  destruct (validateTransition (conv_state conv) next) eqn:Hok.
  - run_by E ltac:(eapply (transitionState_allowed _ _ conv);
                   [exact Hconversation
                   | chase; rewrite Hc; exact Hconv | exact Hok]).
    run_by E ltac:(apply completeReceipt_run; exact Hevent).
    run E. finish E.
    eexists. cbn [snd].
    split; [chase; rewrite Ha, Hu; reflexivity |].
    split; [reflexivity |]. split; [reflexivity |].
    split; [chase; exact Hp |].
    split; [| discriminate].
    intros _. eexists. split; [reflexivity |].
    split.
    + unfold stateOf. chase. rewrite lookup_insert_eq. reflexivity.
    + unfold statusOf. chase. rewrite lookup_insert_eq. cbn.
      apply mergeCompleted_status.
  - fail_by E ltac:(eapply (transitionState_rejected _ _ conv);
                    [exact Hconversation
                    | chase; rewrite Hc; exact Hconv | exact Hok]).
    finish E.
    eexists. cbn [snd].
    split; [chase; rewrite Ha, Hu; reflexivity |].
    split; [reflexivity |]. split; [reflexivity |].
    split; [chase; exact Hp |].
    split; [discriminate |].
    intros _. do 2 eexists. split; [reflexivity |].
    split; [chase; exact Hc |].
    chase. rewrite Hrec, lookup_insert_eq.
    split; [reflexivity | exact Hstatus].
Qed.

(** A later delivery for an intent that has a result: whether or not its
    receipt is claimed, nothing is added. *)
Lemma executor_after_result numberToString clock uuidv4_at parseEnvelope
      data ev w intentId :
  decodeEventData parseEnvelope data = inr ev ->
  validDocumentId (ev_eventId ev) = true ->
  validDocumentId (ev_conversationId ev) = true ->
  getField (ev_payload ev) "intentId" = VStr intentId ->
  existsb (matchesIntent (ev_conversationId ev) (VStr intentId))
          (map_to_list (actions (store w))) = true ->
  exists w',
    executor numberToString clock uuidv4_at parseEnvelope data w
    = (Return tt, w')
    /\ actions (store w') = actions (store w)
    /\ conversations (store w') = conversations (store w).
Proof.
  intros Hdecode Hevent Hconversation Hid Hsaved.
  destruct (claimReceipt_returns clock (ev_eventId ev)
              {| meta_handler := "executor";
                 meta_conversationId := ev_conversationId ev;
                 meta_messageId := ev_messageId ev |}
              (snd (log_info clock "Received event" w)) Hevent)
    as ([|] & w2 & Hrun & Hframe & Hsame_store).
  - destruct Hframe as (Hc & _ & _ & Ha & _).
    cbn in Hc, Ha.
    eexists. split.
    { unfold executor. rewrite Hdecode. cbv zeta. step.
      step_by ltac:(exact Hrun). cbn [negb].
      step_by ltac:(apply findActionResultByIntentId_run;
                    [exact Hconversation | rewrite Hid; discriminate]).
      rewrite Ha, Hid, Hsaved. step.
      step_by ltac:(apply completeReceipt_run; exact Hevent).
      reflexivity. }
    world_simpl. split; [exact Ha | exact Hc].
  - specialize (Hsame_store eq_refl). cbn in Hsame_store.
    eexists. split.
    { unfold executor. rewrite Hdecode. cbv zeta. step.
      step_by ltac:(exact Hrun). cbn [negb]. step. reflexivity. }
    world_simpl. rewrite Hsame_store. split; reflexivity.
Qed.

Lemma matchesIntent_saved conversationId actionId intentId doc :
  ar_intentId doc = VStr intentId ->
  matchesIntent conversationId (VStr intentId)
    ((conversationId, actionId), doc) = true.
Proof.
  intros Hid. unfold matchesIntent. cbn. rewrite Hid. cbn.
  rewrite !String.eqb_refl. reflexivity.
Qed.

Lemma isInvalidTransition_message current next :
  isInvalidTransition (Error (invalidTransitionMessage current next)) = true.
Proof. destruct current, next; reflexivity. Qed.

(** X23. The executor runs an intent once.  After the executor handled an
    [action_requested] delivery whose [intentId] is a string (event,
    conversation and drawn action ids are document ids, the claim is
    granted, there is no result for the intent yet, the tool returns, and
    the parameters a successful tool copies have flat fields), the
    conversation holds a result for that intent, even when the handler
    then throws on the transition; and any later delivery for the same
    conversation and intent, under whatever event id that is a document
    id, at whatever time and whether or not its receipt can be claimed, is
    acknowledged without a result being added or any conversation
    changing. *)
Theorem executor_runs_an_intent_once :
  forall numberToString clock uuidv4_at parseEnvelope data ev w conv
         intentId out,
    decodeEventData parseEnvelope data = inr ev ->
    validDocumentId (ev_eventId ev) = true ->
    claimable (clock (S (clockReads w)))
              (receipts (store w) !! ev_eventId ev) ->
    validDocumentId (ev_conversationId ev) = true ->
    getField (ev_payload ev) "intentId" = VStr intentId ->
    existsb (matchesIntent (ev_conversationId ev) (VStr intentId))
            (map_to_list (actions (store w))) = false ->
    let parameters :=
      orElse (getField (ev_payload ev) "parameters") (VObj []) in
    executeTool numberToString (getField (ev_payload ev) "action")
      parameters = inr out ->
    (success out = true -> flatFields parameters = true) ->
    validDocumentId (uuidv4_at (uuidReads w)) = true ->
    conversations (store w) !! ev_conversationId ev = Some conv ->
    let w' :=
      snd (executor numberToString clock uuidv4_at parseEnvelope data w) in
    existsb (matchesIntent (ev_conversationId ev) (VStr intentId))
            (map_to_list (actions (store w'))) = true
    /\ (forall numberToString' clock' uuidv4_at' parseEnvelope' data' ev',
           decodeEventData parseEnvelope' data' = inr ev' ->
           validDocumentId (ev_eventId ev') = true ->
           ev_conversationId ev' = ev_conversationId ev ->
           getField (ev_payload ev') "intentId" = VStr intentId ->
           exists w'',
             executor numberToString' clock' uuidv4_at' parseEnvelope'
               data' w' = (Return tt, w'')
             /\ actions (store w'') = actions (store w')
             /\ conversations (store w'') = conversations (store w')).
Proof.
  intros numberToString clock uuidv4_at parseEnvelope data ev w conv
         intentId out Hdecode Hevent Hclaim Hconversation Hid Hfresh
         parameters Htool _ Haction Hconv w'.
  rewrite <- Hid in Hfresh.
  destruct (executor_run numberToString clock uuidv4_at parseEnvelope data
              ev w conv out Hdecode Hevent Hclaim Hconversation)
    as (doc & Hactions & Hdoc & _); try assumption.
  { rewrite Hid. discriminate. }
  fold w' in Hactions. rewrite Hid in Hdoc. cbn in Hdoc.
  assert (Hsaved :
            existsb (matchesIntent (ev_conversationId ev) (VStr intentId))
                    (map_to_list (actions (store w'))) = true).
  { rewrite Hactions. apply existsb_map_to_list_insert.
    apply matchesIntent_saved. exact Hdoc. }
  split; [exact Hsaved |].
  clearbody w'.
  intros numberToString' clock' uuidv4_at' parseEnvelope' data' ev'
         Hdecode' Hevent' Hsame Hid'.
  rewrite <- Hsame in Hsaved, Hconversation.
  exact (executor_after_result numberToString' clock' uuidv4_at'
           parseEnvelope' data' ev' w' intentId Hdecode' Hevent'
           Hconversation Hid' Hsaved).
Qed.

(** X24. The executor on a delivery it may claim (event, conversation and
    drawn action ids are document ids, the intent id is a string without a
    result yet, the tool returns, and the parameters a successful tool
    copies have flat fields), for a conversation whose state does not
    allow the transition the tool outcome asks for (any state but
    [ACTION_REQUESTED]): it throws the invalid-transition error, so the
    delivery is not acknowledged, after the action result has been stored;
    the conversation keeps its state and the receipt stays in
    [processing].  A redelivery of the same event never moves the
    conversation either: whether or not its receipt can be claimed by
    then, it is acknowledged with the conversation in the same state. *)
Theorem executor_result_without_transition :
  forall numberToString clock uuidv4_at parseEnvelope data ev w conv
         intentId out,
    decodeEventData parseEnvelope data = inr ev ->
    validDocumentId (ev_eventId ev) = true ->
    claimable (clock (S (clockReads w)))
              (receipts (store w) !! ev_eventId ev) ->
    validDocumentId (ev_conversationId ev) = true ->
    getField (ev_payload ev) "intentId" = VStr intentId ->
    existsb (matchesIntent (ev_conversationId ev) (VStr intentId))
            (map_to_list (actions (store w))) = false ->
    let parameters :=
      orElse (getField (ev_payload ev) "parameters") (VObj []) in
    executeTool numberToString (getField (ev_payload ev) "action")
      parameters = inr out ->
    (success out = true -> flatFields parameters = true) ->
    validDocumentId (uuidv4_at (uuidReads w)) = true ->
    conversations (store w) !! ev_conversationId ev = Some conv ->
    conv_state conv <> ACTION_REQUESTED ->
    exists e w',
      executor numberToString clock uuidv4_at parseEnvelope data w
      = (Throw e, w')
      /\ isInvalidTransition e = true
      /\ existsb (matchesIntent (ev_conversationId ev) (VStr intentId))
                 (map_to_list (actions (store w'))) = true
      /\ stateOf w' (ev_conversationId ev) = Some (conv_state conv)
      /\ statusOf w' (ev_eventId ev) = Some "processing"
      /\ (forall clock' uuidv4_at',
             exists w'',
               executor numberToString clock' uuidv4_at' parseEnvelope
                 data w' = (Return tt, w'')
               /\ stateOf w'' (ev_conversationId ev)
                  = Some (conv_state conv)).
Proof.
  intros numberToString clock uuidv4_at parseEnvelope data ev w conv
         intentId out Hdecode Hevent Hclaim Hconversation Hid Hfresh
         parameters Htool _ Haction Hconv Hstate.
  pose proof Hfresh as Hfresh'. rewrite <- Hid in Hfresh'.
  destruct (executor_run numberToString clock uuidv4_at parseEnvelope data
              ev w conv out Hdecode Hevent Hclaim Hconversation)
    as (doc & Hactions & Hdoc & _ & _ & _ & Hthrows); try assumption.
  { rewrite Hid. discriminate. }
  destruct Hthrows as (w' & rdata & Hrun & Hc & Hr & Hstatus).
  { destruct (conv_state conv), (success out); try reflexivity;
      contradiction. }
  rewrite Hrun in Hactions. cbn [snd] in Hactions.
  rewrite Hid in Hdoc. cbn in Hdoc.
  assert (Hsaved :
            existsb (matchesIntent (ev_conversationId ev) (VStr intentId))
                    (map_to_list (actions (store w'))) = true).
  { rewrite Hactions. apply existsb_map_to_list_insert.
    apply matchesIntent_saved. exact Hdoc. }
  assert (Hstays : stateOf w' (ev_conversationId ev)
                   = Some (conv_state conv)).
  { unfold stateOf. rewrite Hc, Hconv. reflexivity. }
  do 2 eexists. split; [exact Hrun |].
  split; [apply isInvalidTransition_message |].
  split; [exact Hsaved |].
  split; [exact Hstays |].
  split; [unfold statusOf; rewrite Hr; exact Hstatus |].
  intros clock' uuidv4_at'.
  destruct (executor_after_result numberToString clock' uuidv4_at'
              parseEnvelope data ev w' intentId Hdecode Hevent
              Hconversation Hid Hsaved)
    as (w'' & Hrun' & _ & Hc').
  exists w''. split; [exact Hrun' |].
  unfold stateOf. rewrite Hc'. exact Hstays.
Qed.

(** ** The three handlers in sequence *)

Lemma no_result_in_conversation (conversationId : string)
      (intentId : value) (m : gmap (string * string) ActionResult) :
  (forall actionId, m !! (conversationId, actionId) = None) ->
  existsb (matchesIntent conversationId intentId) (map_to_list m) = false.
Proof.
  intros Hnone.
  destruct (existsb _ _) eqn:Hex; [| reflexivity].
  apply existsb_exists in Hex as ([[c a] doc] & Hin & Hmatch).
  apply list_elem_of_In, elem_of_map_to_list in Hin.
  unfold matchesIntent in Hmatch. cbn in Hmatch.
  apply andb_prop in Hmatch as (Hmatch & _).
  apply andb_prop in Hmatch as (Hmatch & _).
  apply String.eqb_eq in Hmatch. subst c.
  rewrite Hnone in Hin. discriminate.
Qed.

(** X25. The pipeline end to end.  A [POST /messages] that is accepted,
    followed by a delivery to the reasoner of the event it
    published and then by a delivery to the executor of the event the
    reasoner published, with generated ids that are document ids,
    distinct for the two events and not yet used for receipts or for
    results of this conversation, and a bus that accepts both publishes: both
    deliveries are acknowledged; the conversation goes through
    [REASONING_REQUESTED] and [ACTION_REQUESTED] and ends in
    [ACTION_COMPLETED]; both receipts are completed; one successful action
    result is stored for the intent; and two events in all were
    published. *)
Theorem pipeline_completes :
  forall isUuid numberToString clock uuidv4_at publishMessage_at
         parseEnvelope env_TOPIC_REASONING env_TOPIC_ACTION req data1 data2
         w content busId1 busId2,
    getField (req_body req) "content" = VStr content ->
    content <> EmptyString ->
    truthy (getField (req_body req) "conversationId") = false ->
    (forall n, validDocumentId (uuidv4_at n) = true) ->
    (forall key,
        presentKey (req_idempotencyKey req) = Some key ->
        validDocumentId key = true
        /\ idempotencyKeys (store w) !! key = None) ->
    publishMessage_at (publishAttempts w) = inr busId1 ->
    publishMessage_at (S (publishAttempts w)) = inr busId2 ->
    let conversationId := uuidv4_at (uuidReads w) in
    let messageId := uuidv4_at (S (uuidReads w)) in
    let eventId1 := uuidv4_at (S (S (uuidReads w))) in
    let intentId := uuidv4_at (S (S (S (uuidReads w)))) in
    let eventId2 := uuidv4_at (S (S (S (S (uuidReads w))))) in
    let actionId := uuidv4_at (S (S (S (S (S (uuidReads w)))))) in
    isUuid intentId = true ->
    eventId2 <> eventId1 ->
    receipts (store w) !! eventId1 = None ->
    receipts (store w) !! eventId2 = None ->
    (forall actionId', actions (store w) !! (conversationId, actionId') = None) ->
    let w1 :=
      snd (postMessages clock uuidv4_at publishMessage_at
             env_TOPIC_REASONING req w) in
    (forall m,
        last (published w1) = Some m ->
        decodeEventData parseEnvelope data1 = inr (pm_data m)) ->
    let w2 :=
      snd (reasoner isUuid clock uuidv4_at publishMessage_at parseEnvelope
             env_TOPIC_ACTION data1 w1) in
    (forall m,
        last (published w2) = Some m ->
        decodeEventData parseEnvelope data2 = inr (pm_data m)) ->
    let w3 :=
      snd (executor numberToString clock uuidv4_at parseEnvelope data2 w2) in
    stateOf w1 conversationId = Some REASONING_REQUESTED
    /\ fst (reasoner isUuid clock uuidv4_at publishMessage_at parseEnvelope
              env_TOPIC_ACTION data1 w1) = Return tt
    /\ stateOf w2 conversationId = Some ACTION_REQUESTED
    /\ fst (executor numberToString clock uuidv4_at parseEnvelope data2 w2)
       = Return tt
    /\ stateOf w3 conversationId = Some ACTION_COMPLETED
    /\ statusOf w3 eventId1 = Some "completed"
    /\ statusOf w3 eventId2 = Some "completed"
    /\ (exists doc,
           actions (store w3) !! (conversationId, actionId) = Some doc
           /\ ar_success doc = true
           /\ ar_intentId doc = VStr intentId)
    /\ length (published w3) = S (S (length (published w))).
Proof.
  intros isUuid numberToString clock uuidv4_at publishMessage_at
         parseEnvelope env_TOPIC_REASONING env_TOPIC_ACTION req data1 data2
         w content busId1 busId2 Hcontent Hne Hnoconv Hids Hfree Hbus1 Hbus2
         conversationId messageId eventId1 intentId eventId2 actionId
         Huuid Hdistinct Hreceipt1 Hreceipt2 Hnoactions
         w1 Hdecode1 w2 Hdecode2 w3.
  (* the request *)
  destruct (postMessages_accepts_run clock uuidv4_at publishMessage_at
              env_TOPIC_REASONING req w content busId1 Hcontent Hne Hnoconv
              Hids Hfree Hbus1)
    as (w1' & createdAt & timestamp1 & Hrun1 & Hs1 & _ & _ & Hp1 & Hr1 & Ha1
        & Hu1 & Hpa1).
  fold conversationId messageId eventId1 in Hs1, Hp1.
  assert (Hw1 : w1 = w1') by (unfold w1; rewrite Hrun1; reflexivity).
  clearbody w1. subst w1.
  specialize (Hdecode1 _ ltac:(rewrite Hp1; apply last_snoc)).
  cbn [pm_data] in Hdecode1.
  (* the reasoner *)
  assert (Hconv1 : exists conv,
             conversations (store w1') !! conversationId = Some conv
             /\ conv_state conv = REASONING_REQUESTED).
  { unfold stateOf in Hs1.
    destruct (conversations (store w1') !! conversationId) as [conv |];
      [| discriminate].
    exists conv. split; [reflexivity |]. cbn in Hs1. congruence. }
  destruct Hconv1 as (conv1 & Hconv1 & Hstate1).
  apply truthy_VStr in Hne as Htruthy.
  destruct (reasoner_requests_action_run isUuid clock uuidv4_at
              publishMessage_at parseEnvelope env_TOPIC_ACTION data1 _ w1'
              conv1 content busId2 Hdecode1)
    as (w2' & intentId' & action & parameters & confidence & eventId2'
        & timestamp2 & doc2 & Hrun2 & Hs2 & Hrc2 & Hp2 & Haction & _ & _ & _
        & _ & Ha2 & Hr2 & Hintent & Hevent2 & Hu2 & Hflat).
  { apply Hids. }
  { cbn [ev_eventId]. rewrite Hr1. fold eventId1. rewrite Hreceipt1.
    exact I. }
  { cbn [ev_payload]. unfold orElse.
    change (getField [("content", VStr content)] "content")
      with (VStr content).
    rewrite Htruthy. reflexivity. }
  { apply Hids. }
  { exact Hconv1. }
  { exact Hstate1. }
  { apply validDocumentId_nonempty, Hids. }
  { rewrite Hu1. exact Huuid. }
  { apply Hids. }
  { rewrite Hpa1. exact Hbus2. }
  cbn [ev_eventId ev_conversationId ev_messageId] in Hs2, Hrc2, Hp2, Hr2.
  rewrite Hu1 in Hintent, Hevent2, Hu2. subst intentId' eventId2'.
  fold intentId eventId2 in Hp2.
  assert (Hw2 : w2 = w2') by (unfold w2; rewrite Hrun2; reflexivity).
  assert (Hack2 : fst (reasoner isUuid clock uuidv4_at publishMessage_at
                         parseEnvelope env_TOPIC_ACTION data1 w1')
                  = Return tt) by (rewrite Hrun2; reflexivity).
  clearbody w2. subst w2.
  specialize (Hdecode2 _ ltac:(rewrite Hp2; apply last_snoc)).
  cbn [pm_data] in Hdecode2.
  (* the executor *)
  assert (Hconv2 : exists conv,
             conversations (store w2') !! conversationId = Some conv
             /\ conv_state conv = ACTION_REQUESTED).
  { unfold stateOf in Hs2.
    destruct (conversations (store w2') !! conversationId) as [conv |];
      [| discriminate].
    exists conv. split; [reflexivity |]. cbn in Hs2. congruence. }
  destruct Hconv2 as (conv2 & Hconv2 & Hstate2).
  destruct (executeTool_flat numberToString action parameters Haction
              Hflat) as (out & Htool & Hsuccess).
  destruct (executor_run numberToString clock uuidv4_at parseEnvelope data2
              _ w2' conv2 out Hdecode2)
    as (doc3 & Hactions3 & Hdoc3 & Hsuccess3 & Hp3 & Hreturns & _).
  { apply Hids. }
  { cbn [ev_eventId]. rewrite Hr2 by exact Hdistinct.
    rewrite Hr1, Hreceipt2. exact I. }
  { apply Hids. }
  { discriminate. }
  { cbn [ev_conversationId]. apply no_result_in_conversation.
    intros actionId'. rewrite Ha2, Ha1. apply Hnoactions. }
  { exact Htool. }
  { apply Hids. }
  { exact Hconv2. }
  cbn [ev_eventId ev_conversationId ev_payload]
    in Hactions3, Hdoc3, Hsuccess3, Hreturns.
  change (getField _ "intentId") with (VStr intentId) in Hdoc3.
  rewrite Hsuccess in Hsuccess3, Hreturns.
  destruct Hreturns as (w3' & Hrun3 & Hs3 & Hrc3).
  { rewrite Hstate2. reflexivity. }
  assert (Hw3 : w3 = w3') by (unfold w3; rewrite Hrun3; reflexivity).
  rewrite Hrun3 in Hactions3, Hp3. cbn [snd] in Hactions3, Hp3.
  split; [exact Hs1 |]. split; [exact Hack2 |]. split; [exact Hs2 |].
  split; [rewrite Hrun3; reflexivity |].
  clearbody w3. subst w3.
  split; [exact Hs3 |].
  split.
  { pose proof (executor_completedStay numberToString clock uuidv4_at
                  parseEnvelope data2 w2' eventId1 Hrc2) as Hstay.
    rewrite Hrun3 in Hstay. exact Hstay. }
  split; [exact Hrc3 |].
  split.
  { exists doc3. split; [| split; [exact Hsuccess3 | exact Hdoc3]].
    rewrite Hactions3, Hu2. apply lookup_insert_eq. }
  rewrite Hp3, Hp2, Hp1, !length_app. cbn. lia.
Qed.

(** ** What each handler publishes *)

Lemma publishesOnly_refl ok w : publishesOnly ok w w.
Proof. exists []. split; [symmetry; apply app_nil_r | constructor]. Qed.

Lemma publishesOnly_trans ok w1 w2 w3 :
  publishesOnly ok w1 w2 -> publishesOnly ok w2 w3 -> publishesOnly ok w1 w3.
Proof.
  intros (l1 & H1 & Hok1) (l2 & H2 & Hok2). exists (l1 ++ l2)%list. split.
  - rewrite H2, H1. symmetry. apply app_assoc.
  - apply Forall_app. split; assumption.
Qed.

Lemma same_published_publishesOnly ok w w' :
  published w' = published w -> publishesOnly ok w w'.
Proof.
  intros Heq. exists []. split; [| constructor].
  rewrite Heq. symmetry. apply app_nil_r.
Qed.

Lemma publishEvent_publishesOnly clock publishMessage_at topicName event :
  preserves
    (publishesOnly
       (publishedBy topicName (ev_eventType event) (ev_producer event)))
    (publishEvent clock publishMessage_at topicName event).
Proof.
  intros w. unfold publishEvent, bind.
  destruct (publishMessage_at (publishAttempts w)) as [e | busId]; cbn.
  - exists []. split; [reflexivity | constructor].
  - eexists. split; [reflexivity |].
    constructor; [| constructor]. repeat split; reflexivity.
Qed.

Ltac publishes_only ok :=
  open_handler;
  preserve_all (publishesOnly_refl ok) (publishesOnly_trans ok)
    ltac:(first [ apply publishEvent_publishesOnly
                | claim_keeps (same_published_publishesOnly ok)
                | prim_keeps (same_published_publishesOnly ok) ]).

(** X26. Whatever it is given and however it ends, [POST /messages] keeps
    what was published and adds only [reasoning_requested] events,
    produced by [api], on the reasoning topic; the reasoner adds only
    [action_requested] events, produced by [reasoner], on the action
    topic.  Each message carries its event's id, type and conversation id
    as attributes. *)
Theorem handlers_publish_their_own_events :
  forall isUuid clock uuidv4_at publishMessage_at parseEnvelope
         env_TOPIC_REASONING env_TOPIC_ACTION req data w,
    publishesOnly
      (publishedBy (TOPIC_REASONING env_TOPIC_REASONING)
         "reasoning_requested" "api")
      w
      (snd (postMessages clock uuidv4_at publishMessage_at
              env_TOPIC_REASONING req w))
    /\ publishesOnly
         (publishedBy (TOPIC_ACTION env_TOPIC_ACTION)
            "action_requested" "reasoner")
         w
         (snd (reasoner isUuid clock uuidv4_at publishMessage_at
                 parseEnvelope env_TOPIC_ACTION data w)).
Proof.
  intros isUuid clock uuidv4_at publishMessage_at parseEnvelope
         env_TOPIC_REASONING env_TOPIC_ACTION req data.
  assert (Hapi : preserves
            (publishesOnly
               (publishedBy (TOPIC_REASONING env_TOPIC_REASONING)
                  "reasoning_requested" "api"))
            (postMessages clock uuidv4_at publishMessage_at
               env_TOPIC_REASONING req)).
  { publishes_only
      (publishedBy (TOPIC_REASONING env_TOPIC_REASONING)
         "reasoning_requested" "api"). }
  assert (Hreasoner : preserves
            (publishesOnly
               (publishedBy (TOPIC_ACTION env_TOPIC_ACTION)
                  "action_requested" "reasoner"))
            (reasoner isUuid clock uuidv4_at publishMessage_at
               parseEnvelope env_TOPIC_ACTION data)).
  { publishes_only
      (publishedBy (TOPIC_ACTION env_TOPIC_ACTION)
         "action_requested" "reasoner"). }
  intros w. split; [apply Hapi | apply Hreasoner].
Qed.

(** ** Deliveries without an event id *)

(** X27. A delivery that decodes to an event whose id is the empty string
    cannot be claimed: [collection.doc] refuses the empty path before the
    transaction starts, so the reasoner and the executor both throw after
    their first log line.  No document changes, nothing is published, and
    the delivery is not acknowledged, unlike one that does not decode. *)
Theorem consumers_reject_empty_event_id :
  forall isUuid numberToString clock uuidv4_at publishMessage_at
         parseEnvelope env_TOPIC_ACTION data ev w,
    decodeEventData parseEnvelope data = inr ev ->
    ev_eventId ev = EmptyString ->
    let line :=
      {| le_severity := INFO; le_message := "Received event";
         le_timestamp := clock (clockReads w) |} in
    reasoner isUuid clock uuidv4_at publishMessage_at parseEnvelope
      env_TOPIC_ACTION data w
    = (Throw invalidDocumentPath, logLine line (tick w))
    /\ executor numberToString clock uuidv4_at parseEnvelope data w
       = (Throw invalidDocumentPath, logLine line (tick w))
    /\ deliveryOf (Throw invalidDocumentPath) = Nack invalidDocumentPath
    /\ store (logLine line (tick w)) = store w
    /\ published (logLine line (tick w)) = published w.
Proof.
  intros isUuid numberToString clock uuidv4_at publishMessage_at
         parseEnvelope env_TOPIC_ACTION data ev w Hdecode Hempty line.
  unfold reasoner, executor. rewrite Hdecode. cbv zeta. rewrite Hempty.
  split; [| split; [| split; [| split]]]; reflexivity.
Qed.

(** * The further properties at concrete inputs *)

(** The conversation of the first request, created again. *)
Lemma createConversation_resets_witness :
  stateOf worldAfterFirstPost (sampleUuid 0) = Some REASONING_REQUESTED
  /\ exists fresh w',
      createConversation sampleClock (sampleUuid 0) worldAfterFirstPost
      = (Return fresh, w')
      /\ stateOf w' (sampleUuid 0) = Some RECEIVED.
Proof.
  split; [vm_compute; reflexivity |].
  destruct (createConversation_resets sampleClock (sampleUuid 0)
              worldAfterFirstPost (sampleUuid_valid 0))
    as (w' & Hrun & _ & Hstate & _).
  eexists. exists w'. split; [exact Hrun | exact Hstate].
Defined.

(** A transition on a conversation that was never created. *)
Lemma transitionState_unknown_conversation_witness :
  transitionState sampleClock "c9" REASONING_REQUESTED initialWorld
  = (Throw (Error "Conversation c9 not found"), initialWorld).
Proof.
  apply (transitionState_unknown_conversation sampleClock "c9"
           REASONING_REQUESTED initialWorld); reflexivity.
Defined.

(** Two requests claim the key [k1]. *)
Lemma claimIdempotencyKey_first_wins_witness :
  exists w1,
    claimIdempotencyKey sampleClock "k1" "m1" initialWorld
    = (Return IsNew, w1)
    /\ claimIdempotencyKey sampleClock "k1" "m2" w1
       = (Return (Existing "m1"), w1).
Proof.
  destruct (claimIdempotencyKey_first_wins sampleClock "k1" "m1"
              initialWorld)
    as (w1 & Hfirst & _ & _ & Hlater).
  - reflexivity.
  - reflexivity.
  - exists w1. split; [exact Hfirst | apply Hlater].
Defined.

(** The event [e1] delivered twice within a second. *)
Lemma claimReceipt_duplicate_delivery_witness :
  exists w1 w2,
    claimReceipt sampleClock "e1" sampleMeta initialWorld = (Return true, w1)
    /\ claimReceipt sampleClock "e1" sampleMeta w1 = (Return false, w2)
    /\ store w2 = store w1.
Proof.
  destruct (claimReceipt_duplicate_delivery sampleClock "e1" sampleMeta
              sampleMeta initialWorld)
    as (w1 & Hfirst & Hrecent & _).
  - reflexivity.
  - reflexivity.
  - destruct Hrecent as (w2 & Hsecond & Hsame).
    + vm_compute. reflexivity.
    + exists w1, w2. auto.
Defined.

(** The event [e1], completed before it was ever claimed. *)
Lemma completed_receipt_refuses_claims_witness :
  exists w1,
    completeReceipt sampleClock "e1" initialWorld = (Return tt, w1)
    /\ claimReceipt sampleClock "e1" sampleMeta w1 = (Return false, w1).
Proof.
  destruct (completed_receipt_refuses_claims sampleClock "e1" initialWorld)
    as (w1 & Hrun & Hrefused).
  - reflexivity.
  - exists w1. split; [exact Hrun | apply Hrefused].
Defined.

(** A conversation that was never created, and [c1], read over HTTP. *)
Lemma getConversationById_reads_witness :
  getConversationById sampleClock sampleToISOString "c9" initialWorld
  = (Return {| res_status := 404;
               res_body := [("error", VStr "Conversation not found")] |},
     initialWorld)
  /\ fst (getConversationById sampleClock sampleToISOString "c1"
            worldWithConversation)
     = Return {| res_status := 200;
                 res_body :=
                   [("conversationId", VStr "c1");
                    ("state", VStr "RECEIVED");
                    ("createdAt", VStr "1970-01-01T00:00:00.000Z");
                    ("updatedAt", VStr "1970-01-01T00:00:00.000Z")] |}.
Proof.
  split.
  - apply (getConversationById_reads sampleClock sampleToISOString "c9"
             initialWorld); reflexivity.
  - destruct (getConversationById_reads sampleClock sampleToISOString "c1"
                worldWithConversation eq_refl) as (_ & Hfound).
    eassert (Hc : conversations (store worldWithConversation) !! "c1"
                  = Some _) by (vm_compute; reflexivity).
    rewrite (Hfound _ Hc). reflexivity.
Defined.

(** The reasoner on the event of the first request. *)
Lemma reasoner_requests_action_witness :
  exists w',
    reasoner sampleIsUuid sampleClock sampleUuid busUp sampleParse None
      (delivered "reasoning") worldAfterFirstPost = (Return tt, w')
    /\ stateOf w' (sampleUuid 0) = Some ACTION_REQUESTED
    /\ statusOf w' (sampleUuid 2) = Some "completed"
    /\ length (published w') = 2%nat.
Proof.
  edestruct (reasoner_requests_action sampleIsUuid sampleClock sampleUuid
               busUp sampleParse None (delivered "reasoning")
               sampleReasoningEvent worldAfterFirstPost)
    as (w' & intentId & action & parameters & confidence & actionEventId
        & timestamp & doc & Hrun & Hstate & Hstatus & Hpublished & _).
  - reflexivity.
  - apply sampleUuid_valid.
  - vm_compute. exact I.
  - reflexivity.
  - apply sampleUuid_valid.
  - vm_compute. reflexivity.
  - reflexivity.
  - vm_compute. discriminate.
  - vm_compute. reflexivity.
  - apply sampleUuid_valid.
  - vm_compute. reflexivity.
  - exists w'. split; [exact Hrun |]. split; [exact Hstate |].
    split; [exact Hstatus |]. rewrite Hpublished. reflexivity.
Defined.

(** The event of the first request, delivered without its message id. *)
Lemma reasoner_records_invalid_intent_witness :
  exists w',
    reasoner sampleIsUuid sampleClock sampleUuid busUp incompleteParse None
      (delivered "nomessage") worldAfterFirstPost = (Return tt, w')
    /\ stateOf w' (sampleUuid 0) = Some FAILED_VALIDATION
    /\ published w' = published worldAfterFirstPost.
Proof.
  edestruct (reasoner_records_invalid_intent sampleIsUuid sampleClock
               sampleUuid busUp incompleteParse None (delivered "nomessage")
               eventWithoutMessageId worldAfterFirstPost)
    as (w' & intentId & doc & reason & Hrun & Hstate & _ & Hpublished & _).
  - reflexivity.
  - apply sampleUuid_valid.
  - vm_compute. exact I.
  - reflexivity.
  - apply sampleUuid_valid.
  - vm_compute. reflexivity.
  - reflexivity.
  - apply sampleUuid_valid.
  - left. reflexivity.
  - exists w'. auto.
Defined.

(** The event of the first request, delivered again after the reasoner
    handled it. *)
Lemma consumers_skip_unclaimable_delivery_witness :
  exists w',
    reasoner sampleIsUuid sampleClock sampleUuid busUp sampleParse None
      (delivered "reasoning") worldAfterReasoning = (Return tt, w')
    /\ store w' = store worldAfterReasoning
    /\ published w' = published worldAfterReasoning.
Proof.
  edestruct (consumers_skip_unclaimable_delivery sampleIsUuid
               sampleNumberToString sampleClock sampleUuid busUp
               sampleParse None (delivered "reasoning")
               sampleReasoningEvent worldAfterReasoning)
    as (Hreasoner & _).
  - reflexivity.
  - apply sampleUuid_valid.
  - vm_compute. reflexivity.
  - intros (Hstatus & _). vm_compute in Hstatus. discriminate Hstatus.
  - exact Hreasoner.
Defined.

(** A delivery for an intent whose result is already stored. *)
Lemma executor_skips_executed_intent_witness :
  exists w',
    executor sampleNumberToString sampleClock sampleUuid sampleParse
      (delivered "search") worldWithResult = (Return tt, w')
    /\ actions (store w') = actions (store worldWithResult)
    /\ statusOf w' (sampleUuid 7) = Some "completed".
Proof.
  edestruct (executor_skips_executed_intent sampleNumberToString sampleClock
               sampleUuid sampleParse (delivered "search")
               (sampleActionEvent "search") worldWithResult)
    as (w' & Hrun & Hactions & _ & _ & Hstatus).
  - reflexivity.
  - apply sampleUuid_valid.
  - vm_compute. exact I.
  - apply sampleUuid_valid.
  - reflexivity.
  - vm_compute. reflexivity.
  - exists w'. auto.
Defined.

(** The first request. *)
Lemma postMessages_accepts_witness :
  exists w',
    postMessages sampleClock sampleUuid busUp None sampleRequest initialWorld
    = (Return {| res_status := 201;
                 res_body :=
                   [("messageId", VStr (sampleUuid 1));
                    ("conversationId", VStr (sampleUuid 0));
                    ("eventId", VStr (sampleUuid 2));
                    ("state", VStr "REASONING_REQUESTED")] |}, w')
    /\ stateOf w' (sampleUuid 0) = Some REASONING_REQUESTED
    /\ length (published w') = 1%nat.
Proof.
  edestruct (postMessages_accepts sampleClock sampleUuid busUp None
               sampleRequest initialWorld)
    as (w' & createdAt & timestamp & Hrun & Hstate & _ & _ & Hpublished).
  - reflexivity.
  - discriminate.
  - reflexivity.
  - exact sampleUuid_valid.
  - intros key Hkey. injection Hkey as <-. split; reflexivity.
  - reflexivity.
  - exists w'. split; [exact Hrun |]. split; [exact Hstate |].
    rewrite Hpublished. reflexivity.
Defined.

(** The first request while the bus is down, and its retry. *)
Lemma postMessages_publish_failure_then_retry_witness :
  exists w' w'',
    postMessages sampleClock sampleUuid busDown None sampleRequest
      initialWorld
    = (Return {| res_status := 500;
                 res_body := [("error", VStr "Pub/Sub unavailable")] |}, w')
    /\ postMessages sampleClock sampleUuid busUp None sampleRequest w'
       = (Return (duplicateResponse (sampleUuid 1)), w'')
    /\ published w'' = [].
Proof.
  edestruct (postMessages_publish_failure_then_retry sampleClock sampleUuid
               busDown None sampleRequest initialWorld)
    as (w' & createdAt & Hrun & _ & _ & _ & Hretry).
  - reflexivity.
  - discriminate.
  - reflexivity.
  - exact sampleUuid_valid.
  - reflexivity.
  - reflexivity.
  - reflexivity.
  - reflexivity.
  - destruct (Hretry sampleClock sampleUuid busUp None)
      as (w'' & Hrun' & _ & Hpublished).
    exists w', w''. auto.
Defined.

(** A request for the conversation [c1], which is in [RECEIVED]. *)
Lemma postMessages_named_conversation_witness :
  exists w' response,
    postMessages sampleClock sampleUuid busUp None namedRequest
      worldWithConversation = (Return response, w')
    /\ res_status response = 201
    /\ stateOf w' "c1" = Some REASONING_REQUESTED.
Proof.
  edestruct (postMessages_named_conversation sampleClock sampleUuid busUp
               None namedRequest worldWithConversation)
    as (w' & response & createdAt & timestamp & Hrun & _ & _ & Hreceived
        & _).
  - reflexivity.
  - discriminate.
  - reflexivity.
  - reflexivity.
  - exact sampleUuid_valid.
  - intros key Hkey. discriminate Hkey.
  - reflexivity.
  - destruct Hreceived as (-> & Hstate); [vm_compute; reflexivity |].
    exists w'. eexists. split; [exact Hrun |].
    split; [reflexivity | exact Hstate].
Defined.

(** The executor on the event the reasoner published, then on a second
    delivery for the same intent. *)
Lemma executor_runs_an_intent_once_witness :
  let w' :=
    snd (executor sampleNumberToString sampleClock sampleUuid sampleParse
           (delivered "search") worldAfterReasoning) in
  exists w'',
    executor sampleNumberToString sampleClock sampleUuid sampleParse
      (delivered "dance") w' = (Return tt, w'')
    /\ actions (store w'') = actions (store w').
Proof.
  intros w'.
  edestruct (executor_runs_an_intent_once sampleNumberToString sampleClock
               sampleUuid sampleParse (delivered "search")
               (sampleActionEvent "search") worldAfterReasoning)
    as (_ & Hlater).
  - reflexivity.
  - apply sampleUuid_valid.
  - vm_compute. exact I.
  - apply sampleUuid_valid.
  - reflexivity.
  - vm_compute. reflexivity.
  - vm_compute. reflexivity.
  - intros _. reflexivity.
  - apply sampleUuid_valid.
  - vm_compute. reflexivity.
  - destruct (Hlater sampleNumberToString sampleClock sampleUuid sampleParse
                (delivered "dance") (sampleActionEvent "dance"))
      as (w'' & Hrun & Hactions & _);
      [reflexivity | apply sampleUuid_valid | reflexivity | reflexivity |].
    exists w''. auto.
Defined.

(** The executor on a conversation that is still in
    [REASONING_REQUESTED]. *)
Lemma executor_result_without_transition_witness :
  exists e w',
    executor sampleNumberToString sampleClock sampleUuid sampleParse
      (delivered "search") worldAfterFirstPost = (Throw e, w')
    /\ isInvalidTransition e = true
    /\ stateOf w' (sampleUuid 0) = Some REASONING_REQUESTED
    /\ statusOf w' (sampleUuid 7) = Some "processing".
Proof.
  edestruct (executor_result_without_transition sampleNumberToString
               sampleClock sampleUuid sampleParse (delivered "search")
               (sampleActionEvent "search") worldAfterFirstPost)
    as (e & w' & Hrun & Hinvalid & _ & Hstate & Hstatus & _).
  - reflexivity.
  - apply sampleUuid_valid.
  - vm_compute. exact I.
  - apply sampleUuid_valid.
  - reflexivity.
  - vm_compute. reflexivity.
  - vm_compute. reflexivity.
  - intros _. reflexivity.
  - apply sampleUuid_valid.
  - vm_compute. reflexivity.
  - discriminate.
  - exists e, w'. auto.
Defined.

(** The first request, through the three handlers. *)
Lemma pipeline_completes_witness :
  let w1 :=
    snd (postMessages sampleClock sampleUuid busUp None sampleRequest
           initialWorld) in
  let w2 :=
    snd (reasoner sampleIsUuid sampleClock sampleUuid busUp pipelineParse
           None (delivered "reasoning") w1) in
  let w3 :=
    snd (executor sampleNumberToString sampleClock sampleUuid pipelineParse
           (delivered "action") w2) in
  stateOf w3 (sampleUuid 0) = Some ACTION_COMPLETED
  /\ statusOf w3 (sampleUuid 2) = Some "completed"
  /\ statusOf w3 (sampleUuid 4) = Some "completed"
  /\ length (published w3) = 2%nat.
Proof.
  intros w1 w2 w3.
  edestruct (pipeline_completes sampleIsUuid sampleNumberToString
               sampleClock sampleUuid busUp pipelineParse None None
               sampleRequest (delivered "reasoning") (delivered "action")
               initialWorld)
    as (_ & _ & _ & _ & Hstate & Hfirst & Hsecond & _ & Hpublished).
  - reflexivity.
  - discriminate.
  - reflexivity.
  - exact sampleUuid_valid.
  - intros key Hkey. injection Hkey as <-. split; reflexivity.
  - reflexivity.
  - reflexivity.
  - vm_compute. reflexivity.
  - vm_compute. discriminate.
  - reflexivity.
  - reflexivity.
  - intros actionId'. reflexivity.
  - intros m Hm. vm_compute in Hm. injection Hm as <-.
    vm_compute. reflexivity.
  - intros m Hm. vm_compute in Hm. injection Hm as <-.
    vm_compute. reflexivity.
  - split; [exact Hstate |]. split; [exact Hfirst |].
    split; [exact Hsecond | exact Hpublished].
Defined.

(** The event of the first request, delivered without its event id. *)
Lemma consumers_reject_empty_event_id_witness :
  exists w',
    reasoner sampleIsUuid sampleClock sampleUuid busUp incompleteParse None
      (delivered "noevent") worldAfterFirstPost
    = (Throw invalidDocumentPath, w')
    /\ store w' = store worldAfterFirstPost
    /\ published w' = published worldAfterFirstPost.
Proof.
  destruct (consumers_reject_empty_event_id sampleIsUuid
              sampleNumberToString sampleClock sampleUuid busUp
              incompleteParse None (delivered "noevent")
              eventWithoutEventId worldAfterFirstPost)
    as (Hreasoner & _ & _ & Hstore & Hpublished).
  - reflexivity.
  - reflexivity.
  - eexists. split; [exact Hreasoner |]. split; assumption.
Defined.
